(** * MediChat RAG: the retrieval-and-answering decision pipeline

    A shallow embedding of [src/rag_chain.py], [src/vector_store.py],
    [src/chat_manager.py], [src/document_processor.py] and the ingestion
    path of [app.py], together with the properties of the query
    classifier, the answer orchestrator, the index build/search guards,
    the chunk accumulation and the conversation retention policy.

    Conventions of the embedding.
    - A Python [str] is a list of characters; characters are the code
      points 0..255 (Rocq's [ascii]), with [str.lower], [str.isspace],
      [str.strip] and [str.split] as CPython defines them on that range.
    - A Python [set] literal that is only iterated with [any] / [in] is
      the list of its elements in source order.
    - External collaborators (the chat model, FAISS, pypdf, the text
      splitter, the clock and the random source) are oracles indexed by
      the history of external calls made so far; every call is recorded
      in that history.
    - Logging and Streamlit display calls are not modelled. *)

From Stdlib Require Import Ascii String DecimalString.
From Stdlib Require Import ZArith Lia Bool Arith List.
Import ListNotations.

Set Implicit Arguments.

(* ===================================================================== *)
(** ** Python strings *)
(* ===================================================================== *)

Module Py.

Definition str := list ascii.

(** String literals of the source. *)
Definition lit (x : string) : str := list_ascii_of_string x.

Definition space : ascii := ascii_of_nat 32.
Definition newline : ascii := ascii_of_nat 10.
Definition dquote : ascii := ascii_of_nat 34.

(** [c.isspace()] on code points below 256: TAB..CR, FS..US, SPACE,
    NEL (0x85) and NBSP (0xA0). *)
Definition isspace (c : ascii) : bool :=
  let n := nat_of_ascii c in
  ((9 <=? n) && (n <=? 13)) || ((28 <=? n) && (n <=? 32))
  || (n =? 133) || (n =? 160).

(** [c.lower()] on code points below 256: A..Z and the Latin-1 capitals
    0xC0..0xDE (except the multiplication sign 0xD7) move up by 32. *)
Definition lower_char (c : ascii) : ascii :=
  let n := nat_of_ascii c in
  if ((65 <=? n) && (n <=? 90))
     || ((192 <=? n) && (n <=? 222) && negb (n =? 215))
  then ascii_of_nat (n + 32) else c.

Definition lower (s : str) : str := map lower_char s.

Fixpoint lstrip (s : str) : str :=
  match s with
  | [] => []
  | c :: r => if isspace c then lstrip r else s
  end.

Definition rstrip (s : str) : str := rev (lstrip (rev s)).

Definition strip (s : str) : str := rstrip (lstrip s).

(** [s.split()]: maximal runs of non-whitespace characters. [cur] is the
    word being read. *)
Fixpoint split_from (cur : str) (s : str) : list str :=
  match s with
  | [] => match cur with [] => [] | _ => [cur] end
  | c :: r =>
      if isspace c
      then match cur with [] => split_from [] r | _ => cur :: split_from [] r end
      else split_from (cur ++ [c]) r
  end.

Definition split (s : str) : list str := split_from [] s.

(** [sep.join(parts)] *)
Fixpoint join (sep : str) (parts : list str) : str :=
  match parts with
  | [] => []
  | [p] => p
  | p :: rest => p ++ sep ++ join sep rest
  end.

Fixpoint eqb (a b : str) : bool :=
  match a, b with
  | [], [] => true
  | x :: a', y :: b' => Ascii.eqb x y && eqb a' b'
  | _, _ => false
  end.

(** [s.startswith(p)] *)
Fixpoint startswith (s p : str) {struct p} : bool :=
  match p, s with
  | [], _ => true
  | _ :: _, [] => false
  | y :: p', x :: s' => Ascii.eqb x y && startswith s' p'
  end.

(** [sub in s] for strings. *)
Fixpoint contains (sub s : str) : bool :=
  startswith s sub ||
  match s with
  | [] => false
  | _ :: r => contains sub r
  end.

(** [x in set_literal] *)
Definition mem (x : str) (set : list str) : bool := existsb (eqb x) set.

(** [any(k in s for k in set_literal)] *)
Definition any_in (set : list str) (s : str) : bool :=
  existsb (fun k => contains k s) set.

(** [s[i:]] for a Python integer [i]: a negative start counts from the
    end and is clipped at 0, a start past the end gives the empty list. *)
Definition slice_from {A} (i : Z) (l : list A) : list A :=
  if (i <? 0)%Z
  then skipn (Z.to_nat (Z.max 0 (Z.of_nat (length l) + i))) l
  else skipn (Z.to_nat i) l.

(** [str(n)] for a natural number, and for an integer. *)
Definition str_of_nat (n : nat) : str :=
  lit (NilEmpty.string_of_uint (Nat.to_uint n)).

Definition str_of_Z (z : Z) : str :=
  lit (NilEmpty.string_of_int (Z.to_int z)).

(** [s[:j]] for a Python integer [j]: a negative stop counts from the
    end and is clipped at 0. *)
Definition slice_to {A} (j : Z) (l : list A) : list A :=
  if (j <? 0)%Z
  then firstn (Z.to_nat (Z.max 0 (Z.of_nat (length l) + j))) l
  else firstn (Z.to_nat j) l.

(** The position a slice bound denotes in a sequence of length [len]. *)
Definition clip (len : nat) (i : Z) : nat :=
  if (i <? 0)%Z then Z.to_nat (Z.max 0 (Z.of_nat len + i))
  else Nat.min (Z.to_nat i) len.

(** [l[i:j]] *)
Definition slice {A} (i j : Z) (l : list A) : list A :=
  let lo := clip (length l) i in
  let hi := clip (length l) j in
  firstn (hi - lo) (skipn lo l).

(** [s.endswith(suffix)] *)
Definition endswith (s suffix : str) : bool := startswith (rev s) (rev suffix).

(** [s.replace(c, new)] for a one-character string [c]. *)
Definition replace_char (c : ascii) (new : str) (s : str) : str :=
  flat_map (fun x => if Ascii.eqb x c then new else [x]) s.

End Py.

Abbreviation str := Py.str.

Notation "'s!' x" := (Py.lit x%string) (at level 1, x at level 0, only parsing).

(* ===================================================================== *)
(** ** The query classifier of [RAGChain] (pure part) *)
(* ===================================================================== *)

Module Classifier.

Definition greetings : list str :=
  [ s!"hi"; s!"hello"; s!"hey"; s!"greetings"; s!"good morning";
    s!"good afternoon"; s!"good evening"; s!"howdy"; s!"sup";
    s!"what's up"; s!"how are you"; s!"how's it going" ].

Definition farewells : list str :=
  [ s!"bye"; s!"goodbye"; s!"see you"; s!"take care"; s!"farewell";
    s!"adios"; s!"cya"; s!"see ya"; s!"cheerio"; s!"gotta go";
    s!"have to go"; s!"talk later"; s!"ttyl" ].

Definition unclear_keywords : list str :=
  [ s!"nothing"; s!"nope"; s!"nah"; s!"whatever"; s!"dunno"; s!"idk" ].

Definition document_keywords : list str :=
  [ s!"document"; s!"documents"; s!"file"; s!"pdf"; s!"mention";
    s!"mentioned"; s!"in the document"; s!"from the document";
    s!"uploaded"; s!"your document"; s!"my document"; s!"about the file";
    s!"does the document" ].

(** The body of the [for greeting in greetings] loop of [_is_greeting]:
    true when this iteration returns [True]. *)
Definition greeting_hit (query_lower greeting : str) : bool :=
  if Py.startswith query_lower greeting then
    let remaining := Py.strip (skipn (length greeting) query_lower) in
    match remaining with
    | [] => true
    | _ => length (Py.split remaining) <=? 2
    end
  else false.

Definition _is_greeting (query : str) : bool :=
  let query_lower := Py.strip (Py.lower query) in
  if Py.mem query_lower greetings then true
  else existsb (greeting_hit query_lower) greetings.

Definition _is_farewell (query : str) : bool :=
  let query_lower := Py.strip (Py.lower query) in
  Py.any_in farewells query_lower.

Definition _is_unclear_query (query : str) : bool :=
  let query_lower := Py.strip (Py.lower query) in
  (length (Py.split query_lower) =? 1) && Py.mem query_lower unclear_keywords.

Definition _is_document_question (query : str) : bool :=
  let query_lower := Py.lower query in
  Py.any_in document_keywords query_lower.

(** The five intents of the orchestrator, and the branch that the
    if-chain at the head of [answer_question] selects (greeting, then
    farewell, then unclear, then the document-question flag). *)
Inductive intent := Greeting | Farewell | Unclear | DocumentTargeted | General.

Definition classify (query : str) : intent :=
  if _is_greeting query then Greeting
  else if _is_farewell query then Farewell
  else if _is_unclear_query query then Unclear
  else if _is_document_question query then DocumentTargeted
  else General.

End Classifier.

Import Classifier.

(* ===================================================================== *)
(** ** Exceptions, external calls and the effect monad *)
(* ===================================================================== *)

(** Python exceptions that the modelled code raises itself, and the
    failures of external collaborators, which it never inspects. *)
Inductive exn :=
| ValueError (msg : str)
| IndexError (msg : str)
| ExternalError (msg : str).

(** [str(e)] *)
Definition exn_str (e : exn) : str :=
  match e with
  | ValueError m | IndexError m | ExternalError m => m
  end.

Inductive result (A : Type) :=
| Ok (a : A)
| Raise (e : exn).
Arguments Ok {A} a.
Arguments Raise {A} e.

Definition result_map {A B} (f : A -> B) (r : result A) : result B :=
  match r with
  | Ok a => Ok (f a)
  | Raise e => Raise e
  end.

(** Metadata dictionaries: insertion-ordered, string keys. *)
Inductive meta_value :=
| MStr (v : str)
| MInt (v : Z).

Definition metadata_dict := list (str * meta_value).

Fixpoint dict_get {V} (d : list (str * V)) (key : str) : option V :=
  match d with
  | [] => None
  | (k, v) :: rest => if Py.eqb k key then Some v else dict_get rest key
  end.

(** [{key: v, **d}]: the keys of [d] override an earlier [key]. *)
Definition dict_with_first {V} (key : str) (v : V) (d : list (str * V))
  : list (str * V) :=
  match dict_get d key with
  | Some v' => (key, v') :: filter (fun kv => negb (Py.eqb (fst kv) key)) d
  | None => (key, v) :: d
  end.

(** A chunk [{"content": ..., "metadata": ...}]; the ["metadata"] key may
    be missing ([doc.get("metadata", {})]). *)
Record Chunk := mkChunk {
  chunk_content : str;
  chunk_metadata : option metadata_dict
}.

(** [langchain_core.documents.Document] *)
Record Document := mkDocument {
  page_content : str;
  doc_metadata : metadata_dict
}.

(** A retrieval result [{"content", "metadata", "score"}]. *)
Record Retrieved := mkRetrieved {
  content : str;
  metadata : metadata_dict;
  score : option Z
}.

(** The calls that leave the program. *)
Inductive event :=
| LLMInvoke (prompt : str)
| FAISSFromDocuments (docs : list Document)
| RetrieverInvoke (k : Z) (query : str)
| RandomChoice (n : nat)
| DatetimeNow
| PdfRead (data : str)
| SplitText (text : str).

Definition history := list event.

Definition is_llm_call (e : event) : bool :=
  match e with LLMInvoke _ => true | _ => false end.

Definition is_index_access (e : event) : bool :=
  match e with
  | FAISSFromDocuments _ | RetrieverInvoke _ _ => true
  | _ => false
  end.

(** An object together with the history of external calls. *)
Record world (S : Type) := World {
  self : S;
  calls : history
}.
Arguments World {S} self calls.

(** Computations over an object of class [S]: the object and the history
    survive an exception. *)
Definition M (S A : Type) := world S -> result A * world S.

Definition ret {S A} (a : A) : M S A := fun w => (Ok a, w).

Definition raise {S A} (e : exn) : M S A := fun w => (Raise e, w).

Definition bind {S A B} (m : M S A) (k : A -> M S B) : M S B :=
  fun w =>
    match m w with
    | (Ok a, w') => k a w'
    | (Raise e, w') => (Raise e, w')
    end.

(** [try: m  except Exception as e: h e] *)
Definition try_except {S A} (m : M S A) (h : exn -> M S A) : M S A :=
  fun w =>
    match m w with
    | (Ok a, w') => (Ok a, w')
    | (Raise e, w') => h e w'
    end.

Definition get {S} : M S S := fun w => (Ok (self w), w).

Definition put {S} (s : S) : M S unit :=
  fun w => (Ok tt, World s (calls w)).

(** An external call: the collaborator answers as a function of the
    history so far, and the call is appended to the history. *)
Definition external {S A} (ev : event) (oracle : history -> result A) : M S A :=
  fun w => (oracle (calls w), World (self w) (calls w ++ [ev])).

(** Run a method of a sub-object held in a field of [S]. *)
Definition zoom {S T A} (proj : S -> T) (upd : T -> S -> S) (m : M T A) : M S A :=
  fun w =>
    match m (World (proj (self w)) (calls w)) with
    | (r, w') => (r, World (upd (self w') (self w)) (calls w'))
    end.

Declare Scope monad_scope.
Delimit Scope monad_scope with monad.
Notation "x <- m ;; k" := (bind m (fun x => k))
  (at level 61, m at next level, right associativity) : monad_scope.
Notation "m ;;; k" := (bind m (fun _ => k))
  (at level 61, right associativity) : monad_scope.

(** The external collaborators. [FAISS] is the type of built indexes. *)
Record Externals (FAISS : Type) := mkExternals {
  (** [self.llm.invoke(prompt).content] *)
  llm_invoke : history -> str -> result str;
  (** [FAISS.from_documents(docs, embeddings)] *)
  faiss_from_documents : history -> list Document -> result FAISS;
  (** similarity search of [k] neighbours in an index *)
  similarity_search : history -> FAISS -> Z -> str -> result (list Document);
  (** the raw number behind one [random.choice] *)
  getrandbits : history -> nat;
  (** [datetime.now()] as an instant *)
  datetime_now : history -> Z;
  (** [pypdf.PdfReader(...)] and [page.extract_text()] of every page *)
  pdf_page_texts : history -> str -> result (list str);
  (** [RecursiveCharacterTextSplitter.split_text] *)
  splitter_split_text : history -> str -> list str
}.

Definition lines (l : list str) : str := Py.join [Py.newline] l.

(* ===================================================================== *)
(** ** [src/rag_chain.py]: class [RAGChain] *)
(* ===================================================================== *)

Module RAGChain.
Section WithExternals.

Variable FAISS : Type.
Variable X : Externals FAISS.

(** The mutable attributes of a [RAGChain]; [retriever] is the index it
    was made from and its [k]. *)
Record t := mk {
  vector_store : option FAISS;
  retriever : option (FAISS * Z)
}.

(** [__init__] *)
Definition init : t := {| vector_store := None; retriever := None |}.

Definition to_document (doc : Chunk) : Document :=
  {| page_content := chunk_content doc;
     doc_metadata := match chunk_metadata doc with Some m => m | None => [] end |}.

Definition create_vector_store (documents : list Chunk) : M t unit :=
  try_except
    (let langchain_docs := map to_document documents in
     vs <- external (FAISSFromDocuments langchain_docs)
             (fun h => faiss_from_documents X h langchain_docs) ;;
     rc <- get ;;
     put {| vector_store := Some vs; retriever := retriever rc |} ;;;
     rc <- get ;;
     put {| vector_store := vector_store rc; retriever := Some (vs, 5%Z) |})%monad
    (fun e => raise e).

Definition to_retrieved (doc : Document) : Retrieved :=
  {| content := page_content doc; metadata := doc_metadata doc; score := None |}.

Definition retrieve_context (query : str) (top_k : Z) : M t (list Retrieved) :=
  (rc <- get ;;
   match vector_store rc with
   | None =>
       raise (ValueError s!"Vector store not initialized. Process documents first.")
   | Some vs =>
       try_except
         (retrieved_docs <- external (RetrieverInvoke top_k query)
                              (fun h => similarity_search X h vs top_k query) ;;
          ret (map to_retrieved retrieved_docs))
         (fun e => raise e)
   end)%monad.

Definition format_entry (i : nat) (doc : Retrieved) : str :=
  let source :=
    match dict_get (metadata doc) s!"source" with
    | Some (MStr v) => v
    | Some (MInt v) => Py.str_of_Z v
    | None => s!"Unknown"
    end in
  s!"[Document " ++ Py.str_of_nat i ++ s!" - " ++ source ++ s!"]"
  ++ [Py.newline] ++ content doc ++ [Py.newline].

(** [enumerate(context, start)] mapped through [format_entry]. *)
Fixpoint format_entries (start : nat) (context : list Retrieved) : list str :=
  match context with
  | [] => []
  | doc :: rest => format_entry start doc :: format_entries (S start) rest
  end.

Definition _format_context (context : list Retrieved) : str :=
  Py.join ([Py.newline] ++ s!"---" ++ [Py.newline]) (format_entries 1 context).

Definition _build_prompt (query context : str) : str :=
  lines
    [ s!"You are a helpful medical knowledge assistant. Use the provided context to answer the user's question accurately and concisely.";
      [];
      s!"CONTEXT:";
      context;
      [];
      s!"USER QUESTION:";
      query;
      [];
      s!"INSTRUCTIONS:";
      s!"- Answer based only on the provided context";
      s!"- If the context doesn't contain relevant information, say "
        ++ [Py.dquote] ++ s!"I don't have enough information to answer that"
        ++ [Py.dquote];
      s!"- Be concise and clear";
      s!"- Provide medical information responsibly";
      s!"- Include relevant citations from source documents";
      [];
      s!"ANSWER:" ].

Definition generate_response (query : str) (context : list Retrieved) : M t str :=
  try_except
    (let context_text := _format_context context in
     let prompt := _build_prompt query context_text in
     external (LLMInvoke prompt) (fun h => llm_invoke X h prompt))
    (fun e => raise e).

Definition general_prompt (query : str) : str :=
  lines
    [ s!"You are a helpful medical knowledge assistant. Answer the user's question based on your general knowledge.";
      [];
      s!"USER QUESTION:";
      query;
      [];
      s!"INSTRUCTIONS:";
      s!"- Answer naturally and conversationally";
      s!"- Be accurate and helpful";
      s!"- If it's a greeting, respond warmly";
      s!"- For medical questions, provide general information responsibly";
      s!"- Include disclaimers where appropriate";
      [];
      s!"ANSWER:" ].

Definition generate_response_without_context (query : str) : M t str :=
  try_except
    (let prompt := general_prompt query in
     external (LLMInvoke prompt) (fun h => llm_invoke X h prompt))
    (fun e => raise e).

(** [random.choice(seq)]: [seq[i]] for the [i < len(seq)] drawn from the
    random source; [IndexError] on an empty sequence. *)
Definition random_choice (seq : list str) : M t str :=
  match seq with
  | [] => raise (IndexError s!"Cannot choose from an empty sequence")
  | first :: _ =>
      (r <- external (RandomChoice (length seq)) (fun h => Ok (getrandbits X h)) ;;
       ret (nth (r mod length seq) seq first))%monad
  end.

Definition farewell_messages : list str :=
  [ s!"Goodbye! Feel free to come back anytime you have questions.";
    s!"See you later! Take care!";
    s!"Bye! I'm here whenever you need help.";
    s!"Have a great day! Come back if you need more information.";
    s!"Take care! See you soon!" ].

Definition _generate_farewell_message : M t str := random_choice farewell_messages.

Definition clarification_messages : list str :=
  [ s!"I'm not sure what you mean. Could you ask me a question about medical topics or your uploaded documents?";
    s!"Please provide more details. What would you like to know about?";
    s!"I'd be happy to help! Could you please rephrase your question?";
    s!"Can you ask me a specific question about medical topics or your documents?" ].

Definition _generate_clarification_message : M t str :=
  random_choice clarification_messages.

Definition refusal : str :=
  s!"I don't have enough information in the documents to answer that question.".

Definition nonempty {A} (l : list A) : bool :=
  match l with [] => false | _ => true end.

Definition answer_question (query : str) (top_k : Z) (use_documents_only : bool)
  : M t (str * list Retrieved) :=
  try_except
    (if _is_greeting query then
       answer <- generate_response_without_context query ;;
       ret (answer, [])
     else if _is_farewell query then
       answer <- _generate_farewell_message ;;
       ret (answer, [])
     else if _is_unclear_query query then
       answer <- _generate_clarification_message ;;
       ret (answer, [])
     else
       let is_document_question := _is_document_question query in
       rc <- get ;;
       match vector_store rc with
       | None =>
           answer <- generate_response_without_context query ;;
           ret (answer, [])
       | Some _ =>
           context <- retrieve_context query top_k ;;
           if is_document_question && nonempty context then
             answer <- generate_response query context ;;
             ret (answer, context)
           else if is_document_question then
             ret (refusal, [])
           else
             answer <- generate_response_without_context query ;;
             ret (answer, [])
       end)%monad
    (fun e => raise e).

End WithExternals.
End RAGChain.

(* ===================================================================== *)
(** ** [src/vector_store.py]: class [VectorStore] *)
(* ===================================================================== *)

Module VectorStore.
Section WithExternals.

Variable FAISS : Type.
Variable X : Externals FAISS.

Record t := mk { vector_store : option FAISS }.

(** [__init__] *)
Definition init : t := {| vector_store := None |}.

Definition create_vector_store (documents : list Chunk) : M t unit :=
  match documents with
  | [] => raise (ValueError s!"Documents list cannot be empty")
  | _ =>
      (let langchain_docs := map (RAGChain.to_document) documents in
       vs <- external (FAISSFromDocuments langchain_docs)
               (fun h => faiss_from_documents X h langchain_docs) ;;
       put {| vector_store := Some vs |})%monad
  end.

(** The result dictionaries [{"content": ...}]. *)
Definition query (query_text : str) (top_k : Z) : M t (list (list (str * str))) :=
  (vs <- get ;;
   match vector_store vs with
   | None => raise (ValueError s!"Vector store is not initialized.")
   | Some ix =>
       results <- external (RetrieverInvoke top_k query_text)
                    (fun h => similarity_search X h ix top_k query_text) ;;
       ret (map (fun doc => [(s!"content", page_content doc)]) results)
   end)%monad.

End WithExternals.
End VectorStore.

(* ===================================================================== *)
(** ** [src/document_processor.py]: class [DocumentProcessor] *)
(* ===================================================================== *)

Fixpoint for_each {S A} (l : list A) (body : A -> M S unit) : M S unit :=
  match l with
  | [] => ret tt
  | x :: rest => (body x ;;; for_each rest body)%monad
  end.

(** An uploaded file: its name and the bytes [file.read()] returns. *)
Record UploadedFile := mkFile {
  name : str;
  data : str
}.

Module DocumentProcessor.
Section WithExternals.

Variable FAISS : Type.
Variable X : Externals FAISS.

Record t := mk {
  chunk_size : Z;
  chunk_overlap : Z
}.

(** [__init__] with its defaults. *)
Definition init : t := {| chunk_size := 1000; chunk_overlap := 200 |}.

(** The [text += ...] loop over [enumerate(pdf_reader.pages)]. *)
Fixpoint page_markers (page_num : nat) (pages : list str) (text : str) : str :=
  match pages with
  | [] => text
  | page_text :: rest =>
      page_markers (S page_num) rest
        (text ++ [Py.newline] ++ s!"--- Page " ++ Py.str_of_nat (page_num + 1)
              ++ s!" ---" ++ [Py.newline] ++ page_text)
  end.

Definition extract_text_from_pdf (file : UploadedFile) : M t str :=
  try_except
    (pages <- external (PdfRead (data file)) (fun h => pdf_page_texts X h (data file)) ;;
     ret (page_markers 0 pages []))%monad
    (fun e => raise (ValueError (s!"Error reading PDF: " ++ exn_str e))).

Fixpoint chunked_docs (i : nat) (chunks : list str) (md : metadata_dict) : list Chunk :=
  match chunks with
  | [] => []
  | chunk :: rest =>
      {| chunk_content := chunk;
         chunk_metadata := Some (dict_with_first s!"chunk_id" (MInt (Z.of_nat i)) md) |}
      :: chunked_docs (S i) rest md
  end.

Definition chunk_text (text : str) (md : option metadata_dict) : M t (list Chunk) :=
  (chunks <- external (SplitText text) (fun h => Ok (splitter_split_text X h text)) ;;
   ret (chunked_docs 0 chunks (match md with Some d => d | None => [] end)))%monad.

Definition process_pdf (file : UploadedFile) (filename : str) : M t (list Chunk) :=
  (text <- extract_text_from_pdf file ;;
   let md := [(s!"source", MStr filename); (s!"type", MStr s!"pdf")] in
   chunks <- chunk_text text (Some md) ;;
   ret chunks)%monad.

End WithExternals.
End DocumentProcessor.

(* ===================================================================== *)
(** ** [src/chat_manager.py]: classes [ChatMessage] and [ChatManager] *)
(* ===================================================================== *)

Module ChatManager.
Section WithExternals.

Variable FAISS : Type.
Variable X : Externals FAISS.

Inductive message_meta :=
| Sources (l : list Retrieved)
| Text (v : str).

Record ChatMessage := mkMessage {
  role : str;
  content : str;
  timestamp : Z;
  metadata : list (str * message_meta)
}.

(** [ChatManager]; [conversation_id] is kept as the instant of which the
    source stores the formatting. *)
Record t := mk {
  messages : list ChatMessage;
  max_history : Z;
  conversation_id : Z
}.

(** [ChatMessage.__init__] *)
Definition new_message (role content : str) (md : option (list (str * message_meta)))
  : M t ChatMessage :=
  if negb (Py.mem role [s!"user"; s!"assistant"]) then
    raise (ValueError (s!"Role must be 'user' or 'assistant', got " ++ role))
  else
    (now <- external DatetimeNow (fun h => Ok (datetime_now X h)) ;;
     ret {| role := role; content := content; timestamp := now;
            metadata := match md with Some d => d | None => [] end |})%monad.

Definition _trim_history : M t unit :=
  (cm <- get ;;
   if (Z.of_nat (length (messages cm)) >? max_history cm)%Z then
     put {| messages := Py.slice_from (- max_history cm) (messages cm);
            max_history := max_history cm;
            conversation_id := conversation_id cm |}
   else ret tt)%monad.

Definition append_message (message : ChatMessage) : M t unit :=
  (cm <- get ;;
   put {| messages := messages cm ++ [message];
          max_history := max_history cm;
          conversation_id := conversation_id cm |})%monad.

Definition add_user_message (content : str) : M t ChatMessage :=
  (message <- new_message s!"user" content None ;;
   append_message message ;;;
   _trim_history ;;;
   ret message)%monad.

Definition add_assistant_message (content : str)
    (md : option (list (str * message_meta))) : M t ChatMessage :=
  (message <- new_message s!"assistant" content md ;;
   append_message message ;;;
   _trim_history ;;;
   ret message)%monad.

(** [__init__(max_history)], on an empty history of external calls. *)
Definition init (max_history : Z) (h : history) : world t :=
  World {| messages := []; max_history := max_history;
           conversation_id := datetime_now X h |}
        (h ++ [DatetimeNow]).

(** [get_context_messages]: the dictionaries [{"role", "content"}]. *)
Definition get_context_messages (cm : t) (num_messages : Z) : list (list (str * str)) :=
  let recent := Py.slice_from (- num_messages) (messages cm) in
  map (fun msg => [(s!"role", role msg); (s!"content", content msg)]) recent.

Definition clear_history : M t unit :=
  (cm <- get ;;
   put {| messages := []; max_history := max_history cm;
          conversation_id := conversation_id cm |} ;;;
   now <- external DatetimeNow (fun h => Ok (datetime_now X h)) ;;
   cm <- get ;;
   put {| messages := messages cm; max_history := max_history cm;
          conversation_id := now |})%monad.

(** [for msg in reversed(messages): if msg.role == r: return msg.content] *)
Fixpoint last_with_role (r : str) (reversed : list ChatMessage) : option str :=
  match reversed with
  | [] => None
  | msg :: rest => if Py.eqb (role msg) r then Some (content msg)
                   else last_with_role r rest
  end.

Definition get_last_user_message (cm : t) : option str :=
  last_with_role s!"user" (rev (messages cm)).

Definition get_last_assistant_message (cm : t) : option str :=
  last_with_role s!"assistant" (rev (messages cm)).

Definition count_role (r : str) (l : list ChatMessage) : nat :=
  length (filter (fun msg => Py.eqb (role msg) r) l).

(** [get_message_count]: the dictionary [{"user", "assistant"}]. *)
Definition get_message_count (cm : t) : list (str * nat) :=
  let user_count := count_role s!"user" (messages cm) in
  let assistant_count := count_role s!"assistant" (messages cm) in
  [(s!"user", user_count); (s!"assistant", assistant_count)].

(** The outcome of [get_sources_from_history]: the members of the set it
    builds (listed in order of first insertion; the order of [list(set)]
    is not specified), or the [TypeError] of adding an unhashable list
    to a set. *)
Inductive sources_outcome :=
| SourceList (l : list str)
| Unhashable.

Definition set_add (x : str) (s : list str) : list str :=
  if Py.mem x s then s else s ++ [x].

Fixpoint collect_sources (msgs : list ChatMessage) (sources : list str)
  : sources_outcome :=
  match msgs with
  | [] => SourceList sources
  | msg :: rest =>
      if Py.eqb (role msg) s!"assistant"
         && match metadata msg with [] => false | _ => true end
      then
        match dict_get (metadata msg) s!"source" with
        | Some (Text []) | Some (Sources []) | None => collect_sources rest sources
        | Some (Text v) => collect_sources rest (set_add v sources)
        | Some (Sources _) => Unhashable
        end
      else collect_sources rest sources
  end.

Definition get_sources_from_history (cm : t) : sources_outcome :=
  collect_sources (messages cm) [].

End WithExternals.
End ChatManager.

(* ===================================================================== *)
(** ** [src/utils.py] *)
(* ===================================================================== *)

Module Utils.

(** [range(start, stop, step)] as the list it iterates over. *)
Definition range (start stop step : Z) : result (list Z) :=
  if (step =? 0)%Z then Raise (ValueError s!"range() arg 3 must not be zero")
  else
    let count :=
      if (0 <? step)%Z
      then (if (start <? stop)%Z then (stop - start + step - 1) / step else 0)%Z
      else (if (stop <? start)%Z then (start - stop - step - 1) / (- step) else 0)%Z in
    Ok (map (fun i => (start + Z.of_nat i * step)%Z) (seq 0 (Z.to_nat count))).

(** The f-string rendering of a metadata value. *)
Definition meta_str (v : meta_value) : str :=
  match v with
  | MStr x => x
  | MInt z => Py.str_of_Z z
  end.

(** [d.get(key, "Unknown")] as it is printed. *)
Definition get_or_unknown (d : metadata_dict) (key : str) : str :=
  match dict_get d key with
  | Some v => meta_str v
  | None => s!"Unknown"
  end.

Definition source_line (source : Chunk) : str :=
  let md := match chunk_metadata source with Some m => m | None => [] end in
  let filename := get_or_unknown md s!"source" in
  let chunk_id := get_or_unknown md s!"chunk_id" in
  s!"- " ++ filename ++ s!" (Chunk " ++ chunk_id ++ s!")" ++ [Py.newline].

Definition format_response (content : str) (sources : list Chunk) : str :=
  match sources with
  | [] => content
  | _ =>
      fold_left (fun formatted source => formatted ++ source_line source) sources
        (content ++ [Py.newline; Py.newline] ++ s!"**Sources:**" ++ [Py.newline])
  end.

Definition truncate_text (text : str) (max_length : Z) (suffix : str) : str :=
  if (Z.of_nat (length text) <=? max_length)%Z then text
  else Py.slice_to (max_length - Z.of_nat (length suffix)) text ++ suffix.

Definition harmful_chars : list ascii :=
  [ "<"%char; ">"%char; "{"%char; "}"%char; "["%char; "]"%char; zero ].

Definition sanitize_input (text : str) : str :=
  let text := Py.join [Py.space] (Py.split text) in
  let text := fold_left (fun t char => Py.replace_char char [] t) harmful_chars text in
  Py.strip text.

Definition validate_pdf_file (filename : str) : bool :=
  Py.endswith (Py.lower filename) s!".pdf".

Definition split_into_chunks (text : str) (chunk_size : Z) : result (list str) :=
  let words := Py.split text in
  match range 0 (Z.of_nat (length words)) chunk_size with
  | Raise e => Raise e
  | Ok starts =>
      Ok (map (fun i => Py.join [Py.space] (Py.slice i (i + chunk_size) words)) starts)
  end.

(** [TokenCounter] *)
Definition CHARS_PER_TOKEN : Z := 4.

Definition estimate_tokens (text : str) : Z :=
  (Z.of_nat (length text) / CHARS_PER_TOKEN)%Z.

(** Documents are dictionaries with string values; a missing
    ["content"] counts as the empty string. *)
Definition estimate_from_documents (documents : list (list (str * str))) : Z :=
  let total_chars :=
    fold_left (fun acc doc =>
                 (acc + Z.of_nat (length (match dict_get doc s!"content" with
                                          | Some c => c
                                          | None => []
                                          end)))%Z)
              documents 0%Z in
  (total_chars / CHARS_PER_TOKEN)%Z.

End Utils.

(* ===================================================================== *)
(** ** [app.py]: the session state and [process_documents] *)
(* ===================================================================== *)

Module App.
Section WithExternals.

Variable FAISS : Type.
Variable X : Externals FAISS.

Record ProcessedDoc := mkProcessed {
  filename : str;
  chunks : list Chunk;
  num_chunks : nat
}.

(** [st.session_state] *)
Record session_state := mkSession {
  processed_docs : list ProcessedDoc;
  doc_processor : DocumentProcessor.t;
  rag_chain : RAGChain.t FAISS;
  chat_manager : ChatManager.t;
  all_chunks : list Chunk
}.

Definition set_rag_chain (rc : RAGChain.t FAISS) (st : session_state) :=
  {| processed_docs := processed_docs st; doc_processor := doc_processor st;
     rag_chain := rc; chat_manager := chat_manager st;
     all_chunks := all_chunks st |}.

Definition set_doc_processor (dp : DocumentProcessor.t) (st : session_state) :=
  {| processed_docs := processed_docs st; doc_processor := dp;
     rag_chain := rag_chain st; chat_manager := chat_manager st;
     all_chunks := all_chunks st |}.

Definition extend_all_chunks (cs : list Chunk) : M session_state unit :=
  (st <- get ;;
   put {| processed_docs := processed_docs st; doc_processor := doc_processor st;
          rag_chain := rag_chain st; chat_manager := chat_manager st;
          all_chunks := all_chunks st ++ cs |})%monad.

Definition append_processed_doc (d : ProcessedDoc) : M session_state unit :=
  (st <- get ;;
   put {| processed_docs := processed_docs st ++ [d];
          doc_processor := doc_processor st;
          rag_chain := rag_chain st; chat_manager := chat_manager st;
          all_chunks := all_chunks st |})%monad.

(** The body of [for file in uploaded_files], with its [try]/[except]. *)
Definition process_one_file (file : UploadedFile) : M session_state unit :=
  try_except
    (chunks <- zoom doc_processor set_doc_processor
                 (DocumentProcessor.process_pdf X file (name file)) ;;
     extend_all_chunks chunks ;;;
     append_processed_doc
       {| filename := name file; chunks := chunks; num_chunks := length chunks |})%monad
    (fun e => ret tt).

Definition process_documents (uploaded_files : list UploadedFile)
  : M session_state unit :=
  (for_each uploaded_files process_one_file ;;;
   st <- get ;;
   if RAGChain.nonempty (all_chunks st) then
     try_except
       (zoom rag_chain set_rag_chain
          (RAGChain.create_vector_store X (all_chunks st)))
       (fun e => ret tt)
   else ret tt)%monad.

Definition set_chat_manager (cm : ChatManager.t) (st : session_state) :=
  {| processed_docs := processed_docs st; doc_processor := doc_processor st;
     rag_chain := rag_chain st; chat_manager := cm;
     all_chunks := all_chunks st |}.

Definition handle_user_query (prompt : str) : M session_state unit :=
  (let clean_prompt := Utils.sanitize_input prompt in
   zoom chat_manager set_chat_manager
     (ChatManager.add_user_message X clean_prompt) ;;;
   try_except
     (st <- get ;;
      answered <-
        (if RAGChain.nonempty (processed_docs st) then
           zoom rag_chain set_rag_chain
             (RAGChain.answer_question X clean_prompt 5 false)
         else
           answer <- zoom rag_chain set_rag_chain
                       (RAGChain.generate_response_without_context X clean_prompt) ;;
           ret (answer, [])) ;;
      zoom chat_manager set_chat_manager
        (ChatManager.add_assistant_message X (fst answered)
           (Some [(s!"sources", ChatManager.Sources (snd answered))])) ;;;
      ret tt)
     (fun e => ret tt))%monad.

End WithExternals.
End App.

(* ===================================================================== *)
(** ** Vocabulary of the statements *)
(* ===================================================================== *)

(** A word: non-empty, no whitespace. *)
Definition nospace (s : str) : bool := forallb (fun c => negb (Py.isspace c)) s.

Definition is_word (w : str) : Prop := w <> [] /\ nospace w = true.

(** Strings that neither start nor end with whitespace. *)
Definition trimmed (s : str) : Prop := Py.lstrip s = s /\ Py.lstrip (rev s) = rev s.


(** The greeting rule in the words of the specification: the trimmed
    lowercase query is a greeting phrase, or it starts with one and what
    follows the phrase, trimmed, is empty or has at most two words. *)
Definition greeting_rule (query_lower : str) : Prop :=
  In query_lower greetings \/
  exists greeting rest,
    In greeting greetings /\ query_lower = greeting ++ rest /\
    (Py.strip rest = [] \/ length (Py.split (Py.strip rest)) <= 2).

(** A greeting phrase followed by further words, separated by blanks. *)
Definition followed_by (phrase : str) (ws : list str) : str :=
  phrase ++ [Py.space] ++ Py.join [Py.space] ws.

(** The external calls made by running [m] from the world [w]. *)
Definition calls_during {S A} (m : M S A) (w : world S) : history :=
  skipn (length (calls w)) (calls (snd (m w))).

(** The pair an orchestrator branch returns when it cites nothing. *)
Definition uncited (answer : str) : str * list Retrieved := (answer, []).

(** A test double for the collaborators: the chat model echoes its
    prompt, an index is the list of documents it was built from, a search
    returns the first [k] of them, and the random source and the clock
    count the calls made so far. *)
Definition double : Externals (list Document) :=
  {| llm_invoke := fun _ prompt => Ok prompt;
     faiss_from_documents := fun _ docs => Ok docs;
     similarity_search := fun _ ix k _ => Ok (firstn (Z.to_nat k) ix);
     getrandbits := fun h => length h;
     datetime_now := fun h => Z.of_nat (length h);
     pdf_page_texts := fun _ data =>
       match data with
       | [] => Raise (ExternalError s!"Cannot read an empty file")
       | _ => Ok [data]
       end;
     splitter_split_text := fun _ text => [text] |}.

(** The same double over an index service that is down. *)
Definition double_unavailable : Externals (list Document) :=
  {| llm_invoke := llm_invoke double;
     faiss_from_documents := fun _ _ => Raise (ExternalError s!"list index out of range");
     similarity_search := similarity_search double;
     getrandbits := getrandbits double;
     datetime_now := datetime_now double;
     pdf_page_texts := pdf_page_texts double;
     splitter_split_text := splitter_split_text double |}.

(** The last [n] elements of a list. *)
Definition last_n {A} (n : nat) (l : list A) : list A := skipn (length l - n) l.

(** One append to the conversation store. *)
Inductive turn :=
| UserTurn (content : str)
| AssistantTurn (content : str) (md : option (list (str * ChatManager.message_meta))).

Definition add_turn {FAISS} (X : Externals FAISS) (t : turn)
  : M ChatManager.t ChatManager.ChatMessage :=
  match t with
  | UserTurn c => ChatManager.add_user_message X c
  | AssistantTurn c md => ChatManager.add_assistant_message X c md
  end.

Definition add_turns {FAISS} (X : Externals FAISS) (ts : list turn)
  : M ChatManager.t unit :=
  for_each ts (fun t => bind (add_turn X t) (fun _ => ret tt)).

(** The messages that a run of appends constructs, in order, when it
    starts from the history [h]: each append reads the clock once. *)
Fixpoint created {FAISS} (X : Externals FAISS) (ts : list turn) (h : history)
  : list ChatManager.ChatMessage :=
  match ts with
  | [] => []
  | t :: rest =>
      let message :=
        match t with
        | UserTurn c =>
            ChatManager.mkMessage s!"user" c (datetime_now X h) []
        | AssistantTurn c md =>
            ChatManager.mkMessage s!"assistant" c (datetime_now X h)
              (match md with Some d => d | None => [] end)
        end in
      message :: created X rest (h ++ [DatetimeNow])
  end.

(** The session state that [initialize_session_state] installs. *)
Definition initial_session {FAISS} (X : Externals FAISS) (max_history : Z)
  : world (App.session_state FAISS) :=
  let cm := ChatManager.init X max_history [] in
  World {| App.processed_docs := [];
           App.doc_processor := DocumentProcessor.init;
           App.rag_chain := RAGChain.init FAISS;
           App.chat_manager := self cm;
           App.all_chunks := [] |}
        (calls cm).

(** The chunks recorded with the processed documents, in upload order. *)
Definition recorded_chunks {FAISS} (st : App.session_state FAISS) : list Chunk :=
  concat (map (@App.chunks) (App.processed_docs st)).

(** The batch of one [process_documents] call, read off the uploads:
    going through [uploaded_files] in order, from the processor [dp] and
    the call history [h], every file on which [process_pdf] returns
    gives one record with the file's name, the chunks [process_pdf]
    returned and their number; a file on which it raises gives none. *)
Fixpoint batch_records {FAISS} (X : Externals FAISS)
    (uploaded_files : list UploadedFile) (dp : DocumentProcessor.t) (h : history)
  : list App.ProcessedDoc :=
  match uploaded_files with
  | [] => []
  | file :: rest =>
      let out := DocumentProcessor.process_pdf X file (name file) (World dp h) in
      let later := batch_records X rest (self (snd out)) (calls (snd out)) in
      match fst out with
      | Ok chunks => App.mkProcessed (name file) chunks (length chunks) :: later
      | Raise _ => later
      end
  end.

(** What [_trim_history] leaves of a message list. *)
Definition trimmed_to (max_history : Z) (l : list ChatManager.ChatMessage) :=
  if (Z.of_nat (length l) >? max_history)%Z
  then Py.slice_from (- max_history) l else l.

(** What the upload loop of [process_documents] does to the session
    between the worlds [w] and [w']: the documents [new] are recorded,
    their chunks are appended, the orchestrator and the conversation are
    untouched and the index backend is not called. *)
Record file_effect {FAISS} (w w' : world (App.session_state FAISS))
    (new : list App.ProcessedDoc) : Prop := {
  fe_docs : App.processed_docs (self w') = App.processed_docs (self w) ++ new;
  fe_chunks : App.all_chunks (self w')
              = App.all_chunks (self w) ++ concat (map (@App.chunks) new);
  fe_rag : App.rag_chain (self w') = App.rag_chain (self w);
  fe_chat : App.chat_manager (self w') = App.chat_manager (self w);
  fe_calls : exists evs, calls w' = calls w ++ evs
                         /\ existsb is_index_access evs = false
}.

(** A session: one [process_documents] call per batch of uploads. *)
Definition run_session {FAISS} (X : Externals FAISS)
    (batches : list (list UploadedFile)) : M (App.session_state FAISS) unit :=
  for_each batches (App.process_documents X).

(** Strings made of whitespace only. *)
Definition blank (s : str) : bool := forallb Py.isspace s.

(** Strings free of the characters [sanitize_input] removes. *)
Definition harmless (s : str) : Prop := forall c, In c s -> ~ In c Utils.harmful_chars.

(** The number of words of a string, and the least number of chunks of
    [n] words that hold [len] words. *)
Definition word_count (s : str) : nat := length (Py.split s).

Definition chunks_needed (len n : nat) : nat := (len + n - 1) / n.

(** The content of a document dictionary, empty when the key is absent. *)
Definition content_or_empty (doc : list (str * str)) : str :=
  match dict_get doc s!"content" with Some c => c | None => [] end.

(** Messages whose role is one of the two that [ChatMessage] accepts. *)
Definition valid_role (msg : ChatManager.ChatMessage) : Prop :=
  ChatManager.role msg = s!"user" \/ ChatManager.role msg = s!"assistant".

(** The dictionary [get_context_messages] makes of a message. *)
Definition context_entry (msg : ChatManager.ChatMessage) : list (str * str) :=
  [(s!"role", ChatManager.role msg); (s!"content", ChatManager.content msg)].

(** Messages that carry no ["source"] entry in their metadata. *)
Definition no_source_key (msg : ChatManager.ChatMessage) : Prop :=
  dict_get (ChatManager.metadata msg) s!"source" = None.

(** Messages whose ["source"] entry, if any, is not a non-empty list. *)
Definition hashable_source (msg : ChatManager.ChatMessage) : Prop :=
  forall l, dict_get (ChatManager.metadata msg) s!"source"
            = Some (ChatManager.Sources l) -> l = [].

(** [msg] is an assistant message that names the source [x]. *)
Definition names_source (x : str) (msg : ChatManager.ChatMessage) : Prop :=
  ChatManager.role msg = s!"assistant"
  /\ dict_get (ChatManager.metadata msg) s!"source" = Some (ChatManager.Text x).

(** The document keywords of which every other keyword is an extension. *)
Definition document_roots : list str :=
  [ s!"document"; s!"file"; s!"pdf"; s!"mention"; s!"uploaded" ].

(** Strings whose first and last characters are not whitespace. *)
Definition solid_ends (k : str) : bool :=
  match k with c :: _ => negb (Py.isspace c) | [] => false end
  && match rev k with c :: _ => negb (Py.isspace c) | [] => false end.

(** The calls the orchestrator may make while it answers. *)
Definition answering_call (e : event) : Prop :=
  match e with
  | LLMInvoke _ | RetrieverInvoke _ _ | RandomChoice _ => True
  | _ => False
  end.

(** The test double with a search service that is down. *)
Definition double_search_down : Externals (list Document) :=
  {| llm_invoke := llm_invoke double;
     faiss_from_documents := faiss_from_documents double;
     similarity_search := fun _ _ _ _ => Raise (ExternalError s!"index unavailable");
     getrandbits := getrandbits double;
     datetime_now := datetime_now double;
     pdf_page_texts := pdf_page_texts double;
     splitter_split_text := splitter_split_text double |}.

(** The label under which a retrieved document appears in the grounded
    prompt. *)
Definition source_label (doc : Retrieved) : str :=
  Utils.get_or_unknown (metadata doc) s!"source".

(** The block of the grounded prompt for the document numbered [n]. *)
Definition context_block (n : nat) (doc : Retrieved) : str :=
  s!"[Document " ++ Py.str_of_nat n ++ s!" - " ++ source_label doc ++ s!"]"
  ++ [Py.newline] ++ content doc ++ [Py.newline].

(** The metadata [process_pdf] attaches to the chunk numbered [i] of the
    file [filename]. *)
Definition pdf_chunk_metadata (i : nat) (filename : str) : metadata_dict :=
  [(s!"chunk_id", MInt (Z.of_nat i)); (s!"source", MStr filename);
   (s!"type", MStr s!"pdf")].

(** Processed documents whose recorded count is the number of their
    chunks. *)
Definition counted (d : App.ProcessedDoc) : Prop :=
  App.num_chunks d = length (App.chunks d).
(* ===================================================================== *)
(** * Properties *)
(* ===================================================================== *)

(** ** Strings *)

Section StringFacts.

Example greeting_hello_there_friend : _is_greeting s!"Hello there friend" = true.
Proof. reflexivity. Qed.

Example greeting_long_sentence :
  _is_greeting s!"hello can you tell me about diabetes" = false.
Proof. reflexivity. Qed.

Example split_example :
  Py.split s!"  good   morning to you " = [s!"good"; s!"morning"; s!"to"; s!"you"].
Proof. reflexivity. Qed.

Example slice_examples :
  Py.slice_from (-2) [1;2;3;4;5] = [4;5] /\ Py.slice_from (-9) [1;2;3] = [1;2;3]
  /\ Py.slice_from 0 [1;2;3] = [1;2;3] /\ Py.slice_from 7 [1;2;3] = [].
Proof. repeat split. Qed.

Lemma eqb_eq (a b : str) : Py.eqb a b = true <-> a = b.
Proof.
  revert b; induction a as [| x a IH]; intros [| y b]; simpl; split;
    try congruence; try reflexivity.
  - intros H. apply andb_true_iff in H as [Hx Hab].
    apply Ascii.eqb_eq in Hx. apply IH in Hab. congruence.
  - intros H. injection H as -> ->. apply andb_true_iff; split.
    + apply Ascii.eqb_refl.
    + now apply IH.
Qed.

Lemma mem_In (x : str) (l : list str) : Py.mem x l = true <-> In x l.
Proof.
  unfold Py.mem. rewrite existsb_exists. split.
  - intros (y & Hy & E). apply eqb_eq in E. now subst.
  - intros H. exists x. split; [assumption | now apply eqb_eq].
Qed.

Lemma startswith_iff (s p : str) :
  Py.startswith s p = true <-> exists r, s = p ++ r.
Proof.
  revert s; induction p as [| y p IH]; intros s; simpl.
  - split; [intros _; now exists s | reflexivity].
  - destruct s as [| x s].
    + split; [discriminate | intros (r & E); discriminate].
    + rewrite andb_true_iff, Ascii.eqb_eq, IH. split.
      * intros (-> & r & ->). now exists r.
      * intros (r & E). injection E as -> ->. split; [reflexivity | now exists r].
Qed.

Lemma startswith_app (p r : str) : Py.startswith (p ++ r) p = true.
Proof. apply startswith_iff. now exists r. Qed.

Lemma contains_iff (sub s : str) :
  Py.contains sub s = true <-> exists a b, s = a ++ sub ++ b.
Proof.
  induction s as [| c s IH].
  - simpl. rewrite orb_false_r, startswith_iff. split.
    + intros (r & E). now exists [], r.
    + intros (a & b & E). destruct a; [now exists b | discriminate].
  - simpl. rewrite orb_true_iff, startswith_iff, IH. split.
    + intros [(r & E) | (a & b & E)].
      * now exists [], r.
      * exists (c :: a), b. simpl. now rewrite E.
    + intros (a & b & E). destruct a as [| x a].
      * left. now exists b.
      * right. injection E as _ E. now exists a, b.
Qed.

(** Two prefixes of one string are comparable. *)
Lemma startswith_comparable (g g' x : str) :
  Py.startswith (g ++ x) g' = true ->
  Py.startswith g g' = true \/ Py.startswith g' g = true.
Proof.
  revert g'; induction g as [| c g IH]; intros g' H.
  - right. now destruct g'.
  - destruct g' as [| c' g']; [now left |].
    simpl in *. apply andb_true_iff in H as [Hc H].
    rewrite Hc. apply Ascii.eqb_eq in Hc. subst c'.
    rewrite Ascii.eqb_refl. simpl. now apply IH.
Qed.

Lemma isspace_lower_char (c : ascii) :
  Py.isspace (Py.lower_char c) = Py.isspace c.
Proof.
  destruct c as [[] [] [] [] [] [] [] []]; reflexivity.
Qed.

Lemma lower_app (a b : str) : Py.lower (a ++ b) = Py.lower a ++ Py.lower b.
Proof. apply map_app. Qed.

Lemma nospace_lower (s : str) : nospace (Py.lower s) = nospace s.
Proof.
  induction s as [| c s IH]; simpl; [reflexivity |].
  now rewrite isspace_lower_char, IH.
Qed.

Lemma nospace_app (a b : str) : nospace (a ++ b) = nospace a && nospace b.
Proof. apply forallb_app. Qed.

Lemma nospace_rev (s : str) : nospace (rev s) = nospace s.
Proof.
  induction s as [| c s IH]; simpl; [reflexivity |].
  rewrite nospace_app, IH. simpl. rewrite andb_true_r. apply andb_comm.
Qed.

Lemma is_word_lower (w : str) : is_word w -> is_word (Py.lower w).
Proof.
  intros [Hne Hns]. split.
  - destruct w; [congruence | discriminate].
  - now rewrite nospace_lower.
Qed.

Lemma strip_trimmed (s : str) : trimmed s -> Py.strip s = s.
Proof.
  intros [Hl Hr]. unfold Py.strip, Py.rstrip. rewrite Hl, Hr. apply rev_involutive.
Qed.

Lemma lstrip_nospace_head (c : ascii) (s : str) :
  Py.isspace c = false -> Py.lstrip (c :: s) = c :: s.
Proof. intros H. simpl. now rewrite H. Qed.

Lemma lstrip_word_app (w r : str) : is_word w -> Py.lstrip (w ++ r) = w ++ r.
Proof.
  intros [Hne Hns]. destruct w as [| c w]; [congruence |].
  simpl in Hns. apply andb_true_iff in Hns as [Hc _].
  apply negb_true_iff in Hc. simpl. now rewrite Hc.
Qed.

Lemma nospace_trimmed (s : str) : nospace s = true -> trimmed s.
Proof.
  intros H. split.
  - destruct s as [| c s]; [reflexivity |].
    rewrite <- (app_nil_r (c :: s)). apply lstrip_word_app. now split.
  - rewrite <- nospace_rev in H. destruct (rev s) as [| c r]; [reflexivity |].
    rewrite <- (app_nil_r (c :: r)). apply lstrip_word_app. now split.
Qed.

(** A string that starts with a word and ends with a word. *)
Lemma trimmed_between (w1 mid w2 : str) :
  is_word w1 -> is_word w2 -> trimmed (w1 ++ mid ++ w2).
Proof.
  intros H1 H2. split.
  - now apply lstrip_word_app.
  - rewrite !rev_app_distr, <- app_assoc. apply lstrip_word_app.
    destruct H2 as [Hne Hns]. split.
    + intros E. apply (f_equal (@rev ascii)) in E.
      rewrite rev_involutive in E. now simpl in E.
    + now rewrite nospace_rev.
Qed.

Lemma split_from_nospace (w cur r : str) :
  nospace w = true -> Py.split_from cur (w ++ r) = Py.split_from (cur ++ w) r.
Proof.
  revert cur; induction w as [| c w IH]; intros cur H; simpl.
  - now rewrite app_nil_r.
  - simpl in H. apply andb_true_iff in H as [Hc Hw].
    apply negb_true_iff in Hc. rewrite Hc, IH by assumption.
    now rewrite <- app_assoc.
Qed.

Lemma split_word (w : str) : is_word w -> Py.split w = [w].
Proof.
  intros [Hne Hns]. unfold Py.split.
  rewrite <- (app_nil_r w) at 1. rewrite split_from_nospace by assumption.
  simpl. destruct w; [congruence | reflexivity].
Qed.

Lemma split_nospace_length (s : str) :
  nospace s = true -> length (Py.split s) <= 1.
Proof.
  intros H. destruct s as [| c s]; [simpl; lia |].
  rewrite split_word; [simpl; lia | now split].
Qed.

Lemma split_from_space (cur r : str) :
  cur <> [] -> Py.split_from cur (Py.space :: r) = cur :: Py.split_from [] r.
Proof. intros H. destruct cur; [congruence | reflexivity]. Qed.

Lemma join_cons2 (sep w w2 : str) (ws : list str) :
  Py.join sep (w :: w2 :: ws) = w ++ sep ++ Py.join sep (w2 :: ws).
Proof. reflexivity. Qed.

Lemma split_join_words (ws : list str) :
  Forall is_word ws -> Py.split (Py.join [Py.space] ws) = ws.
Proof.
  unfold Py.split. induction ws as [| w ws IH]; intros H; [reflexivity |].
  inversion H as [| ? ? Hw Hws]; subst.
  destruct ws as [| w2 ws].
  - now apply split_word.
  - destruct Hw as [Hne Hns].
    rewrite join_cons2, split_from_nospace by assumption.
    change ([] ++ w) with w.
    change ([Py.space] ++ Py.join [Py.space] (w2 :: ws))
      with (Py.space :: Py.join [Py.space] (w2 :: ws)).
    rewrite split_from_space by assumption.
    now rewrite IH.
Qed.

(** The join of a non-empty list of words starts and ends with a word. *)
Lemma join_words_shape (w : str) (ws : list str) :
  Forall is_word (w :: ws) ->
  Py.join [Py.space] (w :: ws) = w
  \/ exists mid w', is_word w' /\ Py.join [Py.space] (w :: ws) = w ++ mid ++ w'.
Proof.
  revert w; induction ws as [| w2 ws IH]; intros w H; [now left |].
  right. inversion H as [| ? ? Hw Hws]; subst.
  rewrite join_cons2.
  destruct (IH w2 Hws) as [E | (mid & w' & Hw' & E)]; rewrite E.
  - exists [Py.space], w2. split; [now inversion Hws | reflexivity].
  - exists ([Py.space] ++ w2 ++ mid), w'. split; [assumption |].
    now rewrite <- !app_assoc.
Qed.

End StringFacts.

(** ** The effect monad *)

Lemma try_except_reraise {S A} (m : M S A) (w : world S) :
  try_except m (fun e => raise e) w = m w.
Proof.
  unfold try_except, raise. destruct (m w) as [[a | e] w']; reflexivity.
Qed.

(* ===================================================================== *)
(** ** The greeting check *)
(* ===================================================================== *)

Section Greeting.

Lemma skipn_length_app {A} (l r : list A) : skipn (length l) (l ++ r) = r.
Proof. induction l; simpl; auto. Qed.

Lemma greeting_hit_iff (ql g : str) :
  greeting_hit ql g = true <->
  exists rest, ql = g ++ rest /\
    (Py.strip rest = [] \/ length (Py.split (Py.strip rest)) <= 2).
Proof.
  unfold greeting_hit. destruct (Py.startswith ql g) eqn:Hs.
  - apply startswith_iff in Hs as (rest & ->). rewrite skipn_length_app.
    split.
    + intros H. exists rest. split; [reflexivity |].
      destruct (Py.strip rest); [now left | right; now apply Nat.leb_le].
    + intros (rest' & E & H). apply app_inv_head in E. subst rest'.
      destruct (Py.strip rest); [reflexivity |].
      destruct H as [H | H]; [discriminate | now apply Nat.leb_le].
  - split; [discriminate |]. intros (rest & -> & _).
    now rewrite startswith_app in Hs.
Qed.

Lemma _is_greeting_iff (query : str) :
  _is_greeting query = true <-> greeting_rule (Py.strip (Py.lower query)).
Proof.
  unfold _is_greeting, greeting_rule.
  set (ql := Py.strip (Py.lower query)).
  destruct (Py.mem ql greetings) eqn:Hm.
  - apply mem_In in Hm. tauto.
  - rewrite existsb_exists. split.
    + intros (g & Hg & Hit). apply greeting_hit_iff in Hit as (rest & E & H).
      right. now exists g, rest.
    + intros [Hin | (g & rest & Hg & E & H)].
      * apply mem_In in Hin. congruence.
      * exists g. split; [assumption |]. apply greeting_hit_iff. now exists rest.
Qed.

Lemma classify_greeting (query : str) :
  classify query = Greeting <-> _is_greeting query = true.
Proof.
  unfold classify. destruct (_is_greeting query); [tauto |].
  destruct (_is_farewell query); [split; discriminate |].
  destruct (_is_unclear_query query); [split; discriminate |].
  destruct (_is_document_question query); split; discriminate.
Qed.

(** No greeting phrase is a proper prefix of another one. *)
Lemma greetings_prefix_free (g g' : str) :
  In g greetings -> In g' greetings -> Py.startswith g g' = true -> g = g'.
Proof.
  assert (Hall : forallb (fun a => forallb (fun b =>
            implb (Py.startswith a b) (Py.eqb a b)) greetings) greetings = true)
    by reflexivity.
  intros Hg Hg' Hs. rewrite forallb_forall in Hall.
  specialize (Hall g Hg). rewrite forallb_forall in Hall.
  specialize (Hall g' Hg'). rewrite Hs in Hall. now apply eqb_eq.
Qed.

Lemma greetings_lowercase (g : str) : In g greetings -> Py.lower g = g.
Proof.
  assert (Hall : forallb (fun a => Py.eqb (Py.lower a) a) greetings = true)
    by reflexivity.
  intros Hg. rewrite forallb_forall in Hall. now apply eqb_eq, Hall.
Qed.

Lemma greetings_head (g : str) :
  In g greetings -> exists c r, g = c :: r /\ is_word [c].
Proof.
  assert (Hall : forallb (fun a => match a with
                                   | c :: _ => negb (Py.isspace c)
                                   | [] => false
                                   end) greetings = true) by reflexivity.
  intros Hg. rewrite forallb_forall in Hall. specialize (Hall g Hg).
  destruct g as [| c r]; [discriminate |]. exists c, r.
  split; [reflexivity |]. split; [discriminate |]. simpl. now rewrite Hall.
Qed.

Lemma lower_join_space (ws : list str) :
  Py.lower (Py.join [Py.space] ws) = Py.join [Py.space] (map Py.lower ws).
Proof.
  induction ws as [| w ws IH]; [reflexivity |].
  destruct ws as [| w2 ws]; [reflexivity |].
  rewrite join_cons2, !lower_app, IH. reflexivity.
Qed.

Lemma join_words_trimmed (w : str) (ws : list str) :
  Forall is_word (w :: ws) -> trimmed (Py.join [Py.space] (w :: ws)).
Proof.
  intros H. destruct (join_words_shape H) as [E | (mid & w' & Hw' & E)]; rewrite E.
  - apply nospace_trimmed. inversion H as [| ? ? [_ Hns] _]. exact Hns.
  - apply trimmed_between; [now inversion H | assumption].
Qed.

Lemma strip_space_cons (s : str) : trimmed s -> Py.strip (Py.space :: s) = s.
Proof.
  intros H. unfold Py.strip.
  change (Py.lstrip (Py.space :: s)) with (Py.lstrip s).
  now apply strip_trimmed.
Qed.

(** The trimmed lowercase form of a greeting phrase followed by words. *)
Lemma followed_by_lower (g w : str) (ws : list str) :
  In g greetings -> Forall is_word (w :: ws) ->
  Py.strip (Py.lower (followed_by g (w :: ws)))
  = g ++ Py.space :: Py.join [Py.space] (map Py.lower (w :: ws)).
Proof.
  intros Hg Hws. unfold followed_by.
  rewrite !lower_app, lower_join_space, (greetings_lowercase Hg).
  change (Py.lower [Py.space]) with [Py.space].
  assert (Hl : Forall is_word (map Py.lower (w :: ws))).
  { apply Forall_map. eapply Forall_impl; [| exact Hws]. apply is_word_lower. }
  apply strip_trimmed.
  destruct (greetings_head Hg) as (c & r & -> & Hc).
  simpl map in *.
  destruct (join_words_shape Hl) as [E | (mid & w' & Hw' & E)]; rewrite E.
  - match goal with |- trimmed ?x =>
      replace x with ([c] ++ (r ++ [Py.space]) ++ Py.lower w)
        by (simpl; rewrite <- ?app_assoc; simpl; now rewrite <- ?app_assoc) end.
    apply trimmed_between; [assumption | now inversion Hl].
  - match goal with |- trimmed ?x =>
      replace x with ([c] ++ (r ++ [Py.space] ++ Py.lower w ++ mid) ++ w')
        by (simpl; rewrite <- ?app_assoc; simpl; now rewrite <- ?app_assoc) end.
    now apply trimmed_between.
Qed.

Lemma greeting_three_words (g : str) (ws : list str) :
  In g greetings -> Forall is_word ws -> 3 <= length ws ->
  _is_greeting (followed_by g ws) = false.
Proof.
  intros Hg Hws Hlen. destruct ws as [| w ws]; [simpl in Hlen; lia |].
  unfold _is_greeting. rewrite (followed_by_lower Hg Hws).
  set (J := Py.join [Py.space] (map Py.lower (w :: ws))).
  assert (Hl : Forall is_word (map Py.lower (w :: ws))).
  { apply Forall_map. eapply Forall_impl; [| exact Hws]. apply is_word_lower. }
  assert (HJ : trimmed J) by (now apply join_words_trimmed).
  assert (Hsplit : Py.split J = map Py.lower (w :: ws))
    by (now apply split_join_words).
  destruct (Py.mem (g ++ Py.space :: J) greetings) eqn:Hm.
  - exfalso. apply mem_In in Hm.
    assert (E : g ++ Py.space :: J = g).
    { apply greetings_prefix_free; try assumption. apply startswith_app. }
    apply (f_equal (@length ascii)) in E. rewrite length_app in E. simpl in E. lia.
  - apply not_true_is_false. intros Hex.
    apply existsb_exists in Hex as (g' & Hg' & Hit).
    assert (Hs : Py.startswith (g ++ Py.space :: J) g' = true).
    { apply greeting_hit_iff in Hit as (rest & E & _). rewrite E.
      apply startswith_app. }
    assert (g' = g) as ->.
    { apply startswith_comparable in Hs as [Hs | Hs].
      - symmetry. now apply greetings_prefix_free.
      - now apply greetings_prefix_free. }
    apply greeting_hit_iff in Hit as (rest & E & H).
    apply app_inv_head in E. subst rest.
    rewrite (strip_space_cons HJ), Hsplit, length_map in H.
    destruct H as [H | H]; [| lia].
    rewrite H in Hsplit. discriminate Hsplit.
Qed.

(** C5. The classifier answers [Greeting] exactly when the trimmed
    lowercase query is a greeting phrase, or starts with a greeting phrase
    whose remainder, trimmed, is empty or has at most two words; and a
    greeting phrase followed by three or more further words is never
    classified as a greeting. *)
Theorem greeting_exactly_when :
  (forall query,
     classify query = Greeting <-> greeting_rule (Py.strip (Py.lower query)))
  /\ (forall g ws,
        In g greetings -> Forall is_word ws -> 3 <= length ws ->
        classify (followed_by g ws) <> Greeting).
Proof.
  split.
  - intros query. rewrite classify_greeting. apply _is_greeting_iff.
  - intros g ws Hg Hws Hlen Hc. apply classify_greeting in Hc.
    now rewrite greeting_three_words in Hc.
Qed.

Lemma greeting_exactly_when_witness :
  (classify s!"hello there friend" = Greeting
   <-> greeting_rule (Py.strip (Py.lower s!"hello there friend")))
  /\ classify (followed_by s!"good morning" [s!"to"; s!"all"; s!"of"; s!"you"])
     <> Greeting.
Proof.
  split.
  - apply (proj1 greeting_exactly_when).
  - apply (proj2 greeting_exactly_when).
    + simpl. tauto.
    + repeat constructor; discriminate.
    + simpl. lia.
Defined.

End Greeting.

(* ===================================================================== *)
(** ** The answer orchestrator *)
(* ===================================================================== *)

Lemma classify_inv (query : str) :
  match classify query with
  | Greeting => _is_greeting query = true
  | Farewell => _is_greeting query = false /\ _is_farewell query = true
  | Unclear =>
      _is_greeting query = false /\ _is_farewell query = false
      /\ _is_unclear_query query = true
  | DocumentTargeted =>
      _is_greeting query = false /\ _is_farewell query = false
      /\ _is_unclear_query query = false /\ _is_document_question query = true
  | General =>
      _is_greeting query = false /\ _is_farewell query = false
      /\ _is_unclear_query query = false /\ _is_document_question query = false
  end.
Proof.
  unfold classify.
  destruct (_is_greeting query); [reflexivity |].
  destruct (_is_farewell query); [now split |].
  destruct (_is_unclear_query query); [now repeat split |].
  destruct (_is_document_question query); now repeat split.
Qed.

Lemma calls_during_app {S A} (m : M S A) (w : world S) (evs : history) :
  calls (snd (m w)) = calls w ++ evs -> calls_during m w = evs.
Proof. unfold calls_during. intros ->. apply skipn_length_app. Qed.

Section Orchestrator.

Variable FAISS : Type.
Variable X : Externals FAISS.

Lemma generate_response_without_context_run (query : str) (w : world (RAGChain.t FAISS)) :
  RAGChain.generate_response_without_context X query w
  = (llm_invoke X (calls w) (RAGChain.general_prompt query),
     World (self w) (calls w ++ [LLMInvoke (RAGChain.general_prompt query)])).
Proof.
  unfold RAGChain.generate_response_without_context.
  now rewrite try_except_reraise.
Qed.

Lemma random_choice_run (seq : list str) (w : world (RAGChain.t FAISS)) :
  seq <> [] ->
  exists msg, In msg seq /\
    RAGChain.random_choice X seq w
    = (Ok msg, World (self w) (calls w ++ [RandomChoice (length seq)])).
Proof.
  intros Hne. destruct seq as [| first rest]; [congruence |].
  exists (nth (getrandbits X (calls w) mod length (first :: rest)) (first :: rest) first).
  split; [| reflexivity].
  apply nth_In. apply Nat.mod_upper_bound. discriminate.
Qed.

Lemma retrieve_context_run (query : str) (k : Z) (w : world (RAGChain.t FAISS)) (ix : FAISS) :
  RAGChain.vector_store (self w) = Some ix ->
  RAGChain.retrieve_context X query k w
  = (result_map (map RAGChain.to_retrieved) (similarity_search X (calls w) ix k query),
     World (self w) (calls w ++ [RetrieverInvoke k query])).
Proof.
  intros Hvs. unfold RAGChain.retrieve_context, bind, get. rewrite Hvs.
  rewrite try_except_reraise. unfold bind, external, ret. simpl.
  now destruct (similarity_search X (calls w) ix k query).
Qed.

Lemma answer_question_greeting (query : str) (k : Z) (u : bool) (w : world (RAGChain.t FAISS)) :
  _is_greeting query = true ->
  RAGChain.answer_question X query k u w
  = (result_map uncited (llm_invoke X (calls w) (RAGChain.general_prompt query)),
     World (self w) (calls w ++ [LLMInvoke (RAGChain.general_prompt query)])).
Proof.
  intros Hg. unfold RAGChain.answer_question.
  rewrite try_except_reraise, Hg. unfold bind.
  rewrite generate_response_without_context_run.
  now destruct (llm_invoke X (calls w) (RAGChain.general_prompt query)).
Qed.

Lemma answer_question_farewell (query : str) (k : Z) (u : bool) (w : world (RAGChain.t FAISS)) :
  _is_greeting query = false -> _is_farewell query = true ->
  exists msg, In msg RAGChain.farewell_messages /\
    RAGChain.answer_question X query k u w
    = (Ok (uncited msg), World (self w) (calls w ++ [RandomChoice 5])).
Proof.
  intros Hg Hf.
  destruct (@random_choice_run RAGChain.farewell_messages w) as (msg & Hin & Hrun);
    [discriminate |].
  exists msg. split; [assumption |].
  unfold RAGChain.answer_question.
  rewrite try_except_reraise, Hg, Hf. unfold bind.
  unfold RAGChain._generate_farewell_message. now rewrite Hrun.
Qed.

Lemma answer_question_unclear (query : str) (k : Z) (u : bool) (w : world (RAGChain.t FAISS)) :
  _is_greeting query = false -> _is_farewell query = false ->
  _is_unclear_query query = true ->
  exists msg, In msg RAGChain.clarification_messages /\
    RAGChain.answer_question X query k u w
    = (Ok (uncited msg), World (self w) (calls w ++ [RandomChoice 4])).
Proof.
  intros Hg Hf Hu.
  destruct (@random_choice_run RAGChain.clarification_messages w)
    as (msg & Hin & Hrun); [discriminate |].
  exists msg. split; [assumption |].
  unfold RAGChain.answer_question.
  rewrite try_except_reraise, Hg, Hf, Hu. unfold bind.
  unfold RAGChain._generate_clarification_message. now rewrite Hrun.
Qed.

(** Past the three social checks, with an index and a search that
    answers, the orchestrator is left with its last three branches. *)
Lemma answer_question_retrieved (query : str) (k : Z) (u : bool) (w : world (RAGChain.t FAISS))
      (ix : FAISS) (docs : list Document) :
  _is_greeting query = false -> _is_farewell query = false ->
  _is_unclear_query query = false ->
  RAGChain.vector_store (self w) = Some ix ->
  similarity_search X (calls w) ix k query = Ok docs ->
  let context := map RAGChain.to_retrieved docs in
  let w1 := World (self w) (calls w ++ [RetrieverInvoke k query]) in
  RAGChain.answer_question X query k u w
  = if _is_document_question query && RAGChain.nonempty context then
      let r := RAGChain.generate_response X query context w1 in
      (result_map (fun answer => (answer, context)) (fst r), snd r)
    else if _is_document_question query then
      (Ok (uncited RAGChain.refusal), w1)
    else
      let r := RAGChain.generate_response_without_context X query w1 in
      (result_map uncited (fst r), snd r).
Proof.
  intros Hg Hf Hu Hvs Hsearch context w1.
  unfold RAGChain.answer_question.
  rewrite try_except_reraise, Hg, Hf, Hu.
  unfold bind at 1. unfold get at 1. rewrite Hvs.
  unfold bind at 1. rewrite (retrieve_context_run query k w Hvs), Hsearch.
  cbn [result_map]. fold context. fold w1.
  destruct (_is_document_question query); cbn [andb].
  - destruct (RAGChain.nonempty context).
    + unfold bind.
      destruct (RAGChain.generate_response X query context w1) as [[a | e] w2];
        reflexivity.
    + reflexivity.
  - unfold bind.
    destruct (RAGChain.generate_response_without_context X query w1)
      as [[a | e] w2]; reflexivity.
Qed.

End Orchestrator.

Section OrchestratorProperties.

Variable FAISS : Type.
Variable X : Externals FAISS.

(** C1. A query classified as general, asked while an index is present
    and the search answers (with any results, empty or not), gets the
    answer of the ungrounded generator run after the search, and an empty
    list of citations: the retrieved results are dropped. *)
Theorem general_query_discards_hits
    (query : str) (k : Z) (u : bool) (w : world (RAGChain.t FAISS))
    (ix : FAISS) (docs : list Document) :
  classify query = General ->
  RAGChain.vector_store (self w) = Some ix ->
  similarity_search X (calls w) ix k query = Ok docs ->
  let searched := RAGChain.retrieve_context X query k w in
  let generated := RAGChain.generate_response_without_context X query (snd searched) in
  fst searched = Ok (map RAGChain.to_retrieved docs)
  /\ RAGChain.answer_question X query k u w
     = (result_map uncited (fst generated), snd generated)
  /\ fst generated
     = llm_invoke X (calls w ++ [RetrieverInvoke k query]) (RAGChain.general_prompt query)
  /\ self (snd generated) = self w
  /\ calls_during (RAGChain.answer_question X query k u) w
     = [RetrieverInvoke k query; LLMInvoke (RAGChain.general_prompt query)].
Proof.
  intros Hc Hvs Hsearch searched generated.
  pose proof (classify_inv query) as Hinv. rewrite Hc in Hinv.
  destruct Hinv as (Hg & Hf & Hu & Hd).
  assert (Hs : searched
               = (Ok (map RAGChain.to_retrieved docs),
                  World (self w) (calls w ++ [RetrieverInvoke k query]))).
  { unfold searched. now rewrite (retrieve_context_run X query k w Hvs), Hsearch. }
  assert (Ha : RAGChain.answer_question X query k u w
               = (result_map uncited (fst generated), snd generated)).
  { rewrite (answer_question_retrieved X query k u w Hg Hf Hu Hvs Hsearch), Hd.
    cbn [andb]. unfold generated. now rewrite Hs. }
  assert (Hgen : generated
                 = (llm_invoke X (calls w ++ [RetrieverInvoke k query])
                      (RAGChain.general_prompt query),
                    World (self w)
                      ((calls w ++ [RetrieverInvoke k query])
                       ++ [LLMInvoke (RAGChain.general_prompt query)]))).
  { unfold generated. rewrite Hs. apply generate_response_without_context_run. }
  repeat split.
  - now rewrite Hs.
  - exact Ha.
  - now rewrite Hgen.
  - now rewrite Hgen.
  - apply calls_during_app. rewrite Ha, Hgen. simpl. now rewrite <- app_assoc.
Qed.

(** C2. A document-targeted query, asked while an index is present and
    the search answers with no result, gets exactly the literal refusal
    sentence and no citation; the only external call is the search, so no
    generation takes place. *)
Theorem document_query_without_hits_is_refused
    (query : str) (k : Z) (u : bool) (w : world (RAGChain.t FAISS)) (ix : FAISS) :
  classify query = DocumentTargeted ->
  RAGChain.vector_store (self w) = Some ix ->
  similarity_search X (calls w) ix k query = Ok [] ->
  RAGChain.answer_question X query k u w
  = (Ok (s!"I don't have enough information in the documents to answer that question.",
         []),
     World (self w) (calls w ++ [RetrieverInvoke k query]))
  /\ calls_during (RAGChain.answer_question X query k u) w = [RetrieverInvoke k query]
  /\ existsb is_llm_call (calls_during (RAGChain.answer_question X query k u) w) = false.
Proof.
  intros Hc Hvs Hsearch.
  pose proof (classify_inv query) as Hinv. rewrite Hc in Hinv.
  destruct Hinv as (Hg & Hf & Hu & Hd).
  assert (Ha : RAGChain.answer_question X query k u w
               = (Ok (uncited RAGChain.refusal),
                  World (self w) (calls w ++ [RetrieverInvoke k query]))).
  { rewrite (answer_question_retrieved X query k u w Hg Hf Hu Hvs Hsearch), Hd.
    reflexivity. }
  assert (Hcalls : calls_during (RAGChain.answer_question X query k u) w
                   = [RetrieverInvoke k query]).
  { apply calls_during_app. now rewrite Ha. }
  repeat split.
  - exact Ha.
  - exact Hcalls.
  - now rewrite Hcalls.
Qed.

(** C6. Searching while no index has been built fails with the
    [ValueError] of the guard and leaves the object and the history of
    external calls as they were. *)
Theorem search_before_build_fails
    (query : str) (k : Z) (w : world (RAGChain.t FAISS)) :
  RAGChain.vector_store (self w) = None ->
  RAGChain.retrieve_context X query k w
  = (Raise (ValueError s!"Vector store not initialized. Process documents first."), w).
Proof.
  intros Hvs. unfold RAGChain.retrieve_context, bind, get. now rewrite Hvs.
Qed.

(** The same guard in the stand-alone [VectorStore] class. *)
Lemma query_before_build_fails
    (query_text : str) (k : Z) (w : world (VectorStore.t FAISS)) :
  VectorStore.vector_store (self w) = None ->
  VectorStore.query X query_text k w
  = (Raise (ValueError s!"Vector store is not initialized."), w).
Proof.
  intros Hvs. unfold VectorStore.query, bind, get. now rewrite Hvs.
Qed.

(** C7. For a query classified as greeting, farewell or unclear the
    orchestrator leaves its object untouched, never reaches the index
    (neither a build nor a search), and cites nothing. A greeting returns
    exactly when the chat model answers; a farewell and an unclear query
    always return, without any chat-model call, a message of their fixed
    pool. *)
Theorem social_intents_short_circuit
    (query : str) (k : Z) (u : bool) (w : world (RAGChain.t FAISS)) :
  classify query = Greeting \/ classify query = Farewell \/ classify query = Unclear ->
  let out := RAGChain.answer_question X query k u w in
  let made := calls_during (RAGChain.answer_question X query k u) w in
  self (snd out) = self w
  /\ existsb is_index_access made = false
  /\ (forall answer cites, fst out = Ok (answer, cites) -> cites = [])
  /\ (classify query = Greeting ->
      fst out = result_map uncited
                  (llm_invoke X (calls w) (RAGChain.general_prompt query)))
  /\ (classify query = Farewell ->
      existsb is_llm_call made = false
      /\ exists msg, In msg RAGChain.farewell_messages /\ fst out = Ok (msg, []))
  /\ (classify query = Unclear ->
      existsb is_llm_call made = false
      /\ exists msg, In msg RAGChain.clarification_messages /\ fst out = Ok (msg, [])).
Proof.
  intros Hc out made.
  pose proof (classify_inv query) as Hinv.
  destruct Hc as [Hc | [Hc | Hc]]; rewrite Hc in Hinv.
  - pose proof (answer_question_greeting X query k u w Hinv) as Ha.
    assert (Hm : made = [LLMInvoke (RAGChain.general_prompt query)])
      by (apply calls_during_app; now rewrite Ha).
    unfold out. rewrite Ha, Hm. cbn [fst snd self].
    split; [reflexivity |]. split; [reflexivity |]. split; [| split; [| split]].
    + intros answer cites E.
      destruct (llm_invoke X (calls w) (RAGChain.general_prompt query));
        [| discriminate].
      now injection E as _ <-.
    + reflexivity.
    + intros Hc'. congruence.
    + intros Hc'. congruence.
  - destruct Hinv as (Hg & Hf).
    destruct (answer_question_farewell X query k u w Hg Hf) as (msg & Hin & Ha).
    assert (Hm : made = [RandomChoice 5]) by (apply calls_during_app; now rewrite Ha).
    unfold out. rewrite Ha, Hm. cbn [fst snd self].
    split; [reflexivity |]. split; [reflexivity |]. split; [| split; [| split]].
    + intros answer cites E. now injection E as _ <-.
    + intros Hc'. congruence.
    + intros _. split; [reflexivity | now exists msg].
    + intros Hc'. congruence.
  - destruct Hinv as (Hg & Hf & Hu).
    destruct (answer_question_unclear X query k u w Hg Hf Hu) as (msg & Hin & Ha).
    assert (Hm : made = [RandomChoice 4]) by (apply calls_during_app; now rewrite Ha).
    unfold out. rewrite Ha, Hm. cbn [fst snd self].
    split; [reflexivity |]. split; [reflexivity |]. split; [| split; [| split]].
    + intros answer cites E. now injection E as _ <-.
    + intros Hc'. congruence.
    + intros Hc'. congruence.
    + intros _. split; [reflexivity | now exists msg].
Qed.

(** C4, as amended. A query whose trimmed lowercase form contains a
    farewell phrase, and which the greeting check (tried first) does not
    accept, is classified as a farewell; the orchestrator then returns a
    message of the farewell pool with no citation, after a single draw
    from the random source. *)
Theorem farewell_unless_greeting
    (query : str) (k : Z) (u : bool) (w : world (RAGChain.t FAISS)) :
  (exists phrase, In phrase farewells
                  /\ Py.contains phrase (Py.strip (Py.lower query)) = true) ->
  _is_greeting query = false ->
  classify query = Farewell
  /\ exists msg, In msg RAGChain.farewell_messages /\
       RAGChain.answer_question X query k u w
       = (Ok (msg, []), World (self w) (calls w ++ [RandomChoice 5])).
Proof.
  intros (phrase & Hin & Hsub) Hg.
  assert (Hf : _is_farewell query = true).
  { unfold _is_farewell, Py.any_in. apply existsb_exists. now exists phrase. }
  split.
  - unfold classify. now rewrite Hg, Hf.
  - apply (answer_question_farewell X query k u w Hg Hf).
Qed.

(** C10. The prefix test of the greeting check is on characters, not on
    words: every single word that continues a greeting phrase with further
    characters passes the check, is classified as a greeting and is
    answered by the ungrounded generator. ["history"] is such a word: it
    is not a greeting phrase, none of its words is one, and it only
    shares the characters of ["hi"]. *)
Theorem greeting_prefix_is_character_based :
  (forall (word g rest : str) (k : Z) (u : bool) (w : world (RAGChain.t FAISS)),
     is_word word -> In g greetings -> rest <> [] -> Py.lower word = g ++ rest ->
     _is_greeting word = true
     /\ classify word = Greeting
     /\ RAGChain.answer_question X word k u w
        = (result_map uncited (llm_invoke X (calls w) (RAGChain.general_prompt word)),
           World (self w) (calls w ++ [LLMInvoke (RAGChain.general_prompt word)])))
  /\ (let query := s!"history" in
      Py.split (Py.strip (Py.lower query)) = [query]
      /\ ~ In (Py.strip (Py.lower query)) greetings
      /\ (forall x, In x (Py.split (Py.strip (Py.lower query))) -> ~ In x greetings)
      /\ Py.lower query = s!"hi" ++ s!"story"
      /\ In s!"hi" greetings
      /\ _is_greeting query = true
      /\ classify query = Greeting).
Proof.
  split.
  - intros word g rest k u w Hw Hg Hrest E.
    assert (Hgreet : _is_greeting word = true).
    { apply _is_greeting_iff. right. exists g, rest.
      assert (Hns : nospace (g ++ rest) = true)
        by (rewrite <- E, nospace_lower; apply Hw).
      split; [assumption |]. split.
      - rewrite E. apply strip_trimmed. now apply nospace_trimmed.
      - right. rewrite nospace_app in Hns. apply andb_true_iff in Hns as [_ Hr].
        rewrite (strip_trimmed (nospace_trimmed _ Hr)).
        pose proof (split_nospace_length _ Hr). lia. }
    split; [assumption |]. split.
    + now apply classify_greeting.
    + now apply answer_question_greeting.
  - cbv zeta. repeat split; try reflexivity.
    + intros H. apply mem_In in H. discriminate H.
    + intros x [<- | []] H. apply mem_In in H. discriminate H.
    + simpl. tauto.
Qed.

End OrchestratorProperties.

(** Instances of the orchestrator properties on the test double. *)

Lemma general_query_discards_hits_witness :
  let query := s!"what causes high blood pressure" in
  let doc := mkDocument s!"Hypertension has many causes." [(s!"source", MStr s!"a.pdf")] in
  let w := World (RAGChain.mk (Some [doc]) (Some ([doc], 5%Z))) [] in
  classify query = General
  /\ similarity_search double (calls w) [doc] 5%Z query = Ok [doc]
  /\ RAGChain.answer_question double query 5%Z false w
     = (Ok (RAGChain.general_prompt query, []),
        World (self w) [RetrieverInvoke 5%Z query;
                        LLMInvoke (RAGChain.general_prompt query)]).
Proof.
  intros query doc w.
  assert (Hc : classify query = General) by reflexivity.
  assert (Hs : similarity_search double (calls w) [doc] 5%Z query = Ok [doc])
    by reflexivity.
  split; [exact Hc |]. split; [exact Hs |].
  destruct (@general_query_discards_hits _ double query 5%Z false w [doc] [doc]
              Hc eq_refl Hs) as (_ & Ha & _).
  rewrite Ha. reflexivity.
Defined.

Lemma document_query_without_hits_is_refused_witness :
  let query := s!"what does the document say about insulin" in
  let w := World (RAGChain.mk (Some []) (Some ([], 5%Z))) [] in
  classify query = DocumentTargeted
  /\ RAGChain.answer_question double query 5%Z false w
     = (Ok (RAGChain.refusal, []), World (self w) [RetrieverInvoke 5%Z query]).
Proof.
  intros query w.
  assert (Hc : classify query = DocumentTargeted) by reflexivity.
  split; [exact Hc |].
  exact (proj1 (@document_query_without_hits_is_refused _ double query 5%Z false w []
                  Hc eq_refl eq_refl)).
Defined.

Lemma search_before_build_fails_witness :
  let w := World (RAGChain.init (list Document)) [] in
  RAGChain.retrieve_context double s!"what is diabetes" 5%Z w
  = (Raise (ValueError s!"Vector store not initialized. Process documents first."), w).
Proof.
  intros w. exact (@search_before_build_fails _ double s!"what is diabetes" 5%Z w eq_refl).
Defined.

Lemma social_intents_short_circuit_witness :
  let w := World (RAGChain.mk (Some []) (Some ([], 5%Z))) [] in
  classify s!"idk" = Unclear
  /\ existsb is_index_access
       (calls_during (RAGChain.answer_question double s!"idk" 5%Z false) w) = false
  /\ existsb is_llm_call
       (calls_during (RAGChain.answer_question double s!"idk" 5%Z false) w) = false.
Proof.
  intros w.
  assert (Hc : classify s!"idk" = Unclear) by reflexivity.
  split; [exact Hc |].
  destruct (@social_intents_short_circuit _ double s!"idk" 5%Z false w
              (or_intror (or_intror Hc))) as (_ & Hidx & _ & _ & _ & Hu).
  split; [exact Hidx | exact (proj1 (Hu Hc))].
Defined.

Lemma farewell_unless_greeting_witness :
  let query := s!"Well, gotta go now" in
  let w := World (RAGChain.init (list Document)) [] in
  Py.contains s!"gotta go" (Py.strip (Py.lower query)) = true
  /\ _is_greeting query = false
  /\ classify query = Farewell
  /\ fst (RAGChain.answer_question double query 5%Z false w)
     = Ok (s!"Goodbye! Feel free to come back anytime you have questions.", []).
Proof.
  intros query w.
  assert (Hsub : Py.contains s!"gotta go" (Py.strip (Py.lower query)) = true)
    by reflexivity.
  assert (Hg : _is_greeting query = false) by reflexivity.
  split; [exact Hsub |]. split; [exact Hg |].
  assert (Hin : In s!"gotta go" farewells) by (simpl; tauto).
  destruct (@farewell_unless_greeting _ double query 5%Z false w
              (ex_intro _ s!"gotta go" (conj Hin Hsub)) Hg) as (Hc & _).
  split; [exact Hc | reflexivity].
Defined.

(** C4 as stated fails: ["hi bye"] contains the farewell phrase ["bye"],
    yet the greeting check, which runs first, accepts it (["hi"] followed
    by one word), so it is classified as a greeting and answered by the
    chat model, not from the farewell pool. *)
Lemma farewell_inside_greeting_counterexample :
  let query := s!"hi bye" in
  let w := World (RAGChain.init (list Document)) [] in
  In s!"bye" farewells
  /\ Py.contains s!"bye" (Py.strip (Py.lower query)) = true
  /\ classify query = Greeting
  /\ classify query <> Farewell
  /\ RAGChain.answer_question double query 5%Z false w
     = (Ok (RAGChain.general_prompt query, []),
        World (self w) [LLMInvoke (RAGChain.general_prompt query)])
  /\ ~ In (RAGChain.general_prompt query) RAGChain.farewell_messages.
Proof.
  intros query w. split; [simpl; tauto |].
  split; [reflexivity |]. split; [reflexivity |].
  split; [discriminate |]. split; [reflexivity |].
  intros H. apply mem_In in H. discriminate H.
Qed.

Lemma greeting_prefix_is_character_based_witness :
  let w := World (RAGChain.init (list Document)) [] in
  is_word s!"Heyday" /\ In s!"hey" greetings /\ s!"day" <> []
  /\ Py.lower s!"Heyday" = s!"hey" ++ s!"day"
  /\ classify s!"Heyday" = Greeting.
Proof.
  intros w.
  assert (Hw : is_word s!"Heyday") by (split; [discriminate | reflexivity]).
  assert (Hg : In s!"hey" greetings) by (simpl; tauto).
  assert (Hr : s!"day" <> []) by discriminate.
  assert (E : Py.lower s!"Heyday" = s!"hey" ++ s!"day") by reflexivity.
  repeat (split; [assumption |]).
  exact (proj1 (proj2 (proj1 (@greeting_prefix_is_character_based _ double)
                         s!"Heyday" s!"hey" s!"day" 5%Z false w Hw Hg Hr E))).
Defined.

(* ===================================================================== *)
(** ** Building the index *)
(* ===================================================================== *)

Section IndexBuild.

Variable FAISS : Type.
Variable X : Externals FAISS.

(** [RAGChain.create_vector_store] hands its argument to the backend and
    installs whatever comes back. *)
Lemma rag_create_vector_store_run (documents : list Chunk) (w : world (RAGChain.t FAISS)) :
  let docs := map RAGChain.to_document documents in
  RAGChain.create_vector_store X documents w
  = match faiss_from_documents X (calls w) docs with
    | Ok vs =>
        (Ok tt, World (RAGChain.mk (Some vs) (Some (vs, 5%Z)))
                      (calls w ++ [FAISSFromDocuments docs]))
    | Raise e =>
        (Raise e, World (self w) (calls w ++ [FAISSFromDocuments docs]))
    end.
Proof.
  intros docs. unfold RAGChain.create_vector_store.
  rewrite try_except_reraise. unfold bind, external, get, put. fold docs.
  now destruct (faiss_from_documents X (calls w) docs).
Qed.

(** The stand-alone [VectorStore] refuses an empty list before it calls
    the backend, and keeps its state. *)
Lemma vector_store_build_empty_fails (w : world (VectorStore.t FAISS)) :
  VectorStore.create_vector_store X [] w
  = (Raise (ValueError s!"Documents list cannot be empty"), w).
Proof. reflexivity. Qed.

Lemma vector_store_build_nonempty
    (documents : list Chunk) (w : world (VectorStore.t FAISS)) (ix : FAISS) :
  documents <> [] ->
  faiss_from_documents X (calls w) (map RAGChain.to_document documents) = Ok ix ->
  VectorStore.create_vector_store X documents w
  = (Ok tt, World (VectorStore.mk (Some ix))
                  (calls w ++ [FAISSFromDocuments (map RAGChain.to_document documents)])).
Proof.
  intros Hne Hb. destruct documents as [| d ds]; [congruence |].
  unfold VectorStore.create_vector_store, bind, external, put. now rewrite Hb.
Qed.

(** Once an index is installed, a search goes to the backend: whatever it
    returns, it is not the error of the not-built guard raised before any
    external call. *)
Lemma vector_store_query_after_build
    (query_text : str) (k : Z) (w : world (VectorStore.t FAISS)) (ix : FAISS) :
  VectorStore.vector_store (self w) = Some ix ->
  VectorStore.query X query_text k w
  = (result_map (map (fun doc => [(s!"content", page_content doc)]))
       (similarity_search X (calls w) ix k query_text),
     World (self w) (calls w ++ [RetrieverInvoke k query_text])).
Proof.
  intros Hvs. unfold VectorStore.query, bind, get, external, ret. rewrite Hvs.
  now destruct (similarity_search X (calls w) ix k query_text).
Qed.

Lemma rag_build_then_search
    (documents : list Chunk) (query : str) (k : Z)
    (w : world (RAGChain.t FAISS)) (ix : FAISS) :
  faiss_from_documents X (calls w) (map RAGChain.to_document documents) = Ok ix ->
  let built := RAGChain.create_vector_store X documents w in
  fst built = Ok tt
  /\ RAGChain.vector_store (self (snd built)) = Some ix
  /\ fst (RAGChain.retrieve_context X query k (snd built))
     = result_map (map RAGChain.to_retrieved)
         (similarity_search X (calls (snd built)) ix k query).
Proof.
  intros Hb built. unfold built. rewrite rag_create_vector_store_run, Hb.
  repeat split. now rewrite (@retrieve_context_run _ X query k _ ix).
Qed.

(** C3 (the build of [RAGChain] on an empty list). The method has no
    emptiness check: the empty list goes to [FAISS.from_documents], and
    the outcome is the backend's. If the backend accepts it, an index over
    no document is installed and the call succeeds; if it fails, its own
    exception is re-raised. The [ValueError] of the stand-alone
    [VectorStore] is raised on neither path. *)
Theorem rag_build_has_no_empty_guard (w : world (RAGChain.t FAISS)) :
  RAGChain.create_vector_store X [] w
  = match faiss_from_documents X (calls w) [] with
    | Ok vs =>
        (Ok tt, World (RAGChain.mk (Some vs) (Some (vs, 5%Z)))
                      (calls w ++ [FAISSFromDocuments []]))
    | Raise e =>
        (Raise e, World (self w) (calls w ++ [FAISSFromDocuments []]))
    end.
Proof. apply rag_create_vector_store_run. Qed.

End IndexBuild.

(** On the test double, whose backend accepts any list, building from an
    empty list succeeds and installs an index; with the backend that
    fails, the error raised is the backend's. *)
Lemma rag_build_empty_on_doubles :
  let w := World (RAGChain.init (list Document)) [] in
  RAGChain.create_vector_store double [] w
  = (Ok tt, World (RAGChain.mk (Some []) (Some ([], 5%Z))) [FAISSFromDocuments []])
  /\ RAGChain.create_vector_store double_unavailable [] w
     = (Raise (ExternalError s!"list index out of range"),
        World (RAGChain.init _) [FAISSFromDocuments []])
  /\ VectorStore.create_vector_store double [] (World (VectorStore.init _) [])
     = (Raise (ValueError s!"Documents list cannot be empty"),
        World (VectorStore.init _) []).
Proof. repeat split. Qed.

(* ===================================================================== *)
(** ** Conversation retention *)
(* ===================================================================== *)

Section Retention.

Variable FAISS : Type.
Variable X : Externals FAISS.

Lemma with_messages_eta (cm : ChatManager.t) :
  ChatManager.mk (ChatManager.messages cm) (ChatManager.max_history cm)
    (ChatManager.conversation_id cm) = cm.
Proof. now destruct cm. Qed.

Lemma add_turn_run (t : turn) (w : world ChatManager.t) :
  let cm := self w in
  add_turn X t w
  = (Ok (hd (ChatManager.mkMessage [] [] 0 []) (created X [t] (calls w))),
     World (ChatManager.mk
              (trimmed_to (ChatManager.max_history cm)
                 (ChatManager.messages cm ++ created X [t] (calls w)))
              (ChatManager.max_history cm) (ChatManager.conversation_id cm))
           (calls w ++ [DatetimeNow])).
Proof.
  destruct w as [cm h]. destruct t as [c | c md]; cbn [add_turn created hd self calls];
    unfold ChatManager.add_user_message, ChatManager.add_assistant_message,
      ChatManager.new_message, ChatManager.append_message,
      ChatManager._trim_history, trimmed_to, bind, external, get, put, ret;
    cbn [negb Py.mem existsb Py.eqb self calls ChatManager.messages
         ChatManager.max_history ChatManager.conversation_id];
    match goal with
    | |- context [if negb ?b then _ else _] =>
        replace b with true by reflexivity
    end; cbn [negb self calls ChatManager.messages ChatManager.max_history
              ChatManager.conversation_id];
    destruct (Z.of_nat _ >? _)%Z; cbn [self calls]; try rewrite with_messages_eta;
      reflexivity.
Qed.

Lemma trimmed_to_zero (l : list ChatManager.ChatMessage) : trimmed_to 0 l = l.
Proof. unfold trimmed_to. now destruct (Z.of_nat (length l) >? 0)%Z. Qed.

Lemma trimmed_to_positive (mh : Z) (l : list ChatManager.ChatMessage) :
  (1 <= mh)%Z -> trimmed_to mh l = last_n (Z.to_nat mh) l.
Proof.
  intros Hmh. unfold trimmed_to, last_n, Py.slice_from.
  destruct (Z.of_nat (length l) >? mh)%Z eqn:Hgt.
  - apply Z.gtb_lt in Hgt. replace (- mh <? 0)%Z with true by (symmetry; apply Z.ltb_lt; lia).
    f_equal. lia.
  - replace (length l - Z.to_nat mh) with 0; [reflexivity |].
    rewrite Z.gtb_ltb in Hgt. apply Z.ltb_ge in Hgt. lia.
Qed.

Lemma last_n_short {A} (n : nat) (l : list A) : length l <= n -> last_n n l = l.
Proof. intros H. unfold last_n. now replace (length l - n) with 0 by lia. Qed.

Lemma last_n_length {A} (n : nat) (l : list A) :
  length (last_n n l) = Nat.min n (length l).
Proof. unfold last_n. rewrite length_skipn. lia. Qed.

(** Trimming after every append is trimming once at the end. *)
Lemma last_n_snoc {A} (n : nat) (l : list A) (x : A) :
  1 <= n -> last_n n (last_n n l ++ [x]) = last_n n (l ++ [x]).
Proof.
  intros Hn. destruct (Nat.le_gt_cases (length l) n) as [Hle | Hgt].
  - now rewrite (last_n_short l Hle).
  - unfold last_n at 1 3. rewrite !length_app, last_n_length. simpl length.
    replace (Nat.min n (length l) + 1 - n) with 1 by lia.
    unfold last_n. rewrite !skipn_app, skipn_skipn, !length_skipn.
    replace (1 + (length l - n)) with (length l + 1 - n) by lia.
    replace (1 - (length l - (length l - n))) with 0 by lia.
    replace (length l + 1 - n - length l) with 0 by lia.
    reflexivity.
Qed.

Lemma add_turns_cons (t : turn) (ts : list turn) (w : world ChatManager.t) :
  add_turns X (t :: ts) w = add_turns X ts (snd (add_turn X t w)).
Proof.
  unfold add_turns. cbn [for_each]. unfold bind at 1 2.
  rewrite add_turn_run. reflexivity.
Qed.

(** A run of appends under a positive bound keeps the window of the
    [max_history] most recent messages, in order. *)
Lemma add_turns_window (ts : list turn) :
  forall (w : world ChatManager.t) (past : list ChatManager.ChatMessage),
    (1 <= ChatManager.max_history (self w))%Z ->
    ChatManager.messages (self w)
    = last_n (Z.to_nat (ChatManager.max_history (self w))) past ->
    let w' := snd (add_turns X ts w) in
    fst (add_turns X ts w) = Ok tt
    /\ ChatManager.max_history (self w') = ChatManager.max_history (self w)
    /\ ChatManager.messages (self w')
       = last_n (Z.to_nat (ChatManager.max_history (self w)))
           (past ++ created X ts (calls w)).
Proof.
  induction ts as [| t ts IH]; intros w past Hmh Hpast.
  - cbn. rewrite app_nil_r. auto.
  - rewrite add_turns_cons. rewrite add_turn_run. cbn [snd].
    set (m := created X [t] (calls w)).
    set (w1 := World _ _).
    assert (Hm : exists x, m = [x]) by (destruct t; eexists; reflexivity).
    destruct Hm as (x & Hx).
    assert (Hmsgs : ChatManager.messages (self w1)
                    = last_n (Z.to_nat (ChatManager.max_history (self w)))
                        (past ++ [x])).
    { unfold w1. cbn [self ChatManager.messages].
      rewrite trimmed_to_positive by assumption. rewrite Hpast, Hx.
      apply last_n_snoc. lia. }
    destruct (IH w1 (past ++ [x]) Hmh Hmsgs) as (Hok & Hsame & Hwin).
    split; [exact Hok |]. split; [exact Hsame |].
    rewrite Hwin. unfold w1. cbn [self calls ChatManager.max_history].
    rewrite <- app_assoc. do 2 f_equal.
    change (created X (t :: ts) (calls w))
      with (m ++ created X ts (calls w ++ [DatetimeNow])).
    now rewrite Hx.
Qed.

(** Under a bound of zero nothing is ever discarded. *)
Lemma add_turns_zero (ts : list turn) :
  forall (w : world ChatManager.t),
    ChatManager.max_history (self w) = 0%Z ->
    let w' := snd (add_turns X ts w) in
    fst (add_turns X ts w) = Ok tt
    /\ ChatManager.max_history (self w') = 0%Z
    /\ ChatManager.messages (self w')
       = ChatManager.messages (self w) ++ created X ts (calls w).
Proof.
  induction ts as [| t ts IH]; intros w Hmh.
  - cbn. rewrite app_nil_r. auto.
  - rewrite add_turns_cons. rewrite add_turn_run. cbn [snd].
    set (m := created X [t] (calls w)).
    set (w1 := World _ _).
    assert (H1 : ChatManager.max_history (self w1) = 0%Z) by exact Hmh.
    destruct (IH w1 H1) as (Hok & Hsame & Hall).
    split; [exact Hok |]. split; [exact Hsame |].
    rewrite Hall. unfold w1. cbn [self calls ChatManager.messages].
    rewrite Hmh, trimmed_to_zero, <- app_assoc. reflexivity.
Qed.

Lemma created_length (ts : list turn) (h : history) :
  length (created X ts h) = length ts.
Proof.
  revert h; induction ts as [| t ts IH]; intros h; [reflexivity |].
  cbn [created length]. now rewrite IH.
Qed.

(** X8. The retention policy for a positive bound: after any run of appends
    on a fresh store, exactly the [max_history] most recent messages
    remain, in their order; after [max_history + 5] appends the first
    five are gone. *)
Lemma retention_window (max_history : nat) (ts : list turn) (h : history) :
  1 <= max_history ->
  let w := ChatManager.init X (Z.of_nat max_history) h in
  let kept := ChatManager.messages (self (snd (add_turns X ts w))) in
  kept = last_n max_history (created X ts (calls w))
  /\ length kept <= max_history
  /\ (length ts = max_history + 5 ->
      kept = skipn 5 (created X ts (calls w)) /\ length kept = max_history).
Proof.
  intros Hmh w kept.
  destruct (@add_turns_window ts w []) as (_ & _ & Hwin).
  - cbn. lia.
  - reflexivity.
  - cbn [app] in Hwin. cbn [w ChatManager.init self ChatManager.max_history] in Hwin.
    rewrite Nat2Z.id in Hwin. fold w in Hwin. fold kept in Hwin.
    split; [exact Hwin |]. split.
    + rewrite Hwin, last_n_length. lia.
    + intros Hlen. rewrite Hwin. unfold last_n.
      rewrite length_skipn, created_length, Hlen.
      replace (max_history + 5 - max_history) with 5 by lia. split; [reflexivity | lia].
Qed.

(** C8 (the bound zero). On a store created with [max_history = 0] every
    append is kept: [messages[-0:]] is the whole list, so after any run of
    appends all the constructed messages remain, and the store holds as
    many messages as were appended instead of none. *)
Theorem retention_bound_zero_keeps_all (ts : list turn) (h : history) :
  let w := ChatManager.init X 0 h in
  let kept := ChatManager.messages (self (snd (add_turns X ts w))) in
  fst (add_turns X ts w) = Ok tt
  /\ kept = created X ts (calls w)
  /\ length kept = length ts.
Proof.
  intros w kept.
  destruct (@add_turns_zero ts w eq_refl) as (Hok & _ & Hall).
  split; [exact Hok |].
  assert (E : kept = created X ts (calls w)) by exact Hall.
  split; [exact E |]. now rewrite E, created_length.
Qed.

End Retention.

(** Five appends on the test double: with the bound 0 all five messages
    stay, with the bound 2 the last two do. *)
Lemma retention_on_double :
  let ts := map UserTurn [s!"a"; s!"b"; s!"c"; s!"d"; s!"e"] in
  map ChatManager.content
    (ChatManager.messages (self (snd (add_turns double ts (ChatManager.init double 0 [])))))
  = [s!"a"; s!"b"; s!"c"; s!"d"; s!"e"]
  /\ map ChatManager.content
       (ChatManager.messages (self (snd (add_turns double ts (ChatManager.init double 2 [])))))
     = [s!"d"; s!"e"].
Proof. split; reflexivity. Qed.

(* ===================================================================== *)
(** ** Ingestion: accumulating chunks and rebuilding the index *)
(* ===================================================================== *)

Section Ingestion.

Variable FAISS : Type.
Variable X : Externals FAISS.

Lemma process_pdf_run (file : UploadedFile) (filename : str)
      (w : world DocumentProcessor.t) :
  DocumentProcessor.process_pdf X file filename w
  = match pdf_page_texts X (calls w) (data file) with
    | Ok pages =>
        let text := DocumentProcessor.page_markers 0 pages [] in
        let h1 := calls w ++ [PdfRead (data file)] in
        (Ok (DocumentProcessor.chunked_docs 0 (splitter_split_text X h1 text)
               [(s!"source", MStr filename); (s!"type", MStr s!"pdf")]),
         World (self w) (h1 ++ [SplitText text]))
    | Raise e =>
        (Raise (ValueError (s!"Error reading PDF: " ++ exn_str e)),
         World (self w) (calls w ++ [PdfRead (data file)]))
    end.
Proof.
  unfold DocumentProcessor.process_pdf, DocumentProcessor.extract_text_from_pdf,
    DocumentProcessor.chunk_text, try_except, bind, external, ret, raise.
  cbn [self calls]. now destruct (pdf_page_texts X (calls w) (data file)).
Qed.

Lemma process_one_file_run (file : UploadedFile) (w : world (App.session_state FAISS)) :
  App.process_one_file X file w
  = match pdf_page_texts X (calls w) (data file) with
    | Ok pages =>
        let text := DocumentProcessor.page_markers 0 pages [] in
        let h1 := calls w ++ [PdfRead (data file)] in
        let chunks :=
          DocumentProcessor.chunked_docs 0 (splitter_split_text X h1 text)
            [(s!"source", MStr (name file)); (s!"type", MStr s!"pdf")] in
        (Ok tt,
         World (App.mkSession
                  (App.processed_docs (self w)
                   ++ [App.mkProcessed (name file) chunks (length chunks)])
                  (App.doc_processor (self w)) (App.rag_chain (self w))
                  (App.chat_manager (self w))
                  (App.all_chunks (self w) ++ chunks))
               (h1 ++ [SplitText text]))
    | Raise e => (Ok tt, World (self w) (calls w ++ [PdfRead (data file)]))
    end.
Proof.
  destruct w as [st h]. destruct st as [pd dp rc cm ac].
  unfold App.process_one_file, try_except, bind, zoom.
  rewrite process_pdf_run. cbn [self calls App.doc_processor].
  now destruct (pdf_page_texts X h (data file)).
Qed.

Lemma process_one_file_effect (file : UploadedFile) (w : world (App.session_state FAISS)) :
  fst (App.process_one_file X file w) = Ok tt
  /\ exists new, file_effect w (snd (App.process_one_file X file w)) new.
Proof.
  rewrite process_one_file_run.
  destruct (pdf_page_texts X (calls w) (data file)) as [pages | e].
  - split; [reflexivity |].
    eexists [_]. split; cbn; rewrite ?app_nil_r; try reflexivity.
    eexists. rewrite <- app_assoc. split; reflexivity.
  - split; [reflexivity |].
    exists []. split; cbn; rewrite ?app_nil_r; try reflexivity.
    eexists. split; reflexivity.
Qed.

Lemma upload_loop_effect (files : list UploadedFile) :
  forall w : world (App.session_state FAISS),
    fst (for_each files (App.process_one_file X) w) = Ok tt
    /\ exists new, file_effect w (snd (for_each files (App.process_one_file X) w)) new.
Proof.
  induction files as [| file files IH]; intros w.
  - cbn. split; [reflexivity |]. exists []. split; cbn; rewrite ?app_nil_r; try reflexivity.
    exists []. now rewrite app_nil_r.
  - cbn [for_each]. unfold bind.
    destruct (process_one_file_effect file w) as (Hok & new1 & H1).
    destruct (App.process_one_file X file w) as [r w1]. cbn [fst snd] in *.
    subst r.
    destruct (IH w1) as (Hok2 & new2 & H2).
    split; [exact Hok2 |]. exists (new1 ++ new2).
    destruct H1 as [d1 c1 r1 m1 (evs1 & e1 & i1)].
    destruct H2 as [d2 c2 r2 m2 (evs2 & e2 & i2)].
    split.
    + now rewrite d2, d1, app_assoc.
    + now rewrite c2, c1, map_app, concat_app, app_assoc.
    + now rewrite r2.
    + now rewrite m2.
    + exists (evs1 ++ evs2). split.
      * now rewrite e2, e1, app_assoc.
      * now rewrite existsb_app, i1, i2.
Qed.

Lemma upload_loop_records (files : list UploadedFile) :
  forall w : world (App.session_state FAISS),
    let w1 := snd (for_each files (App.process_one_file X) w) in
    let new := batch_records X files (App.doc_processor (self w)) (calls w) in
    App.processed_docs (self w1) = App.processed_docs (self w) ++ new
    /\ App.all_chunks (self w1)
       = App.all_chunks (self w) ++ concat (map (@App.chunks) new).
Proof.
  induction files as [| file files IH]; intros w.
  - cbn. now rewrite !app_nil_r.
  - cbn zeta. cbn [for_each batch_records]. unfold bind.
    rewrite process_one_file_run, process_pdf_run. cbn [self calls].
    destruct (pdf_page_texts X (calls w) (data file)) as [pages | e];
      cbn [fst snd self calls];
      match goal with
      | |- context [for_each files _ ?W] => destruct (IH W) as (Hd & Hc)
      end;
      cbn [self calls App.processed_docs App.all_chunks App.doc_processor] in Hd, Hc.
    + rewrite Hd, Hc. cbn [map concat App.chunks].
      now rewrite <- !app_assoc.
    + now rewrite Hd, Hc.
Qed.

Lemma process_documents_run (uploaded_files : list UploadedFile) (w : world (App.session_state FAISS)) :
  let w1 := snd (for_each uploaded_files (App.process_one_file X) w) in
  let docs := map RAGChain.to_document (App.all_chunks (self w1)) in
  App.process_documents X uploaded_files w
  = match App.all_chunks (self w1) with
    | [] => (Ok tt, w1)
    | _ =>
        (Ok tt,
         World (App.set_rag_chain
                  match faiss_from_documents X (calls w1) docs with
                  | Ok ix => RAGChain.mk (Some ix) (Some (ix, 5%Z))
                  | Raise _ => App.rag_chain (self w1)
                  end (self w1))
               (calls w1 ++ [FAISSFromDocuments docs]))
    end.
Proof.
  intros w1 docs. unfold docs, w1. clear w1 docs.
  destruct (upload_loop_effect uploaded_files w) as (Hok & _).
  unfold App.process_documents, bind at 1.
  destruct (for_each uploaded_files (App.process_one_file X) w) as [r w1].
  cbn [fst snd] in *. subst r. unfold bind, get. cbn [self].
  destruct (App.all_chunks (self w1)) as [| c cs] eqn:Hac.
  - destruct w1; reflexivity.
  - cbn [RAGChain.nonempty]. unfold try_except, zoom.
    rewrite rag_create_vector_store_run. cbn [self calls].
    now destruct (faiss_from_documents X (calls w1)
                    (map RAGChain.to_document (c :: cs))).
Qed.

(** C9, as amended. Every call of [process_documents] returns normally
    and appends its batch: the records added to [processed_docs] are
    those of the uploaded files on which [process_pdf] returned, in
    upload order, each with the chunks [process_pdf] returned for it, and
    these chunks are appended to the accumulated collection behind
    everything accumulated before. With an empty accumulated collection
    the call leaves the index alone and never reaches the index backend.
    Otherwise its last external call builds an index from the whole
    accumulated collection, and when that build succeeds the new index
    replaces both the vector store and the retriever. *)
Theorem process_documents_accumulates_and_rebuilds
    (uploaded_files : list UploadedFile) (w : world (App.session_state FAISS)) :
  let out := App.process_documents X uploaded_files w in
  let st := self w in
  let st' := self (snd out) in
  let new := batch_records X uploaded_files (App.doc_processor st) (calls w) in
  fst out = Ok tt
  /\ (App.processed_docs st' = App.processed_docs st ++ new
      /\ App.all_chunks st'
         = App.all_chunks st ++ concat (map (@App.chunks) new))
  /\ (App.all_chunks st' = [] ->
      App.rag_chain st' = App.rag_chain st
      /\ existsb is_index_access
           (calls_during (App.process_documents X uploaded_files) w) = false)
  /\ (App.all_chunks st' <> [] ->
      let docs := map RAGChain.to_document (App.all_chunks st') in
      exists h,
        calls (snd out) = h ++ [FAISSFromDocuments docs]
        /\ (forall ix, faiss_from_documents X h docs = Ok ix ->
              App.rag_chain st' = RAGChain.mk (Some ix) (Some (ix, 5%Z)))).
Proof.
  intros out st st' new.
  destruct (upload_loop_effect uploaded_files w) as (_ & new' & Hfe).
  destruct (upload_loop_records uploaded_files w) as (Hd & Hc).
  fold st new in Hd, Hc.
  pose proof (process_documents_run uploaded_files w) as Hrun. cbv zeta in Hrun.
  set (w1 := snd (for_each uploaded_files (App.process_one_file X) w)) in *.
  destruct Hfe as [_ _ Hr Hm (evs & He & Hi)].
  destruct (App.all_chunks (self w1)) as [| c cs] eqn:Hac.
  - assert (Hout : out = (Ok tt, w1)) by exact Hrun.
    unfold st'. rewrite Hout. cbn [fst snd].
    split; [reflexivity |].
    split; [split; [exact Hd | now rewrite Hac] |].
    split.
    + intros _. split; [exact Hr |].
      rewrite (@calls_during_app _ _ (App.process_documents X uploaded_files) w evs).
      * exact Hi.
      * fold out. now rewrite Hout.
    + congruence.
  - set (docs := map RAGChain.to_document (c :: cs)) in *.
    assert (Hself : App.all_chunks (self (snd out)) = c :: cs).
    { unfold out. rewrite Hrun. exact Hac. }
    unfold st'. split; [unfold out; now rewrite Hrun |].
    split.
    + unfold out. rewrite Hrun. cbn [snd self].
      cbn [App.set_rag_chain App.processed_docs App.all_chunks].
      split; [exact Hd | now rewrite Hac].
    + split.
      * intros E. rewrite Hself in E. discriminate E.
      * intros _. rewrite Hself. cbv zeta. fold docs.
        exists (calls w1). unfold out. rewrite Hrun. cbn [snd self calls].
        split; [reflexivity |]. intros ix Hix. now rewrite Hix.
Qed.

End Ingestion.

(** X28. Over a whole session the accumulated collection stays the
    concatenation, in upload order, of the chunks of every document
    processed so far: no batch is ever replaced. *)
Lemma run_session_accumulates FAISS (X : Externals FAISS)
      (batches : list (list UploadedFile)) :
  forall w : world (App.session_state FAISS),
    App.all_chunks (self w) = recorded_chunks (self w) ->
    let w' := snd (run_session X batches w) in
    fst (run_session X batches w) = Ok tt
    /\ App.all_chunks (self w') = recorded_chunks (self w')
    /\ exists later, App.all_chunks (self w') = App.all_chunks (self w) ++ later.
Proof.
  induction batches as [| files batches IH]; intros w Hinv.
  - cbn. split; [reflexivity |]. split; [exact Hinv |]. exists []. now rewrite app_nil_r.
  - unfold run_session. cbn [for_each]. unfold bind.
    pose proof (process_documents_run X files w) as Hrun. cbv zeta in Hrun.
    destruct (upload_loop_effect X files w) as (_ & new & [Hd Hc _ _ _]).
    set (w1 := snd (for_each files (App.process_one_file X) w)) in *.
    assert (Hstep : exists w2, App.process_documents X files w = (Ok tt, w2)
                               /\ App.processed_docs (self w2) = App.processed_docs (self w1)
                               /\ App.all_chunks (self w2) = App.all_chunks (self w1)).
    { destruct (App.all_chunks (self w1)) eqn:E; rewrite Hrun; eexists;
        (split; [reflexivity |]); split; try reflexivity; exact E. }
    destruct Hstep as (w2 & -> & Hd2 & Hc2).
    assert (Hinv2 : App.all_chunks (self w2) = recorded_chunks (self w2)).
    { unfold recorded_chunks in *. rewrite Hc2, Hd2, Hc, Hd, map_app, concat_app.
      now rewrite Hinv. }
    destruct (IH w2 Hinv2) as (Hok & Hrec & later & Hlater).
    split; [exact Hok |]. split; [exact Hrec |].
    exists (concat (map (@App.chunks) new) ++ later).
    unfold run_session in Hlater. rewrite Hlater, Hc2, Hc. now rewrite app_assoc.
Qed.

(** C9 as stated fails on an upload that yields no chunk while nothing
    has been accumulated: the call returns normally, and no index build
    is attempted, so the index stays absent. (Second part: when the
    backend fails, the chunks are accumulated and the build is attempted,
    but no index is installed.) *)
Lemma rebuild_skipped_counterexample :
  let unreadable := mkFile s!"scan.pdf" [] in
  let readable := mkFile s!"notes.pdf" s!"Insulin lowers blood glucose." in
  let skipped := App.process_documents double [unreadable] (initial_session double 20) in
  let failed :=
    App.process_documents double_unavailable [readable]
      (initial_session double_unavailable 20) in
  (fst skipped = Ok tt
   /\ App.all_chunks (self (snd skipped)) = []
   /\ calls (snd skipped) = [DatetimeNow; PdfRead []]
   /\ existsb is_index_access (calls (snd skipped)) = false
   /\ RAGChain.vector_store (App.rag_chain (self (snd skipped))) = None)
  /\ (fst failed = Ok tt
      /\ length (App.all_chunks (self (snd failed))) = 1
      /\ existsb is_index_access (calls (snd failed)) = true
      /\ RAGChain.vector_store (App.rag_chain (self (snd failed))) = None).
Proof. repeat split. Qed.

Lemma process_documents_accumulates_and_rebuilds_witness :
  let readable := mkFile s!"notes.pdf" s!"Insulin lowers blood glucose." in
  let w := initial_session double 20 in
  let out := App.process_documents double [readable] w in
  App.all_chunks (self (snd out)) <> []
  /\ App.processed_docs (self (snd out))
     = [App.mkProcessed s!"notes.pdf" (App.all_chunks (self (snd out))) 1]
  /\ exists h,
       calls (snd out)
       = h ++ [FAISSFromDocuments
                 (map RAGChain.to_document (App.all_chunks (self (snd out))))]
       /\ RAGChain.vector_store (App.rag_chain (self (snd out)))
          = Some (map RAGChain.to_document (App.all_chunks (self (snd out)))).
Proof.
  intros readable w out.
  assert (Hne : App.all_chunks (self (snd out)) <> []) by discriminate.
  split; [exact Hne |].
  destruct (@process_documents_accumulates_and_rebuilds _ double [readable] w)
    as (_ & (Hdocs & _) & _ & Hbuild).
  split; [exact Hdocs |].
  destruct (Hbuild Hne) as (h & Hcalls & Hix).
  exists h. split; [exact Hcalls |].
  unfold out. now rewrite (Hix _ eq_refl).
Defined.

(* ===================================================================== *)
(** * Further properties of the code *)
(* ===================================================================== *)

(** ** More on strings *)

Section MoreStringFacts.

Lemma lstrip_idempotent (s : str) : Py.lstrip (Py.lstrip s) = Py.lstrip s.
Proof.
  induction s as [| c s IH]; [reflexivity |].
  simpl. destruct (Py.isspace c) eqn:Hc; [exact IH |].
  simpl. now rewrite Hc.
Qed.

(** [lstrip] removes a prefix of whitespace. *)
Lemma lstrip_split (s : str) :
  exists p, s = p ++ Py.lstrip s /\ blank p = true.
Proof.
  induction s as [| c s (p & E & Hp)]; [now exists [] |].
  simpl. destruct (Py.isspace c) eqn:Hc.
  - exists (c :: p). simpl. rewrite Hc, Hp. split; [now rewrite <- E | reflexivity].
  - now exists [].
Qed.

Lemma lstrip_fixed_head (s : str) :
  Py.lstrip s = s -> s = [] \/ exists c r, s = c :: r /\ Py.isspace c = false.
Proof.
  destruct s as [| c r]; [now left |]. intros H. right. exists c, r.
  split; [reflexivity |]. simpl in H. destruct (Py.isspace c) eqn:Hc; [| reflexivity].
  exfalso. destruct (lstrip_split r) as (p & E & _).
  apply (f_equal (@length ascii)) in E. rewrite H in E.
  rewrite length_app in E. simpl in E. lia.
Qed.

Lemma lstrip_blank_app (p s : str) :
  blank p = true -> Py.lstrip (p ++ s) = Py.lstrip s.
Proof.
  induction p as [| c p IH]; [reflexivity |]. simpl.
  intros H. apply andb_true_iff in H as [Hc Hp]. rewrite Hc. now apply IH.
Qed.

Lemma blank_rev (p : str) : blank (rev p) = blank p.
Proof.
  unfold blank. induction p as [| c p IH]; [reflexivity |].
  simpl. rewrite forallb_app, IH. simpl. rewrite andb_true_r. apply andb_comm.
Qed.

(** The result of [strip] neither starts nor ends with whitespace. *)
Lemma strip_is_trimmed (s : str) : trimmed (Py.strip s).
Proof.
  unfold Py.strip, Py.rstrip. set (a := Py.lstrip s).
  set (b := Py.lstrip (rev a)). split.
  - destruct (lstrip_split (rev a)) as (p & E & Hp). fold b in E.
    assert (Ea : a = rev b ++ rev p).
    { rewrite <- (rev_involutive a), E. apply rev_app_distr. }
    destruct (rev b) as [| c r] eqn:Hb; [reflexivity |].
    destruct (@lstrip_fixed_head a (lstrip_idempotent s)) as [Hnil | (c' & r' & Hc & Hs)].
    + rewrite Hnil in Ea. discriminate.
    + rewrite Hc in Ea. injection Ea as -> _. simpl. now rewrite Hs.
  - rewrite rev_involutive. apply lstrip_idempotent.
Qed.

Lemma strip_idempotent (s : str) : Py.strip (Py.strip s) = Py.strip s.
Proof. apply strip_trimmed, strip_is_trimmed. Qed.

(** Whitespace around a string does not survive [strip]. *)
Lemma strip_padding (pre s post : str) :
  blank pre = true -> blank post = true ->
  Py.strip (pre ++ s ++ post) = Py.strip s.
Proof.
  intros Hpre Hpost. unfold Py.strip, Py.rstrip.
  rewrite (@lstrip_blank_app pre _ Hpre).
  destruct (lstrip_split s) as (p & E & Hp).
  destruct (Py.lstrip s) as [| c r] eqn:Hl.
  - (* [s] is blank: so is [s ++ post] *)
    rewrite app_nil_r in E. subst p.
    assert (Hall : Py.lstrip (s ++ post) = []).
    { rewrite (@lstrip_blank_app s _ Hp).
      rewrite <- (app_nil_r post), (@lstrip_blank_app post _ Hpost). reflexivity. }
    now rewrite Hall.
  - assert (Hc : Py.isspace c = false).
    { destruct (@lstrip_fixed_head (c :: r)) as [Hnil | (c' & r' & Hcr & Hs)].
      - rewrite <- Hl. apply lstrip_idempotent.
      - discriminate.
      - now injection Hcr as -> _. }
    rewrite E, <- app_assoc, (@lstrip_blank_app p _ Hp).
    change ((c :: r) ++ post) with (c :: r ++ post).
    rewrite (@lstrip_nospace_head c _ Hc).
    change (c :: r ++ post) with ((c :: r) ++ post).
    rewrite rev_app_distr, lstrip_blank_app by (now rewrite blank_rev).
    reflexivity.
Qed.

Lemma strip_sub (s : str) (c : ascii) : In c (Py.strip s) -> In c s.
Proof.
  unfold Py.strip, Py.rstrip. intros H. apply in_rev in H.
  destruct (lstrip_split (rev (Py.lstrip s))) as (p & E & _).
  assert (H1 : In c (rev (Py.lstrip s))) by (rewrite E; apply in_or_app; now right).
  apply in_rev in H1.
  destruct (lstrip_split s) as (p' & E' & _). rewrite E'. apply in_or_app. now right.
Qed.

(** [split] produces words, made of characters of its input. *)
Lemma split_from_words (s : str) :
  forall cur, nospace cur = true -> Forall is_word (Py.split_from cur s).
Proof.
  induction s as [| c s IH]; intros cur Hcur; simpl.
  - destruct cur; constructor; [| constructor]. split; [discriminate | assumption].
  - destruct (Py.isspace c) eqn:Hc.
    + destruct cur as [| x cur]; [now apply IH |].
      constructor; [split; [discriminate | assumption] | now apply IH].
    + apply IH. rewrite nospace_app, Hcur. simpl. now rewrite Hc.
Qed.

Lemma split_words (s : str) : Forall is_word (Py.split s).
Proof. now apply split_from_words. Qed.

Lemma split_from_chars (s : str) :
  forall cur w c, In w (Py.split_from cur s) -> In c w -> In c cur \/ In c s.
Proof.
  induction s as [| x s IH]; intros cur w c Hw Hc; simpl in Hw.
  - destruct cur; [contradiction |]. destruct Hw as [<- | []]. now left.
  - destruct (Py.isspace x).
    + destruct cur as [| y cur].
      * destruct (@IH [] w c Hw Hc) as [[] | H]. right. now right.
      * destruct Hw as [<- | Hw]; [now left |].
        destruct (@IH [] w c Hw Hc) as [[] | H]. right. now right.
    + destruct (@IH _ w c Hw Hc) as [H | H].
      * apply in_app_or in H as [H | [<- | []]]; [now left | right; now left].
      * right. now right.
Qed.

Lemma split_chars (s w : str) (c : ascii) : In w (Py.split s) -> In c w -> In c s.
Proof.
  intros Hw Hc. destruct (@split_from_chars s [] w c Hw Hc) as [[] | H]. exact H.
Qed.

Lemma join_chars (sep : str) (ws : list str) (c : ascii) :
  In c (Py.join sep ws) -> In c sep \/ exists w, In w ws /\ In c w.
Proof.
  induction ws as [| w ws IH]; [contradiction |].
  destruct ws as [| w2 ws].
  - intros H. right. exists w. split; [now left | exact H].
  - rewrite join_cons2. intros H.
    apply in_app_or in H as [H | H]; [right; exists w; split; [now left | exact H] |].
    apply in_app_or in H as [H | H]; [now left |].
    destruct (IH H) as [Hs | (w' & Hw' & Hc)]; [now left |].
    right. exists w'. split; [now right | exact Hc].
Qed.

Lemma join_words_any_trimmed (ws : list str) :
  Forall is_word ws -> trimmed (Py.join [Py.space] ws).
Proof.
  destruct ws as [| w ws]; [now split | apply join_words_trimmed].
Qed.

(** Splitting a blank string gives no word. *)
Lemma split_blank (s : str) : blank s = true -> Py.split s = [].
Proof.
  unfold Py.split. induction s as [| c s IH]; [reflexivity |].
  simpl. intros H. apply andb_true_iff in H as [Hc Hs]. rewrite Hc. now apply IH.
Qed.

End MoreStringFacts.

(* ===================================================================== *)
(** ** [utils.py] *)
(* ===================================================================== *)

Section UtilsProperties.

(** X1. When the suffix fits in [max_length], [truncate_text] never
    returns more than [max_length] characters: a text within the bound
    comes back unchanged, a longer one is cut to a prefix of the text
    followed by the suffix, of length exactly [max_length]; truncating
    the result again changes nothing. *)
Theorem truncate_text_fits (text suffix : str) (max_length : Z) :
  (Z.of_nat (length suffix) <= max_length)%Z ->
  let out := Utils.truncate_text text max_length suffix in
  (Z.of_nat (length out) <= max_length)%Z
  /\ ((Z.of_nat (length text) <= max_length)%Z -> out = text)
  /\ ((max_length < Z.of_nat (length text))%Z ->
      out = firstn (Z.to_nat max_length - length suffix) text ++ suffix
      /\ Z.of_nat (length out) = max_length)
  /\ Utils.truncate_text out max_length suffix = out.
Proof.
  intros Hs out.
  assert (Hshort : (Z.of_nat (length text) <= max_length)%Z -> out = text).
  { intros H. unfold out, Utils.truncate_text.
    now replace (Z.of_nat (length text) <=? max_length)%Z with true
      by (symmetry; apply Z.leb_le; lia). }
  assert (Hlong : (max_length < Z.of_nat (length text))%Z ->
                  out = firstn (Z.to_nat max_length - length suffix) text ++ suffix
                  /\ Z.of_nat (length out) = max_length).
  { intros H.
    assert (E : out = firstn (Z.to_nat max_length - length suffix) text ++ suffix).
    { unfold out, Utils.truncate_text, Py.slice_to.
      replace (Z.of_nat (length text) <=? max_length)%Z with false
        by (symmetry; apply Z.leb_gt; lia).
      replace (max_length - Z.of_nat (length suffix) <? 0)%Z with false
        by (symmetry; apply Z.ltb_ge; lia).
      do 2 f_equal. lia. }
    split; [exact E |]. rewrite E, length_app, length_firstn. lia. }
  assert (Hbound : (Z.of_nat (length out) <= max_length)%Z).
  { destruct (Z_le_gt_dec (Z.of_nat (length text)) max_length) as [H | H].
    - now rewrite (Hshort H).
    - destruct Hlong as [_ E]; lia. }
  repeat split; try assumption; try (apply Hlong; assumption).
  unfold Utils.truncate_text at 1.
  now replace (Z.of_nat (length out) <=? max_length)%Z with true
    by (symmetry; apply Z.leb_le; lia).
Qed.

Lemma truncate_text_fits_witness :
  Utils.truncate_text s!"hypertension" 8 s!"..." = s!"hyper..."
  /\ (Z.of_nat (length (Utils.truncate_text s!"hypertension" 8 s!"...")) <= 8)%Z.
Proof.
  assert (Hs : (Z.of_nat (length s!"...") <= 8)%Z) by (simpl; lia).
  split; [reflexivity |].
  exact (proj1 (@truncate_text_fits s!"hypertension" s!"..." 8%Z Hs)).
Defined.

(** X2. When the suffix is longer than [max_length], the stop index of
    the slice is negative and counts from the end of the text: a text
    longer than [max_length] then comes back longer than [max_length]. *)
Theorem truncate_text_long_suffix (text suffix : str) (max_length : Z) :
  (max_length < Z.of_nat (length suffix))%Z ->
  (max_length < Z.of_nat (length text))%Z ->
  let out := Utils.truncate_text text max_length suffix in
  Z.of_nat (length out)
  = Z.max (Z.of_nat (length suffix)) (Z.of_nat (length text) + max_length)
  /\ (max_length < Z.of_nat (length out))%Z.
Proof.
  intros Hs Ht out.
  assert (E : Z.of_nat (length out)
              = Z.max (Z.of_nat (length suffix)) (Z.of_nat (length text) + max_length)).
  { unfold out, Utils.truncate_text, Py.slice_to.
    replace (Z.of_nat (length text) <=? max_length)%Z with false
      by (symmetry; apply Z.leb_gt; lia).
    replace (max_length - Z.of_nat (length suffix) <? 0)%Z with true
      by (symmetry; apply Z.ltb_lt; lia).
    rewrite length_app, length_firstn. lia. }
  split; [exact E | lia].
Qed.

Lemma truncate_text_long_suffix_witness :
  Utils.truncate_text s!"abcdefghij" 2 s!"..." = s!"abcdefghi..."
  /\ (2 < Z.of_nat (length (Utils.truncate_text s!"abcdefghij" 2 s!"...")))%Z.
Proof.
  assert (Hs : (2 < Z.of_nat (length s!"..."))%Z) by (simpl; lia).
  assert (Ht : (2 < Z.of_nat (length s!"abcdefghij"))%Z) by (simpl; lia).
  split; [reflexivity |].
  exact (proj2 (@truncate_text_long_suffix s!"abcdefghij" s!"..." 2%Z Hs Ht)).
Defined.

Lemma replace_char_in (c x : ascii) (s : str) :
  In x (Py.replace_char c [] s) <-> In x s /\ x <> c.
Proof.
  unfold Py.replace_char. rewrite in_flat_map. split.
  - intros (y & Hy & Hx). destruct (Ascii.eqb y c) eqn:E; [contradiction |].
    destruct Hx as [<- | []]. split; [assumption |].
    intros ->. now rewrite Ascii.eqb_refl in E.
  - intros [Hx Hne]. exists x. split; [assumption |].
    destruct (Ascii.eqb x c) eqn:E; [apply Ascii.eqb_eq in E; congruence | now left].
Qed.

Lemma replace_char_absent (c : ascii) (s : str) :
  ~ In c s -> Py.replace_char c [] s = s.
Proof.
  unfold Py.replace_char. induction s as [| x s IH]; [reflexivity |].
  intros H. simpl. destruct (Ascii.eqb x c) eqn:E.
  - apply Ascii.eqb_eq in E. subst. exfalso. apply H. now left.
  - simpl. f_equal. apply IH. intros Hin. apply H. now right.
Qed.

Lemma remove_chars_in (cs : list ascii) :
  forall (s : str) (x : ascii),
    In x (fold_left (fun t char => Py.replace_char char [] t) cs s)
    <-> In x s /\ ~ In x cs.
Proof.
  induction cs as [| c cs IH]; intros s x; simpl.
  - tauto.
  - rewrite IH, replace_char_in. split.
    + intros [[Hx Hne] Hcs]. split; [assumption |]. intros [E | Hin]; congruence.
    + intros [Hx Hn]. repeat split; try assumption.
      * intros ->. apply Hn. now left.
      * intros Hin. apply Hn. now right.
Qed.

Lemma remove_chars_absent (cs : list ascii) :
  forall s : str, (forall x, In x s -> ~ In x cs) ->
    fold_left (fun t char => Py.replace_char char [] t) cs s = s.
Proof.
  induction cs as [| c cs IH]; intros s H; simpl; [reflexivity |].
  rewrite replace_char_absent.
  - apply IH. intros x Hx Hin. apply (H x Hx). now right.
  - intros Hc. apply (H c Hc). now left.
Qed.

Lemma sanitize_input_harmless (text : str) : harmless (Utils.sanitize_input text).
Proof.
  intros c Hc. unfold Utils.sanitize_input in Hc.
  apply strip_sub in Hc. now apply remove_chars_in in Hc.
Qed.

(** X3. Whatever the input, the result of [sanitize_input] holds none of
    the seven removed characters, neither starts nor ends with
    whitespace, and its only whitespace character is the blank. *)
Theorem sanitize_input_clean (text : str) :
  let out := Utils.sanitize_input text in
  harmless out
  /\ trimmed out
  /\ (forall c, In c out -> Py.isspace c = true -> c = Py.space).
Proof.
  intros out. split; [apply sanitize_input_harmless |].
  unfold out, Utils.sanitize_input. split; [apply strip_is_trimmed |].
  intros c Hc Hsp. apply strip_sub in Hc. apply remove_chars_in in Hc as [Hc _].
  apply join_chars in Hc as [[<- | []] | (w & Hw & Hc)]; [reflexivity |].
  exfalso. pose proof (split_words text) as Hall.
  rewrite Forall_forall in Hall. destruct (Hall w Hw) as [_ Hns].
  unfold nospace in Hns. rewrite forallb_forall in Hns.
  specialize (Hns c Hc). now rewrite Hsp in Hns.
Qed.

(** X4. On a text without any of the removed characters,
    [sanitize_input] only normalises whitespace: the result is the words
    of the text joined by single blanks, it has the same words as the
    text, and sanitising it again changes nothing. *)
Theorem sanitize_input_words (text : str) :
  harmless text ->
  let out := Utils.sanitize_input text in
  out = Py.join [Py.space] (Py.split text)
  /\ Py.split out = Py.split text
  /\ Utils.sanitize_input out = out.
Proof.
  intros Hh out.
  assert (Hjoin : forall t, harmless t ->
            Utils.sanitize_input t = Py.join [Py.space] (Py.split t)).
  { intros t Ht. unfold Utils.sanitize_input. rewrite remove_chars_absent.
    - apply strip_trimmed, join_words_any_trimmed, split_words.
    - intros x Hx. apply join_chars in Hx as [[<- | []] | (w & Hw & Hx)].
      + intros Hin. simpl in Hin.
        repeat (destruct Hin as [Hin | Hin]; [discriminate Hin |]). exact Hin.
      + apply Ht. eapply split_chars; eassumption. }
  assert (E : out = Py.join [Py.space] (Py.split text)) by (now apply Hjoin).
  assert (Es : Py.split out = Py.split text).
  { rewrite E. apply split_join_words, split_words. }
  repeat split; try assumption.
  rewrite Hjoin.
  - now rewrite Es.
  - apply sanitize_input_harmless.
Qed.

Lemma harmless_check (s : str) :
  forallb (fun c => negb (existsb (Ascii.eqb c) Utils.harmful_chars)) s = true ->
  harmless s.
Proof.
  intros H c Hc Hin. rewrite forallb_forall in H. specialize (H c Hc).
  apply negb_true_iff in H.
  assert (Hex : existsb (Ascii.eqb c) Utils.harmful_chars = true).
  { apply existsb_exists. exists c. split; [assumption | apply Ascii.eqb_refl]. }
  congruence.
Qed.

Lemma sanitize_input_words_witness :
  let text := s!"  what   is " ++ [Py.newline] ++ s!" diabetes? " in
  harmless text /\ Utils.sanitize_input text = s!"what is diabetes?".
Proof.
  intros text.
  assert (Hh : harmless text) by (apply harmless_check; reflexivity).
  split; [exact Hh |].
  exact (proj1 (@sanitize_input_words text Hh)).
Defined.

Lemma clip_nat (len a : nat) : Py.clip len (Z.of_nat a) = Nat.min a len.
Proof.
  unfold Py.clip.
  replace (Z.of_nat a <? 0)%Z with false by (symmetry; apply Z.ltb_ge; lia).
  now rewrite Nat2Z.id.
Qed.

(** A slice between two natural bounds is a window of the list. *)
Lemma slice_window {A} (a n : nat) (l : list A) :
  Py.slice (Z.of_nat a) (Z.of_nat a + Z.of_nat n) l = firstn n (skipn a l).
Proof.
  unfold Py.slice. rewrite <- Nat2Z.inj_add, !clip_nat.
  destruct (Nat.le_gt_cases (length l) a) as [Hge | Hlt].
  - rewrite (Nat.min_r a) by assumption. rewrite !skipn_all2 by lia.
    now rewrite !firstn_nil.
  - rewrite (Nat.min_l a) by lia.
    destruct (Nat.le_gt_cases (a + n) (length l)) as [Hin | Hout].
    + rewrite Nat.min_l by assumption. f_equal. lia.
    + rewrite Nat.min_r by lia.
      rewrite !firstn_all2; try reflexivity; rewrite length_skipn; lia.
Qed.

(** Consecutive windows of [n] elements cover a list exactly. *)
Lemma concat_windows {A} (n : nat) :
  forall (k : nat) (l : list A),
    length l <= k * n ->
    concat (map (fun i => firstn n (skipn (i * n) l)) (seq 0 k)) = l.
Proof.
  induction k as [| k IH]; intros l Hlen.
  - destruct l; [reflexivity | simpl in Hlen; lia].
  - cbn [seq map concat]. rewrite <- seq_shift, map_map.
    change (skipn (0 * n) l) with l.
    etransitivity; [| apply (firstn_skipn n l)]. f_equal.
    etransitivity; [| apply (IH (skipn n l)); rewrite length_skipn; lia].
    f_equal. apply map_ext. intros i. f_equal.
    rewrite skipn_skipn. f_equal. lia.
Qed.

Lemma chunks_needed_spec (len n : nat) :
  1 <= n ->
  len <= chunks_needed len n * n
  /\ (forall i, i < chunks_needed len n -> i * n < len).
Proof.
  intros Hn. unfold chunks_needed.
  pose proof (Nat.div_mod_eq (len + n - 1) n) as E.
  pose proof (Nat.mod_upper_bound (len + n - 1) n ltac:(lia)) as Hr.
  set (q := (len + n - 1) / n) in *. set (r := (len + n - 1) mod n) in *.
  split; [nia |]. intros i Hi. nia.
Qed.

Lemma range_count (len n : nat) :
  1 <= n ->
  Utils.range 0 (Z.of_nat len) (Z.of_nat n)
  = Ok (map (fun i => Z.of_nat (i * n)) (seq 0 (chunks_needed len n))).
Proof.
  intros Hn. unfold Utils.range.
  replace (Z.of_nat n =? 0)%Z with false by (symmetry; apply Z.eqb_neq; lia).
  replace (0 <? Z.of_nat n)%Z with true by (symmetry; apply Z.ltb_lt; lia).
  f_equal.
  assert (Hc : Z.to_nat (if (0 <? Z.of_nat len)%Z
                         then (Z.of_nat len - 0 + Z.of_nat n - 1) / Z.of_nat n
                         else 0)%Z
               = chunks_needed len n).
  { unfold chunks_needed. destruct len as [| len'].
    - simpl (0 <? Z.of_nat 0)%Z. cbv iota.
      symmetry. apply Nat.div_small. lia.
    - replace (0 <? Z.of_nat (S len'))%Z with true by (symmetry; apply Z.ltb_lt; lia).
      replace (Z.of_nat (S len') - 0 + Z.of_nat n - 1)%Z
        with (Z.of_nat (S len' + n - 1)) by lia.
      now rewrite <- Nat2Z.inj_div, Nat2Z.id. }
  rewrite Hc. apply map_ext. intros i. lia.
Qed.

Lemma Forall_firstn_skipn {A} (P : A -> Prop) (a n : nat) (l : list A) :
  Forall P l -> Forall P (firstn n (skipn a l)).
Proof.
  intros H. rewrite Forall_forall in *. intros x Hx.
  apply H. rewrite <- (firstn_skipn a l). apply in_or_app. right.
  rewrite <- (firstn_skipn n (skipn a l)). apply in_or_app. now left.
Qed.

(** X5. For a chunk size of at least one, [split_into_chunks] returns
    normally and partitions the words of the text: splitting the chunks
    again gives back the words of the text in order, there are as many
    chunks as needed for that many words, and every chunk holds between
    one and [chunk_size] words. *)
Theorem split_into_chunks_partitions (text : str) (chunk_size : nat) :
  1 <= chunk_size ->
  exists chunks,
    Utils.split_into_chunks text (Z.of_nat chunk_size) = Ok chunks
    /\ concat (map Py.split chunks) = Py.split text
    /\ length chunks = chunks_needed (word_count text) chunk_size
    /\ Forall (fun chunk => 1 <= word_count chunk <= chunk_size) chunks.
Proof.
  intros Hn. unfold Utils.split_into_chunks, word_count.
  set (words := Py.split text).
  rewrite (range_count (length words) Hn).
  set (k := chunks_needed (length words) chunk_size).
  eexists. split; [reflexivity |].
  destruct (@chunks_needed_spec (length words) chunk_size Hn) as [Hcover Hstart].
  fold k in Hcover, Hstart.
  assert (Hchunk : forall i,
            Py.split (Py.join [Py.space]
                        (Py.slice (Z.of_nat (i * chunk_size))
                           (Z.of_nat (i * chunk_size) + Z.of_nat chunk_size) words))
            = firstn chunk_size (skipn (i * chunk_size) words)).
  { intros i. rewrite slice_window. apply split_join_words.
    apply Forall_firstn_skipn, split_words. }
  rewrite !map_map. split; [| split].
  - rewrite (map_ext _ _ Hchunk). now apply concat_windows.
  - now rewrite length_map, length_seq.
  - rewrite Forall_forall. intros chunk Hin.
    apply in_map_iff in Hin as (i & <- & Hi). apply in_seq in Hi.
    rewrite Hchunk, length_firstn, length_skipn.
    specialize (Hstart i ltac:(lia)). lia.
Qed.

Lemma split_into_chunks_partitions_witness :
  let text := s!"one two  three four five" in
  1 <= 2
  /\ exists chunks,
       Utils.split_into_chunks text 2 = Ok chunks
       /\ concat (map Py.split chunks) = Py.split text
       /\ length chunks = 3.
Proof.
  intros text. split; [lia |].
  destruct (@split_into_chunks_partitions text 2 ltac:(lia))
    as (chunks & E & Hwords & Hlen & _).
  exists chunks. repeat split; assumption.
Defined.

(** X6. A chunk size that is not positive yields no chunk: zero makes
    [range] raise its [ValueError], and a negative size makes the loop
    run over an empty range, so the result is the empty list whatever
    the text. *)
Theorem split_into_chunks_without_size (text : str) :
  Utils.split_into_chunks text 0
  = Raise (ValueError s!"range() arg 3 must not be zero")
  /\ (forall chunk_size, (chunk_size < 0)%Z ->
        Utils.split_into_chunks text chunk_size = Ok []).
Proof.
  split; [reflexivity |]. intros n Hn.
  unfold Utils.split_into_chunks, Utils.range.
  replace (n =? 0)%Z with false by (symmetry; apply Z.eqb_neq; lia).
  replace (0 <? n)%Z with false by (symmetry; apply Z.ltb_ge; lia).
  replace (Z.of_nat (length (Py.split text)) <? 0)%Z with false
    by (symmetry; apply Z.ltb_ge; lia).
  reflexivity.
Qed.

Lemma split_into_chunks_without_size_witness :
  Utils.split_into_chunks s!"one two three" (-2) = Ok [].
Proof.
  exact (proj2 (split_into_chunks_without_size s!"one two three") (-2)%Z ltac:(lia)).
Defined.

Lemma fold_left_append {A} (g : A -> str) (l : list A) :
  forall init, fold_left (fun formatted x => formatted ++ g x) l init
               = init ++ concat (map g l).
Proof.
  induction l as [| x l IH]; intros init; simpl.
  - now rewrite app_nil_r.
  - now rewrite IH, <- app_assoc.
Qed.

(** X7. [format_response] keeps the content verbatim at the head of its
    result: without sources the result is the content itself; otherwise
    the content is followed by the sources heading and one line per
    source, in order. *)
Theorem format_response_shape (content : str) (sources : list Chunk) :
  Utils.format_response content [] = content
  /\ (sources <> [] ->
      Utils.format_response content sources
      = content ++ [Py.newline; Py.newline] ++ s!"**Sources:**" ++ [Py.newline]
        ++ concat (map Utils.source_line sources))
  /\ Py.startswith (Utils.format_response content sources) content = true.
Proof.
  assert (Hne : sources <> [] ->
      Utils.format_response content sources
      = content ++ [Py.newline; Py.newline] ++ s!"**Sources:**" ++ [Py.newline]
        ++ concat (map Utils.source_line sources)).
  { intros H. destruct sources as [| x l]; [congruence |].
    unfold Utils.format_response. rewrite fold_left_append.
    now rewrite <- !app_assoc. }
  split; [reflexivity |]. split; [exact Hne |].
  destruct sources as [| x l].
  - simpl. rewrite <- (app_nil_r content) at 1. apply startswith_app.
  - rewrite Hne by discriminate. apply startswith_app.
Qed.

Lemma format_response_shape_witness :
  let sources := [mkChunk s!"Insulin." (Some [(s!"source", MStr s!"a.pdf"); (s!"chunk_id", MInt 3)]);
                  mkChunk s!"Glucose." None] in
  sources <> []
  /\ Utils.format_response s!"Done." sources
     = s!"Done." ++ [Py.newline; Py.newline] ++ s!"**Sources:**" ++ [Py.newline]
       ++ s!"- a.pdf (Chunk 3)" ++ [Py.newline]
       ++ s!"- Unknown (Chunk Unknown)" ++ [Py.newline].
Proof.
  intros sources.
  assert (Hne : sources <> []) by discriminate.
  split; [exact Hne |].
  exact (proj1 (proj2 (format_response_shape s!"Done." sources)) Hne).
Defined.

Lemma total_chars_fold (documents : list (list (str * str))) :
  forall acc,
    fold_left (fun acc doc =>
                 (acc + Z.of_nat (length (match dict_get doc s!"content" with
                                          | Some c => c
                                          | None => []
                                          end)))%Z) documents acc
    = (acc + fold_right Z.add 0
               (map (fun doc => Z.of_nat (length (content_or_empty doc))) documents))%Z.
Proof.
  induction documents as [| d ds IH]; intros acc; cbn [fold_left map fold_right].
  - lia.
  - rewrite IH, <- Z.add_assoc. reflexivity.
Qed.

(** Estimating a list of documents at once never gives less than
    adding the estimates of their contents one by one, and at most three
    quarters of a token more per document; a document without a
    ["content"] entry counts for nothing. *)
Theorem estimate_from_documents_bounds (documents : list (list (str * str))) :
  let one_by_one :=
    fold_right Z.add 0%Z
      (map (fun doc => Utils.estimate_tokens (content_or_empty doc)) documents) in
  (one_by_one <= Utils.estimate_from_documents documents
   <= one_by_one + 3 * Z.of_nat (length documents) / 4)%Z.
Proof.
  unfold Utils.estimate_from_documents. rewrite total_chars_fold.
  unfold Utils.estimate_tokens, Utils.CHARS_PER_TOKEN. cbv zeta.
  set (total := fold_right Z.add 0%Z
                 (map (fun doc => Z.of_nat (length (content_or_empty doc))) documents)).
  set (parts := fold_right Z.add 0%Z
                 (map (fun doc => (Z.of_nat (length (content_or_empty doc)) / 4)%Z)
                    documents)).
  assert (Hrem : exists rest, (0 <= rest <= 3 * Z.of_nat (length documents))%Z
                              /\ total = (4 * parts + rest)%Z).
  { unfold total, parts. clear total parts.
    induction documents as [| d ds (rest & Hr & E)].
    - exists 0%Z. simpl. lia.
    - cbn [map fold_right length]. rewrite E, Nat2Z.inj_succ.
      set (a := Z.of_nat (length (content_or_empty d))).
      pose proof (Z.div_mod a 4 ltac:(lia)) as Ea.
      pose proof (Z.mod_pos_bound a 4 ltac:(lia)) as Hra.
      exists (a mod 4 + rest)%Z. lia. }
  destruct Hrem as (rest & Hr & E).
  replace (0 + total)%Z with (rest + parts * 4)%Z by lia.
  rewrite Z.div_add by lia.
  pose proof (Z.div_pos rest 4 ltac:(lia) ltac:(lia)).
  pose proof (Z.div_le_mono rest (3 * Z.of_nat (length documents)) 4 ltac:(lia) ltac:(lia)).
  lia.
Qed.

End UtilsProperties.

(* ===================================================================== *)
(** ** [chat_manager.py]: reading the conversation *)
(* ===================================================================== *)

Section ConversationProperties.

Variable FAISS : Type.
Variable X : Externals FAISS.

Lemma Forall_skipn {A} (P : A -> Prop) (n : nat) (l : list A) :
  Forall P l -> Forall P (skipn n l).
Proof.
  intros H. rewrite Forall_forall in *. intros x Hx. apply H.
  rewrite <- (firstn_skipn n l). apply in_or_app. now right.
Qed.

Lemma Forall_trimmed_to (P : ChatManager.ChatMessage -> Prop) (mh : Z)
      (l : list ChatManager.ChatMessage) :
  Forall P l -> Forall P (trimmed_to mh l).
Proof.
  intros H. unfold trimmed_to, Py.slice_from.
  destruct (Z.of_nat (length l) >? mh)%Z; [| assumption].
  destruct (- mh <? 0)%Z; now apply Forall_skipn.
Qed.

(** Whatever the bound, a run of appends keeps a property that holds of
    the stored messages and of the messages it constructs. *)
Lemma add_turns_preserves (P : ChatManager.ChatMessage -> Prop) (ts : list turn) :
  forall w : world ChatManager.t,
    Forall P (ChatManager.messages (self w)) ->
    Forall P (created X ts (calls w)) ->
    Forall P (ChatManager.messages (self (snd (add_turns X ts w)))).
Proof.
  induction ts as [| t ts IH]; intros w Hw Hc; [exact Hw |].
  rewrite add_turns_cons, add_turn_run. cbn [snd].
  change (created X (t :: ts) (calls w))
    with (created X [t] (calls w) ++ created X ts (calls w ++ [DatetimeNow])) in Hc.
  apply Forall_app in Hc as [H1 H2].
  apply IH; cbn [self calls ChatManager.messages]; [| exact H2].
  apply Forall_trimmed_to, Forall_app. now split.
Qed.

Lemma created_valid_role (ts : list turn) :
  forall h, Forall valid_role (created X ts h).
Proof.
  induction ts as [| t ts IH]; intros h; [constructor |].
  cbn [created]. constructor; [| apply IH].
  destruct t; [now left | now right].
Qed.

Lemma count_roles (l : list ChatManager.ChatMessage) :
  Forall valid_role l ->
  ChatManager.count_role s!"user" l + ChatManager.count_role s!"assistant" l = length l.
Proof.
  unfold ChatManager.count_role.
  induction 1 as [| m l [Hm | Hm] _ IH]; [reflexivity | |];
    cbn [filter]; rewrite Hm.
  - change (Py.eqb s!"user" s!"user") with true.
    change (Py.eqb s!"user" s!"assistant") with false.
    cbn [length]. lia.
  - change (Py.eqb s!"assistant" s!"user") with false.
    change (Py.eqb s!"assistant" s!"assistant") with true.
    cbn [length]. lia.
Qed.

(** X9. However a store is filled (any bound, any run of user and
    assistant appends on a fresh store), every stored message has the
    role ["user"] or ["assistant"], and the two counts of
    [get_message_count] add up to the number of stored messages. *)
Theorem message_counts_add_up (max_history : Z) (ts : list turn) (h : history) :
  let cm := self (snd (add_turns X ts (ChatManager.init X max_history h))) in
  Forall valid_role (ChatManager.messages cm)
  /\ exists users assistants,
       ChatManager.get_message_count cm
       = [(s!"user", users); (s!"assistant", assistants)]
       /\ users + assistants = length (ChatManager.messages cm).
Proof.
  intros cm.
  assert (Hv : Forall valid_role (ChatManager.messages cm)).
  { apply add_turns_preserves; [constructor | apply created_valid_role]. }
  split; [exact Hv |].
  eexists _, _. split; [reflexivity |]. now apply count_roles.
Qed.

Lemma trimmed_to_snoc (mh : Z) (l : list ChatManager.ChatMessage)
      (m : ChatManager.ChatMessage) :
  (0 <= mh)%Z -> exists pre, trimmed_to mh (l ++ [m]) = pre ++ [m].
Proof.
  intros Hmh. unfold trimmed_to, Py.slice_from.
  destruct (Z.of_nat (length (l ++ [m])) >? mh)%Z eqn:Hgt; [| now exists l].
  destruct (- mh <? 0)%Z eqn:Hneg.
  - apply Z.gtb_lt in Hgt. apply Z.ltb_lt in Hneg.
    rewrite length_app in *. simpl length in *.
    set (k := Z.to_nat (Z.max 0 (Z.of_nat (length l + 1) + - mh))).
    assert (Hk : k <= length l) by (unfold k; lia).
    exists (skipn k l). rewrite skipn_app.
    now replace (k - length l) with 0 by lia.
  - apply Z.ltb_ge in Hneg. replace mh with 0%Z by lia. now exists l.
Qed.

(** X10. Under a bound that is not negative, the message just appended
    is the one the last-message queries find: after a user append
    [get_last_user_message] returns its content, after an assistant
    append [get_last_assistant_message] does. *)
Theorem last_message_after_add (t : turn) (w : world ChatManager.t) :
  (0 <= ChatManager.max_history (self w))%Z ->
  let cm := self (snd (add_turn X t w)) in
  match t with
  | UserTurn c => ChatManager.get_last_user_message cm = Some c
  | AssistantTurn c _ => ChatManager.get_last_assistant_message cm = Some c
  end.
Proof.
  intros Hmh cm. unfold cm. rewrite add_turn_run. cbn [snd self ChatManager.messages].
  destruct t as [c | c md]; cbn [created];
    match goal with
    | |- context [trimmed_to ?mh (?l ++ [?m])] =>
        destruct (@trimmed_to_snoc mh l m Hmh) as (pre & ->)
    end;
    unfold ChatManager.get_last_user_message, ChatManager.get_last_assistant_message;
    cbn [ChatManager.messages]; rewrite rev_app_distr; reflexivity.
Qed.

Lemma last_with_role_spec (r : str) (l : list ChatManager.ChatMessage) :
  match ChatManager.last_with_role r l with
  | Some c =>
      exists pre m post,
        l = pre ++ m :: post /\ ChatManager.role m = r /\ ChatManager.content m = c
        /\ Forall (fun x => ChatManager.role x <> r) pre
  | None => Forall (fun x => ChatManager.role x <> r) l
  end.
Proof.
  induction l as [| x l IH]; [constructor |].
  cbn [ChatManager.last_with_role].
  destruct (Py.eqb (ChatManager.role x) r) eqn:E.
  - apply eqb_eq in E. exists [], x, l. repeat split; [assumption | constructor].
  - assert (Hne : ChatManager.role x <> r).
    { intros H. apply eqb_eq in H. congruence. }
    destruct (ChatManager.last_with_role r l) as [c |].
    + destruct IH as (pre & m & post & -> & Hr & Hc & Hpre).
      exists (x :: pre), m, post. repeat split; try assumption. now constructor.
    + now constructor.
Qed.

(** X11. [get_last_user_message] returns the content of the latest
    stored message whose role is ["user"]: no later message is a user
    message; it returns nothing exactly when the store holds no user
    message. *)
Theorem get_last_user_message_latest (cm : ChatManager.t) :
  match ChatManager.get_last_user_message cm with
  | Some c =>
      exists earlier m later,
        ChatManager.messages cm = earlier ++ m :: later
        /\ ChatManager.role m = s!"user" /\ ChatManager.content m = c
        /\ Forall (fun x => ChatManager.role x <> s!"user") later
  | None => Forall (fun x => ChatManager.role x <> s!"user") (ChatManager.messages cm)
  end.
Proof.
  unfold ChatManager.get_last_user_message.
  pose proof (last_with_role_spec s!"user" (rev (ChatManager.messages cm))) as H.
  destruct (ChatManager.last_with_role s!"user" (rev (ChatManager.messages cm))).
  - destruct H as (pre & m & post & E & Hr & Hc & Hpre).
    exists (rev post), m, (rev pre). repeat split; try assumption.
    + rewrite <- (rev_involutive (ChatManager.messages cm)), E, rev_app_distr.
      simpl. now rewrite <- app_assoc.
    + now apply Forall_rev.
  - rewrite <- (rev_involutive (ChatManager.messages cm)). now apply Forall_rev.
Qed.

(** X12. [get_context_messages] with a positive [num_messages] returns
    the role and content of the [num_messages] most recent messages (of
    all of them when there are fewer), in order; with [num_messages = 0]
    the slice [messages[-0:]] is the whole list, so every stored message
    is returned; with a negative number the first [-num_messages]
    messages are dropped. *)
Theorem get_context_messages_window (cm : ChatManager.t) (n : nat) :
  (1 <= n ->
   ChatManager.get_context_messages cm (Z.of_nat n)
   = map context_entry (last_n n (ChatManager.messages cm)))
  /\ ChatManager.get_context_messages cm 0
     = map context_entry (ChatManager.messages cm)
  /\ ChatManager.get_context_messages cm (- Z.of_nat n)
     = map context_entry (skipn n (ChatManager.messages cm)).
Proof.
  unfold ChatManager.get_context_messages, Py.slice_from, last_n. repeat split.
  - intros Hn.
    replace (- Z.of_nat n <? 0)%Z with true by (symmetry; apply Z.ltb_lt; lia).
    do 2 f_equal. lia.
  - rewrite Z.opp_involutive.
    replace (Z.of_nat n <? 0)%Z with false by (symmetry; apply Z.ltb_ge; lia).
    now rewrite Nat2Z.id.
Qed.

Lemma get_context_messages_window_witness :
  let cm := self (snd (add_turns double
                         (map UserTurn [s!"a"; s!"b"; s!"c"])
                         (ChatManager.init double 20 []))) in
  1 <= 2
  /\ ChatManager.get_context_messages cm 2
     = [[(s!"role", s!"user"); (s!"content", s!"b")];
        [(s!"role", s!"user"); (s!"content", s!"c")]].
Proof.
  intros cm. split; [lia |].
  exact (proj1 (get_context_messages_window cm 2) ltac:(lia)).
Defined.

(** [clear_history] puts the manager in exactly the state of a
    freshly constructed one with the same bound: no message, a
    conversation id read from the clock once, and the bound kept. *)
Theorem clear_history_is_a_fresh_start (w : world ChatManager.t) :
  ChatManager.clear_history X w
  = (Ok tt, ChatManager.init X (ChatManager.max_history (self w)) (calls w)).
Proof. reflexivity. Qed.

Lemma set_add_in (x v : str) (acc : list str) :
  In x (ChatManager.set_add v acc) <-> x = v \/ In x acc.
Proof.
  unfold ChatManager.set_add. destruct (Py.mem v acc) eqn:E.
  - apply mem_In in E. split; [now right | intros [-> | H]; assumption].
  - rewrite in_app_iff. simpl. split; intros H; intuition congruence.
Qed.

Lemma set_add_nodup (v : str) (acc : list str) :
  NoDup acc -> NoDup (ChatManager.set_add v acc).
Proof.
  intros H. unfold ChatManager.set_add. destruct (Py.mem v acc) eqn:E; [assumption |].
  apply NoDup_app; [assumption | repeat constructor; intros [] |].
  intros x Hx [<- | []]. apply mem_In in Hx. congruence.
Qed.

Lemma collect_sources_spec (msgs : list ChatManager.ChatMessage) :
  forall acc,
    NoDup acc -> Forall hashable_source msgs ->
    exists out,
      ChatManager.collect_sources msgs acc = ChatManager.SourceList out
      /\ NoDup out
      /\ (forall x, In x out <->
                    In x acc \/ (x <> [] /\ exists msg, In msg msgs /\ names_source x msg)).
Proof.
  induction msgs as [| m msgs IH]; intros acc Hnd Hh.
  - exists acc. repeat split; [assumption | now left |].
    intros [H | (_ & msg & [] & _)]. exact H.
  - inversion Hh as [| ? ? Hm Hrest]; subst.
    assert (Hskip : (forall x, ~ (x <> [] /\ names_source x m)) ->
              exists out,
                ChatManager.collect_sources msgs acc = ChatManager.SourceList out
                /\ NoDup out
                /\ (forall x, In x out <->
                      In x acc \/ (x <> [] /\ exists msg, In msg (m :: msgs)
                                                          /\ names_source x msg))).
    { intros Hno. destruct (IH acc Hnd Hrest) as (out & E & Hout & Hin).
      exists out. repeat split; try assumption.
      - intros H. apply Hin in H as [H | (Hx & msg & Hmsg & Hn)]; [now left |].
        right. split; [assumption |]. exists msg. split; [now right | assumption].
      - intros [H | (Hx & msg & [<- | Hmsg] & Hn)].
        + apply Hin. now left.
        + exfalso. apply (Hno x). now split.
        + apply Hin. right. split; [assumption |]. now exists msg. }
    cbn [ChatManager.collect_sources].
    destruct (Py.eqb (ChatManager.role m) s!"assistant") eqn:Er.
    2:{ cbn [andb]. apply Hskip. intros x (_ & Hr & _).
        apply eqb_eq in Hr. congruence. }
    apply eqb_eq in Er. cbn [andb].
    destruct (ChatManager.metadata m) as [| kv md] eqn:Emd.
    { apply Hskip. intros x (_ & _ & Hd). rewrite Emd in Hd. discriminate. }
    rewrite <- Emd in *.
    destruct (dict_get (ChatManager.metadata m) s!"source") as [[l | v] |] eqn:Ed.
    + rewrite (Hm l Ed) in *. apply Hskip. intros x (_ & _ & Hd). congruence.
    + destruct v as [| c v'].
      * apply Hskip. intros x (Hx & _ & Hd). congruence.
      * destruct (IH (ChatManager.set_add (c :: v') acc)
                    (set_add_nodup (c :: v') Hnd) Hrest) as (out & E & Hout & Hin).
        exists out. repeat split; try assumption.
        -- intros H. apply Hin in H as [H | (Hx & msg & Hmsg & Hn)].
           ++ apply set_add_in in H as [-> | H]; [| now left].
              right. split; [discriminate |]. exists m. split; [now left | now split].
           ++ right. split; [assumption |]. exists msg. split; [now right | assumption].
        -- intros [H | (Hx & msg & [<- | Hmsg] & Hn)].
           ++ apply Hin. left. apply set_add_in. now right.
           ++ apply Hin. left. apply set_add_in. left.
              destruct Hn as [_ Hd]. congruence.
           ++ apply Hin. right. split; [assumption |]. now exists msg.
    + apply Hskip. intros x (_ & _ & Hd). congruence.
Qed.

(** X13. When no ["source"] entry of the stored messages is a non-empty
    list, [get_sources_from_history] returns, without repetition, exactly
    the non-empty strings that some assistant message carries under the
    key ["source"]; user messages and empty values never contribute. *)
Theorem get_sources_from_history_members (cm : ChatManager.t) :
  Forall hashable_source (ChatManager.messages cm) ->
  exists out,
    ChatManager.get_sources_from_history cm = ChatManager.SourceList out
    /\ NoDup out
    /\ (forall x, In x out <->
                  x <> [] /\ exists msg, In msg (ChatManager.messages cm)
                                         /\ names_source x msg).
Proof.
  intros Hh.
  destruct (@collect_sources_spec (ChatManager.messages cm) [] (NoDup_nil _) Hh)
    as (out & E & Hnd & Hin).
  exists out. repeat split; try assumption.
  - apply Hin in H as [[] | [Hx _]]. exact Hx.
  - apply Hin in H as [[] | [_ Hm]]. exact Hm.
  - intros [Hx Hm]. apply Hin. now right.
Qed.

Lemma get_sources_from_history_members_witness :
  let cm :=
    ChatManager.mk
      [ ChatManager.mkMessage s!"assistant" s!"See the leaflet." 1
          [(s!"source", ChatManager.Text s!"a.pdf")];
        ChatManager.mkMessage s!"user" s!"thanks" 2
          [(s!"source", ChatManager.Text s!"b.pdf")];
        ChatManager.mkMessage s!"assistant" s!"Again the leaflet." 3
          [(s!"source", ChatManager.Text s!"a.pdf")] ] 20 0 in
  Forall hashable_source (ChatManager.messages cm)
  /\ exists out,
       ChatManager.get_sources_from_history cm = ChatManager.SourceList out
       /\ NoDup out /\ In s!"a.pdf" out /\ ~ In s!"b.pdf" out.
Proof.
  intros cm.
  assert (Hh : Forall hashable_source (ChatManager.messages cm))
    by (repeat constructor; intros l H; discriminate H).
  split; [exact Hh |].
  destruct (@get_sources_from_history_members cm Hh) as (out & E & Hnd & Hin).
  exists out. repeat split; try assumption.
  - apply Hin. split; [discriminate |].
    eexists. split; [left; reflexivity | split; reflexivity].
  - intros Hb. apply Hin in Hb as (_ & msg & Hmsg & Hr & Hd).
    destruct Hmsg as [<- | [<- | [<- | []]]]; discriminate.
Defined.

(** X14. The sources that the application stores with an answer sit
    under the key ["sources"]; [get_sources_from_history] reads the key
    ["source"]. So on a store where no message has a ["source"] entry
    the result is always the empty list, whatever was cited. *)
Theorem get_sources_from_history_misses_sources (cm : ChatManager.t) :
  Forall no_source_key (ChatManager.messages cm) ->
  ChatManager.get_sources_from_history cm = ChatManager.SourceList [].
Proof.
  unfold ChatManager.get_sources_from_history.
  generalize (@nil str). induction 1 as [| m msgs Hm _ IH]; [reflexivity |].
  cbn [ChatManager.collect_sources]. unfold no_source_key in Hm. rewrite Hm.
  now destruct (Py.eqb (ChatManager.role m) s!"assistant"
                && match ChatManager.metadata m with [] => false | _ => true end).
Qed.

Lemma get_sources_from_history_misses_sources_witness :
  let cited := [mkRetrieved s!"Insulin." [(s!"source", MStr s!"a.pdf")] None] in
  let cm :=
    self (snd (add_turns double
                 [UserTurn s!"what does the document say?";
                  AssistantTurn s!"It says insulin."
                    (Some [(s!"sources", ChatManager.Sources cited)])]
                 (ChatManager.init double 20 []))) in
  Forall no_source_key (ChatManager.messages cm)
  /\ ChatManager.get_sources_from_history cm = ChatManager.SourceList [].
Proof.
  intros cited cm.
  assert (Hk : Forall no_source_key (ChatManager.messages cm))
    by (repeat constructor).
  split; [exact Hk |].
  exact (@get_sources_from_history_misses_sources cm Hk).
Defined.

End ConversationProperties.

Lemma last_message_after_add_witness :
  let w := ChatManager.init double 1 [] in
  let asked := snd (add_turn double (UserTurn s!"what is insulin?") w) in
  (0 <= ChatManager.max_history (self w))%Z
  /\ ChatManager.get_last_user_message (self asked) = Some s!"what is insulin?".
Proof.
  intros w asked.
  assert (Hmh : (0 <= ChatManager.max_history (self w))%Z) by (simpl; lia).
  split; [exact Hmh |].
  exact (@last_message_after_add _ double (UserTurn s!"what is insulin?") w Hmh).
Defined.


(* ===================================================================== *)
(** ** [rag_chain.py]: more on the classifier *)
(* ===================================================================== *)

Section ClassifierProperties.

Lemma contains_trans (a b s : str) :
  Py.contains a b = true -> Py.contains b s = true -> Py.contains a s = true.
Proof.
  rewrite !contains_iff. intros (x & y & ->) (u & v & ->).
  exists (u ++ x), (y ++ v). now rewrite <- !app_assoc.
Qed.

Lemma contains_refl (a : str) : Py.contains a a = true.
Proof. apply contains_iff. exists [], []. now rewrite app_nil_r. Qed.

(** X15. The classifier answers [Unclear] exactly when the trimmed
    lowercase query is one of the six vague words: the word count test of
    [_is_unclear_query] adds nothing, and neither the greeting nor the
    farewell check, which run first, ever takes one of these words. *)
Theorem unclear_exactly_the_vague_words (query : str) :
  (_is_unclear_query query = true <-> In (Py.strip (Py.lower query)) unclear_keywords)
  /\ (classify query = Unclear <-> In (Py.strip (Py.lower query)) unclear_keywords).
Proof.
  assert (Hall : forallb (fun k =>
              (length (Py.split k) =? 1)
              && negb (if Py.mem k greetings then true
                       else existsb (greeting_hit k) greetings)
              && negb (Py.any_in farewells k)) unclear_keywords = true)
    by reflexivity.
  rewrite forallb_forall in Hall.
  assert (Hu : _is_unclear_query query = true
               <-> In (Py.strip (Py.lower query)) unclear_keywords).
  { unfold _is_unclear_query. rewrite andb_true_iff, mem_In. split; [tauto |].
    intros H. split; [| assumption].
    specialize (Hall _ H). apply andb_true_iff in Hall as [Hall _].
    now apply andb_true_iff in Hall as [Hall _]. }
  split; [exact Hu |]. split.
  - intros Hc. pose proof (classify_inv query) as Hinv. rewrite Hc in Hinv.
    apply Hu. tauto.
  - intros H. specialize (Hall _ H).
    apply andb_true_iff in Hall as [Hall Hf].
    apply andb_true_iff in Hall as [_ Hg].
    apply negb_true_iff in Hg, Hf.
    unfold classify.
    replace (_is_greeting query) with false by (symmetry; exact Hg).
    replace (_is_farewell query) with false by (symmetry; exact Hf).
    apply Hu in H. now rewrite H.
Qed.

(** X16. Eight of the thirteen document keywords are redundant: a query
    is a document question exactly when its lowercase form contains one
    of ["document"], ["file"], ["pdf"], ["mention"] and ["uploaded"]. *)
Theorem document_question_roots (query : str) :
  _is_document_question query = Py.any_in document_roots (Py.lower query).
Proof.
  assert (Hext : forallb (fun k => existsb (fun r => Py.contains r k) document_roots)
                   document_keywords = true) by reflexivity.
  assert (Hsub : forallb (fun r => Py.mem r document_keywords) document_roots = true)
    by reflexivity.
  rewrite forallb_forall in Hext, Hsub.
  unfold _is_document_question, Py.any_in. apply eq_iff_eq_true.
  rewrite !existsb_exists. split.
  - intros (k & Hk & Hc). specialize (Hext k Hk).
    apply existsb_exists in Hext as (r & Hr & Hrk).
    exists r. split; [assumption |]. eapply contains_trans; eassumption.
  - intros (r & Hr & Hc). exists r. split; [| assumption].
    apply mem_In. now apply Hsub.
Qed.

Lemma blank_lower (p : str) : blank (Py.lower p) = blank p.
Proof.
  unfold blank. induction p as [| c p IH]; [reflexivity |].
  simpl. now rewrite isspace_lower_char, IH.
Qed.

Lemma contains_blank_prefix (k p s : str) :
  solid_ends k = true -> blank p = true ->
  Py.contains k (p ++ s) = Py.contains k s.
Proof.
  intros Hk Hp. induction p as [| x p IH]; [reflexivity |].
  simpl in Hp. apply andb_true_iff in Hp as [Hx Hp].
  destruct k as [| c k]; [discriminate |].
  unfold solid_ends in Hk. apply andb_true_iff in Hk as [Hc _].
  apply negb_true_iff in Hc.
  change ((x :: p) ++ s) with (x :: p ++ s). cbn [Py.contains Py.startswith].
  assert (E : Ascii.eqb x c = false).
  { apply not_true_is_false. intros H. apply Ascii.eqb_eq in H. congruence. }
  rewrite E. cbn [andb orb]. now apply IH.
Qed.

Lemma contains_blank_suffix (k p s : str) :
  solid_ends k = true -> blank p = true ->
  Py.contains k (s ++ p) = Py.contains k s.
Proof.
  intros Hk Hp. apply eq_iff_eq_true. rewrite !contains_iff. split.
  - revert Hp. induction p as [| x p IH] using rev_ind; intros Hp (a & b & E).
    + rewrite app_nil_r in E. now exists a, b.
    + unfold blank in Hp. rewrite forallb_app in Hp.
      apply andb_true_iff in Hp as [Hp Hx]. simpl in Hx. rewrite andb_true_r in Hx.
      apply IH; [exact Hp |].
      induction b as [| y b' _] using rev_ind.
      * (* the occurrence would end on the whitespace character [x] *)
        exfalso. rewrite app_nil_r in E.
        unfold solid_ends in Hk. apply andb_true_iff in Hk as [_ Hlast].
        destruct (rev k) as [| c rk] eqn:Hr; [discriminate |].
        apply negb_true_iff in Hlast.
        assert (Ek : k = rev rk ++ [c]).
        { rewrite <- (rev_involutive k), Hr. reflexivity. }
        rewrite Ek, !app_assoc in E. apply app_inj_tail in E as [_ ->]. congruence.
      * exists a, b'.
        rewrite !app_assoc in E. apply app_inj_tail in E as [E _].
        now rewrite <- !app_assoc in E.
  - intros (a & b & ->). exists a, (b ++ p). now rewrite <- !app_assoc.
Qed.

Lemma any_in_padding (set : list str) (pre s post : str) :
  forallb solid_ends set = true -> blank pre = true -> blank post = true ->
  Py.any_in set (pre ++ s ++ post) = Py.any_in set s.
Proof.
  intros Hset Hpre Hpost. unfold Py.any_in. rewrite forallb_forall in Hset.
  induction set as [| k set IH]; [reflexivity |].
  cbn [existsb]. rewrite IH by (intros x Hx; apply Hset; now right).
  f_equal. rewrite contains_blank_prefix, contains_blank_suffix;
    try reflexivity; try assumption; apply Hset; now left.
Qed.

(** X17. Classification looks neither at letter case nor at whitespace
    around the query: two queries with the same lowercase form, one of
    them wrapped in whitespace, get the same intent. This holds for the
    document keywords too, although [_is_document_question] does not
    trim its argument. *)
Theorem classify_ignores_case_and_padding (pre query query' post : str) :
  blank pre = true -> blank post = true ->
  Py.lower query' = Py.lower query ->
  classify (pre ++ query' ++ post) = classify query.
Proof.
  intros Hpre Hpost Hlow.
  assert (Hl : Py.lower (pre ++ query' ++ post)
               = Py.lower pre ++ Py.lower query ++ Py.lower post).
  { now rewrite !lower_app, Hlow. }
  assert (Hs : Py.strip (Py.lower (pre ++ query' ++ post)) = Py.strip (Py.lower query)).
  { rewrite Hl. apply strip_padding; now rewrite blank_lower. }
  assert (Hd : _is_document_question (pre ++ query' ++ post)
               = _is_document_question query).
  { unfold _is_document_question. rewrite Hl.
    apply any_in_padding; [reflexivity | |]; now rewrite blank_lower. }
  unfold classify, _is_greeting, _is_farewell, _is_unclear_query.
  now rewrite Hs, Hd.
Qed.

Lemma classify_ignores_case_and_padding_witness :
  let pre := [Py.space; Py.newline] in
  let post := [Py.space] in
  blank pre = true /\ blank post = true
  /\ Py.lower s!"What does the PDF say?" = Py.lower s!"what does the pdf say?"
  /\ classify (pre ++ s!"What does the PDF say?" ++ post) = DocumentTargeted.
Proof.
  intros pre post.
  assert (Hpre : blank pre = true) by reflexivity.
  assert (Hpost : blank post = true) by reflexivity.
  assert (Hlow : Py.lower s!"What does the PDF say?" = Py.lower s!"what does the pdf say?")
    by reflexivity.
  repeat (split; [assumption |]).
  rewrite (@classify_ignores_case_and_padding pre s!"what does the pdf say?"
             s!"What does the PDF say?" post Hpre Hpost Hlow).
  reflexivity.
Defined.

End ClassifierProperties.

(* ===================================================================== *)
(** ** [rag_chain.py]: the remaining branches of the orchestrator *)
(* ===================================================================== *)

Section OrchestratorBranches.

Variable FAISS : Type.
Variable X : Externals FAISS.

Lemma generate_response_run (query : str) (context : list Retrieved)
      (w : world (RAGChain.t FAISS)) :
  let prompt := RAGChain._build_prompt query (RAGChain._format_context context) in
  RAGChain.generate_response X query context w
  = (llm_invoke X (calls w) prompt, World (self w) (calls w ++ [LLMInvoke prompt])).
Proof.
  unfold RAGChain.generate_response. now rewrite try_except_reraise.
Qed.

Lemma answer_question_no_index (query : str) (k : Z) (u : bool)
      (w : world (RAGChain.t FAISS)) :
  _is_greeting query = false -> _is_farewell query = false ->
  _is_unclear_query query = false ->
  RAGChain.vector_store (self w) = None ->
  RAGChain.answer_question X query k u w
  = (result_map uncited (llm_invoke X (calls w) (RAGChain.general_prompt query)),
     World (self w) (calls w ++ [LLMInvoke (RAGChain.general_prompt query)])).
Proof.
  intros Hg Hf Hu Hvs. unfold RAGChain.answer_question.
  rewrite try_except_reraise, Hg, Hf, Hu.
  unfold bind at 1. unfold get at 1. rewrite Hvs. unfold bind.
  rewrite generate_response_without_context_run.
  now destruct (llm_invoke X (calls w) (RAGChain.general_prompt query)).
Qed.

Lemma answer_question_search_fails (query : str) (k : Z) (u : bool)
      (w : world (RAGChain.t FAISS)) (ix : FAISS) (e : exn) :
  _is_greeting query = false -> _is_farewell query = false ->
  _is_unclear_query query = false ->
  RAGChain.vector_store (self w) = Some ix ->
  similarity_search X (calls w) ix k query = Raise e ->
  RAGChain.answer_question X query k u w
  = (Raise e, World (self w) (calls w ++ [RetrieverInvoke k query])).
Proof.
  intros Hg Hf Hu Hvs Hsearch. unfold RAGChain.answer_question.
  rewrite try_except_reraise, Hg, Hf, Hu.
  unfold bind at 1. unfold get at 1. rewrite Hvs.
  unfold bind at 1. now rewrite (retrieve_context_run X query k w Hvs), Hsearch.
Qed.

(** X18. While no index has been built, a query that is neither a
    greeting, a farewell nor an unclear word is answered by the chat
    model on the general prompt, with no citation and without any call
    to the index; this includes document questions, which are not
    refused in that state. *)
Theorem without_index_everything_is_general
    (query : str) (k : Z) (u : bool) (w : world (RAGChain.t FAISS)) :
  classify query = DocumentTargeted \/ classify query = General ->
  RAGChain.vector_store (self w) = None ->
  RAGChain.answer_question X query k u w
  = (result_map uncited (llm_invoke X (calls w) (RAGChain.general_prompt query)),
     World (self w) (calls w ++ [LLMInvoke (RAGChain.general_prompt query)]))
  /\ existsb is_index_access
       (calls_during (RAGChain.answer_question X query k u) w) = false.
Proof.
  intros Hc Hvs. pose proof (classify_inv query) as Hinv.
  assert (H3 : _is_greeting query = false /\ _is_farewell query = false
               /\ _is_unclear_query query = false).
  { destruct Hc as [Hc | Hc]; rewrite Hc in Hinv; tauto. }
  destruct H3 as (Hg & Hf & Hu).
  pose proof (answer_question_no_index query k u w Hg Hf Hu Hvs) as Ha.
  split; [exact Ha |].
  rewrite (@calls_during_app _ _ (RAGChain.answer_question X query k u) w
             [LLMInvoke (RAGChain.general_prompt query)]); [reflexivity |].
  now rewrite Ha.
Qed.

(** X19. A document question asked while an index is present and the
    search returns at least one document is answered by the chat model on
    the grounded prompt built from the retrieved documents, and the
    citations are those documents in the order of the search, each with
    its content and metadata unchanged and no score. *)
Theorem document_query_with_hits_is_grounded
    (query : str) (k : Z) (u : bool) (w : world (RAGChain.t FAISS))
    (ix : FAISS) (docs : list Document) :
  classify query = DocumentTargeted ->
  RAGChain.vector_store (self w) = Some ix ->
  similarity_search X (calls w) ix k query = Ok docs ->
  docs <> [] ->
  let context := map (fun d => mkRetrieved (page_content d) (doc_metadata d) None) docs in
  let prompt := RAGChain._build_prompt query (RAGChain._format_context context) in
  RAGChain.answer_question X query k u w
  = (result_map (fun answer => (answer, context))
       (llm_invoke X (calls w ++ [RetrieverInvoke k query]) prompt),
     World (self w) (calls w ++ [RetrieverInvoke k query; LLMInvoke prompt])).
Proof.
  intros Hc Hvs Hsearch Hne context prompt.
  pose proof (classify_inv query) as Hinv. rewrite Hc in Hinv.
  destruct Hinv as (Hg & Hf & Hu & Hd).
  rewrite (answer_question_retrieved X query k u w Hg Hf Hu Hvs Hsearch), Hd.
  change (map RAGChain.to_retrieved docs) with context.
  assert (Hn : RAGChain.nonempty context = true).
  { unfold context. destruct docs; [congruence | reflexivity]. }
  rewrite Hn. cbn [andb]. rewrite generate_response_run. cbn [fst snd self calls].
  fold prompt. now rewrite <- app_assoc.
Qed.

(** X20. When the search fails, the orchestrator re-raises that failure
    as it is: the chat model is not called and the object is unchanged. *)
Theorem retrieval_failure_propagates
    (query : str) (k : Z) (u : bool) (w : world (RAGChain.t FAISS))
    (ix : FAISS) (e : exn) :
  classify query = DocumentTargeted \/ classify query = General ->
  RAGChain.vector_store (self w) = Some ix ->
  similarity_search X (calls w) ix k query = Raise e ->
  RAGChain.answer_question X query k u w
  = (Raise e, World (self w) (calls w ++ [RetrieverInvoke k query]))
  /\ existsb is_llm_call (calls_during (RAGChain.answer_question X query k u) w) = false.
Proof.
  intros Hc Hvs Hsearch. pose proof (classify_inv query) as Hinv.
  assert (H3 : _is_greeting query = false /\ _is_farewell query = false
               /\ _is_unclear_query query = false).
  { destruct Hc as [Hc | Hc]; rewrite Hc in Hinv; tauto. }
  destruct H3 as (Hg & Hf & Hu).
  pose proof (answer_question_search_fails query k u w Hg Hf Hu Hvs Hsearch) as Ha.
  split; [exact Ha |].
  rewrite (@calls_during_app _ _ (RAGChain.answer_question X query k u) w
             [RetrieverInvoke k query]); [reflexivity |].
  now rewrite Ha.
Qed.

(** The shape of every run of the orchestrator. *)
(** Discharges the conditions on a concrete list of calls. *)
Ltac call_shape :=
  split; [repeat (constructor; try exact I) |];
  split; [simpl; lia |];
  split; [simpl; lia |].

Lemma answer_question_cases (query : str) (k : Z) (u : bool)
      (w : world (RAGChain.t FAISS)) :
  exists r evs,
    RAGChain.answer_question X query k u w = (r, World (self w) (calls w ++ evs))
    /\ Forall answering_call evs
    /\ length (filter is_llm_call evs) <= 1
    /\ length (filter is_index_access evs) <= 1
    /\ (forall answer cites, r = Ok (answer, cites) -> cites <> [] ->
        classify query = DocumentTargeted
        /\ exists ix docs,
             RAGChain.vector_store (self w) = Some ix
             /\ similarity_search X (calls w) ix k query = Ok docs
             /\ cites = map RAGChain.to_retrieved docs).
Proof.
  pose proof (classify_inv query) as Hinv.
  destruct (classify query) eqn:Hc.
  - rewrite (answer_question_greeting X query k u w Hinv).
    eexists _, [_]. split; [reflexivity |]. call_shape.
    intros answer cites E Hne.
    destruct (llm_invoke X (calls w) (RAGChain.general_prompt query)); [| discriminate].
    injection E as _ <-. congruence.
  - destruct Hinv as (Hg & Hf).
    destruct (answer_question_farewell X query k u w Hg Hf) as (msg & _ & ->).
    eexists _, [_]. split; [reflexivity |]. call_shape.
    intros answer cites E Hne. injection E as _ <-. congruence.
  - destruct Hinv as (Hg & Hf & Hu).
    destruct (answer_question_unclear X query k u w Hg Hf Hu) as (msg & _ & ->).
    eexists _, [_]. split; [reflexivity |]. call_shape.
    intros answer cites E Hne. injection E as _ <-. congruence.
  - destruct Hinv as (Hg & Hf & Hu & Hd).
    destruct (RAGChain.vector_store (self w)) as [ix |] eqn:Hvs.
    + destruct (similarity_search X (calls w) ix k query) as [docs | e] eqn:Hs.
      * rewrite (answer_question_retrieved X query k u w Hg Hf Hu Hvs Hs), Hd.
        cbn [andb]. destruct (RAGChain.nonempty (map RAGChain.to_retrieved docs)).
        -- rewrite generate_response_run. cbn [fst snd self calls].
           eexists _, [_; _]. split; [now rewrite <- app_assoc |]. call_shape.
           intros answer cites E _. split; [reflexivity |].
           exists ix, docs. split; [reflexivity |]. split; [exact Hs |].
           destruct (llm_invoke X _ _); [| discriminate]. now injection E as _ <-.
        -- eexists _, [_]. split; [reflexivity |]. call_shape.
           intros answer cites E Hne. injection E as _ <-. congruence.
      * rewrite (answer_question_search_fails query k u w Hg Hf Hu Hvs Hs).
        eexists _, [_]. split; [reflexivity |]. call_shape.
        intros answer cites E. discriminate E.
    + rewrite (answer_question_no_index query k u w Hg Hf Hu Hvs).
      eexists _, [_]. split; [reflexivity |]. call_shape.
      intros answer cites E Hne.
      destruct (llm_invoke X (calls w) (RAGChain.general_prompt query)); [| discriminate].
      injection E as _ <-. congruence.
  - destruct Hinv as (Hg & Hf & Hu & Hd).
    destruct (RAGChain.vector_store (self w)) as [ix |] eqn:Hvs.
    + destruct (similarity_search X (calls w) ix k query) as [docs | e] eqn:Hs.
      * rewrite (answer_question_retrieved X query k u w Hg Hf Hu Hvs Hs), Hd.
        cbn [andb]. rewrite generate_response_without_context_run.
        cbn [fst snd self calls].
        eexists _, [_; _]. split; [now rewrite <- app_assoc |]. call_shape.
        intros answer cites E Hne.
        destruct (llm_invoke X _ _); [| discriminate].
        injection E as _ <-. congruence.
      * rewrite (answer_question_search_fails query k u w Hg Hf Hu Hvs Hs).
        eexists _, [_]. split; [reflexivity |]. call_shape.
        intros answer cites E. discriminate E.
    + rewrite (answer_question_no_index query k u w Hg Hf Hu Hvs).
      eexists _, [_]. split; [reflexivity |]. call_shape.
      intros answer cites E Hne.
      destruct (llm_invoke X (calls w) (RAGChain.general_prompt query)); [| discriminate].
      injection E as _ <-. congruence.
Qed.

(** X21. Answering never changes the orchestrator: whatever the query and
    the outcome, the index and the retriever are as before, the only
    external calls are to the chat model, the search and the random
    source, and there is at most one chat-model call and at most one
    search; the index is never rebuilt. *)
Theorem answering_leaves_the_index_alone
    (query : str) (k : Z) (u : bool) (w : world (RAGChain.t FAISS)) :
  let out := RAGChain.answer_question X query k u w in
  let made := calls_during (RAGChain.answer_question X query k u) w in
  self (snd out) = self w
  /\ calls (snd out) = calls w ++ made
  /\ Forall answering_call made
  /\ length (filter is_llm_call made) <= 1
  /\ length (filter is_index_access made) <= 1.
Proof.
  intros out made.
  destruct (answer_question_cases query k u w) as (r & evs & E & Hall & Hl & Hi & _).
  assert (Hm : made = evs) by (apply calls_during_app; now rewrite E).
  unfold out. rewrite Hm, E. now repeat split.
Qed.

(** X22. Citations come from the index only: whenever the orchestrator
    returns a non-empty list of citations, the query was a document
    question, an index was present, and the citations are the documents
    the search returned for that query, in order. *)
Theorem citations_only_for_document_questions
    (query : str) (k : Z) (u : bool) (w : world (RAGChain.t FAISS))
    (answer : str) (cites : list Retrieved) :
  fst (RAGChain.answer_question X query k u w) = Ok (answer, cites) ->
  cites <> [] ->
  classify query = DocumentTargeted
  /\ exists ix docs,
       RAGChain.vector_store (self w) = Some ix
       /\ similarity_search X (calls w) ix k query = Ok docs
       /\ cites = map RAGChain.to_retrieved docs.
Proof.
  intros E Hne.
  destruct (answer_question_cases query k u w) as (r & evs & Ea & _ & _ & _ & Hc).
  rewrite Ea in E. now apply (Hc answer cites).
Qed.

End OrchestratorBranches.

(** Instances of the branch properties on the test doubles. *)

Lemma without_index_everything_is_general_witness :
  let query := s!"what does the document say about insulin" in
  let w := World (RAGChain.init (list Document)) [] in
  classify query = DocumentTargeted
  /\ RAGChain.answer_question double query 5 false w
     = (Ok (RAGChain.general_prompt query, []),
        World (self w) [LLMInvoke (RAGChain.general_prompt query)]).
Proof.
  intros query w.
  assert (Hc : classify query = DocumentTargeted) by reflexivity.
  split; [exact Hc |].
  exact (proj1 (@without_index_everything_is_general _ double query 5%Z false w
                  (or_introl Hc) eq_refl)).
Defined.

Lemma document_query_with_hits_is_grounded_witness :
  let query := s!"what does the document say about insulin" in
  let doc := mkDocument s!"Insulin lowers blood glucose."
               [(s!"source", MStr s!"a.pdf"); (s!"chunk_id", MInt 3)] in
  let w := World (RAGChain.mk (Some [doc]) (Some ([doc], 5%Z))) [] in
  classify query = DocumentTargeted
  /\ similarity_search double (calls w) [doc] 5%Z query = Ok [doc]
  /\ snd (RAGChain.answer_question double query 5 false w)
     = World (self w)
         [RetrieverInvoke 5 query;
          LLMInvoke (RAGChain._build_prompt query
                       (RAGChain._format_context
                          [mkRetrieved (page_content doc) (doc_metadata doc) None]))].
Proof.
  intros query doc w.
  assert (Hc : classify query = DocumentTargeted) by reflexivity.
  assert (Hs : similarity_search double (calls w) [doc] 5%Z query = Ok [doc])
    by reflexivity.
  assert (Hne : [doc] <> []) by discriminate.
  split; [exact Hc |]. split; [exact Hs |].
  rewrite (@document_query_with_hits_is_grounded _ double query 5%Z false w
             [doc] [doc] Hc eq_refl Hs Hne).
  reflexivity.
Defined.

Lemma retrieval_failure_propagates_witness :
  let query := s!"what is insulin" in
  let w := World (RAGChain.mk (Some []) (Some ([], 5%Z))) [] in
  classify query = General
  /\ RAGChain.answer_question double_search_down query 5 false w
     = (Raise (ExternalError s!"index unavailable"),
        World (self w) [RetrieverInvoke 5 query]).
Proof.
  intros query w.
  assert (Hc : classify query = General) by reflexivity.
  split; [exact Hc |].
  exact (proj1 (@retrieval_failure_propagates _ double_search_down query 5%Z false w
                  [] _ (or_intror Hc) eq_refl eq_refl)).
Defined.

Lemma citations_only_for_document_questions_witness :
  let query := s!"what does the document say about insulin" in
  let doc := mkDocument s!"Insulin lowers blood glucose." [] in
  let w := World (RAGChain.mk (Some [doc]) (Some ([doc], 5%Z))) [] in
  let out := RAGChain.answer_question double query 5 false w in
  exists answer cites,
    fst out = Ok (answer, cites) /\ cites <> []
    /\ classify query = DocumentTargeted.
Proof.
  intros query doc w out.
  eexists _, [_].
  assert (E : fst out = Ok (RAGChain._build_prompt query
                              (RAGChain._format_context [RAGChain.to_retrieved doc]),
                            [RAGChain.to_retrieved doc])) by reflexivity.
  assert (Hne : [RAGChain.to_retrieved doc] <> []) by discriminate.
  split; [exact E |]. split; [exact Hne |].
  exact (proj1 (@citations_only_for_document_questions _ double query 5%Z false w
                  _ _ E Hne)).
Defined.

(* ===================================================================== *)
(** ** [rag_chain.py]: the grounded prompt *)
(* ===================================================================== *)

Section GroundedPrompt.

Lemma contains_app_right (k a b : str) :
  Py.contains k b = true -> Py.contains k (a ++ b) = true.
Proof.
  rewrite !contains_iff. intros (x & y & ->). exists (a ++ x), y.
  now rewrite <- app_assoc.
Qed.

Lemma contains_app_left (k a b : str) :
  Py.contains k a = true -> Py.contains k (a ++ b) = true.
Proof.
  rewrite !contains_iff. intros (x & y & ->). exists x, (y ++ b).
  now rewrite <- !app_assoc.
Qed.

Lemma contains_in_join (sep p : str) (parts : list str) :
  In p parts -> Py.contains p (Py.join sep parts) = true.
Proof.
  induction parts as [| q parts IH]; [contradiction |].
  destruct parts as [| q2 parts].
  - intros [-> | []]. apply contains_refl.
  - rewrite join_cons2. intros [-> | H].
    + apply contains_app_left, contains_refl.
    + apply contains_app_right, contains_app_right. now apply IH.
Qed.

Lemma format_entry_block (n : nat) (doc : Retrieved) :
  RAGChain.format_entry n doc = context_block n doc.
Proof.
  unfold RAGChain.format_entry, context_block, source_label, Utils.get_or_unknown.
  now destruct (dict_get (metadata doc) s!"source") as [[v | v] |].
Qed.

Lemma format_entries_nth (context : list Retrieved) :
  forall start i doc,
    nth_error context i = Some doc ->
    In (context_block (start + i) doc) (RAGChain.format_entries start context).
Proof.
  induction context as [| d context IH]; intros start i doc H.
  - destruct i; discriminate.
  - destruct i as [| i]; cbn [RAGChain.format_entries].
    + injection H as ->. left. rewrite Nat.add_0_r. apply format_entry_block.
    + right. replace (start + S i) with (S start + i) by lia. now apply IH.
Qed.

(** X23. The grounded prompt carries what it is grounded in: it contains
    the query, and for the document at position [i] of the context the
    block made of the heading ["[Document i+1 - source]"] (["Unknown"]
    when the metadata has no source) followed by the full content of
    the document. *)
Theorem grounded_prompt_carries_the_context
    (query : str) (context : list Retrieved) (i : nat) (doc : Retrieved) :
  nth_error context i = Some doc ->
  let prompt := RAGChain._build_prompt query (RAGChain._format_context context) in
  Py.contains query prompt = true
  /\ Py.contains (context_block (i + 1) doc) prompt = true
  /\ Py.contains (content doc) prompt = true.
Proof.
  intros H prompt.
  assert (Hq : Py.contains query prompt = true).
  { apply contains_in_join. do 6 right. now left. }
  assert (Hctx : Py.contains (RAGChain._format_context context) prompt = true).
  { apply contains_in_join. do 3 right. now left. }
  assert (Hb : Py.contains (context_block (i + 1) doc) prompt = true).
  { eapply contains_trans; [| exact Hctx]. apply contains_in_join.
    rewrite Nat.add_comm. now apply format_entries_nth. }
  repeat split; try assumption.
  eapply contains_trans; [| exact Hb]. unfold context_block.
  rewrite !app_assoc. apply contains_app_left, contains_app_right, contains_refl.
Qed.

Lemma grounded_prompt_carries_the_context_witness :
  let first := mkRetrieved s!"Insulin lowers blood glucose." [(s!"source", MStr s!"a.pdf")] None in
  let second := mkRetrieved s!"Metformin is taken orally." [] None in
  let prompt := RAGChain._build_prompt s!"what does the document say"
                  (RAGChain._format_context [first; second]) in
  nth_error [first; second] 1 = Some second
  /\ Py.contains (s!"[Document 2 - Unknown]" ++ [Py.newline]
                  ++ s!"Metformin is taken orally." ++ [Py.newline]) prompt = true.
Proof.
  intros first second prompt.
  assert (H : nth_error [first; second] 1 = Some second) by reflexivity.
  split; [exact H |].
  exact (proj1 (proj2 (@grounded_prompt_carries_the_context
                         s!"what does the document say" [first; second] 1 second H))).
Defined.

End GroundedPrompt.

(* ===================================================================== *)
(** ** [rag_chain.py]: building, then searching *)
(* ===================================================================== *)

Section BuildThenSearch.

Variable FAISS : Type.
Variable X : Externals FAISS.

(** X24. [create_vector_store] converts the chunks to documents (a
    missing metadata entry becomes the empty dictionary) and calls the
    backend once. If the backend returns an index, that index becomes the
    vector store and the retriever is set to it with [k = 5], whatever
    was installed before; a search that follows passes the guard and
    returns the backend's results as retrieval results. If the backend
    fails, the exception is re-raised and the object is left as it
    was. *)
Theorem build_then_search
    (documents : list Chunk) (query : str) (k : Z) (w : world (RAGChain.t FAISS)) :
  let docs := map (fun c => mkDocument (chunk_content c)
                              (match chunk_metadata c with Some m => m | None => [] end))
                  documents in
  let built := RAGChain.create_vector_store X documents w in
  (forall ix,
     faiss_from_documents X (calls w) docs = Ok ix ->
     built = (Ok tt, World (RAGChain.mk (Some ix) (Some (ix, 5%Z)))
                           (calls w ++ [FAISSFromDocuments docs]))
     /\ RAGChain.retrieve_context X query k (snd built)
        = (result_map (map RAGChain.to_retrieved)
             (similarity_search X (calls w ++ [FAISSFromDocuments docs]) ix k query),
           World (RAGChain.mk (Some ix) (Some (ix, 5%Z)))
                 (calls w ++ [FAISSFromDocuments docs; RetrieverInvoke k query])))
  /\ (forall e,
        faiss_from_documents X (calls w) docs = Raise e ->
        built = (Raise e, World (self w) (calls w ++ [FAISSFromDocuments docs]))).
Proof.
  intros docs built.
  assert (Hrun := rag_create_vector_store_run X documents w). cbv zeta in Hrun.
  change (map RAGChain.to_document documents) with docs in Hrun.
  split.
  - intros ix Hb. rewrite Hb in Hrun. split; [exact Hrun |].
    unfold built. rewrite Hrun. cbn [snd].
    rewrite (@retrieve_context_run _ X query k
               (World (RAGChain.mk (Some ix) (Some (ix, 5%Z)))
                      (calls w ++ [FAISSFromDocuments docs])) ix eq_refl).
    cbn [self calls].
    now rewrite <- app_assoc.
  - intros e Hb. now rewrite Hb in Hrun.
Qed.

End BuildThenSearch.

Lemma build_then_search_witness :
  let chunk := mkChunk s!"Insulin lowers blood glucose." None in
  let w := World (RAGChain.mk (Some []) (Some ([], 5%Z))) [] in
  let built := RAGChain.create_vector_store double [chunk] w in
  fst built = Ok tt
  /\ fst (RAGChain.retrieve_context double s!"insulin" 3 (snd built))
     = Ok [mkRetrieved s!"Insulin lowers blood glucose." [] None].
Proof.
  intros chunk w built.
  destruct (proj1 (@build_then_search _ double [chunk] s!"insulin" 3%Z w) _ eq_refl)
    as [Hb Hs].
  split.
  - fold built in Hb. now rewrite Hb.
  - fold built in Hs. now rewrite Hs.
Defined.

(* ===================================================================== *)
(** ** [document_processor.py] *)
(* ===================================================================== *)

Section DocumentProcessing.

Variable FAISS : Type.
Variable X : Externals FAISS.

Lemma eqb_refl (a : str) : Py.eqb a a = true.
Proof. now apply eqb_eq. Qed.

Lemma dict_get_filter_other {V} (d : list (str * V)) (key k : str) :
  Py.eqb key k = false ->
  dict_get (filter (fun kv => negb (Py.eqb (fst kv) key)) d) k = dict_get d k.
Proof.
  intros Hne. induction d as [| [k0 v0] d IH]; [reflexivity |].
  cbn [filter fst]. destruct (Py.eqb k0 key) eqn:E; cbn [negb dict_get].
  - apply eqb_eq in E. subst k0. now rewrite Hne.
  - now rewrite IH.
Qed.

(** Lookups in [{key: v, **d}]. *)
Lemma dict_with_first_get {V} (key : str) (v : V) (d : list (str * V)) (k : str) :
  dict_get (dict_with_first key v d) k
  = if Py.eqb key k
    then Some (match dict_get d key with Some v' => v' | None => v end)
    else dict_get d k.
Proof.
  unfold dict_with_first.
  destruct (dict_get d key) as [v' |] eqn:E; cbn [dict_get];
    destruct (Py.eqb key k) eqn:Ek; try reflexivity.
  now apply dict_get_filter_other.
Qed.

Lemma chunked_docs_nth (pieces : list str) (md : metadata_dict) :
  forall start i piece,
    nth_error pieces i = Some piece ->
    nth_error (DocumentProcessor.chunked_docs start pieces md) i
    = Some (mkChunk piece
              (Some (dict_with_first s!"chunk_id" (MInt (Z.of_nat (start + i))) md))).
Proof.
  induction pieces as [| p pieces IH]; intros start i piece H.
  - destruct i; discriminate.
  - destruct i as [| i]; cbn [DocumentProcessor.chunked_docs nth_error].
    + injection H as ->. now rewrite Nat.add_0_r.
    + replace (start + S i) with (S start + i) by lia. now apply IH.
Qed.

Lemma chunked_docs_length (pieces : list str) (md : metadata_dict) :
  forall start, length (DocumentProcessor.chunked_docs start pieces md) = length pieces.
Proof.
  induction pieces as [| p pieces IH]; intros start; [reflexivity |].
  cbn [DocumentProcessor.chunked_docs length]. now rewrite IH.
Qed.

(** X25. [chunk_text] returns one chunk per piece of the splitter, in
    order, with the piece as content. Every entry of the caller's
    metadata is found again in every chunk; the chunk id is the position
    of the piece, unless the caller's metadata has a ["chunk_id"] of its
    own, which then replaces the position in every chunk. *)
Theorem chunk_text_metadata
    (text : str) (md : option metadata_dict) (w : world DocumentProcessor.t) :
  let pieces := splitter_split_text X (calls w) text in
  let given := match md with Some d => d | None => [] end in
  exists chunks,
    DocumentProcessor.chunk_text X text md w
    = (Ok chunks, World (self w) (calls w ++ [SplitText text]))
    /\ length chunks = length pieces
    /\ forall i piece,
         nth_error pieces i = Some piece ->
         exists meta,
           nth_error chunks i = Some (mkChunk piece (Some meta))
           /\ dict_get meta s!"chunk_id"
              = Some (match dict_get given s!"chunk_id" with
                      | Some own => own
                      | None => MInt (Z.of_nat i)
                      end)
           /\ forall key, Py.eqb s!"chunk_id" key = false ->
                          dict_get meta key = dict_get given key.
Proof.
  intros pieces given. eexists. split; [reflexivity |].
  split; [apply chunked_docs_length |].
  intros i piece H. eexists. split; [now apply chunked_docs_nth |].
  split.
  - now rewrite dict_with_first_get, eqb_refl.
  - intros key Hk. now rewrite dict_with_first_get, Hk.
Qed.

Lemma page_markers_app (pages : list str) :
  forall n text,
    DocumentProcessor.page_markers n pages text
    = text ++ DocumentProcessor.page_markers n pages [].
Proof.
  induction pages as [| p pages IH]; intros n text; cbn [DocumentProcessor.page_markers].
  - now rewrite app_nil_r.
  - rewrite IH. rewrite (IH _ ([] ++ _)). now rewrite <- !app_assoc.
Qed.

(** X26. On a file the reader can read, [process_pdf] returns one chunk
    per piece that the splitter makes of the extracted text, in order:
    chunk [i] has the piece as content and exactly the metadata
    [chunk_id = i], [source = filename], [type = "pdf"]. The extracted
    text is the page texts in order, each behind its page marker; the
    processor itself is unchanged. *)
Theorem process_pdf_chunks
    (file : UploadedFile) (filename : str) (w : world DocumentProcessor.t)
    (pages : list str) :
  pdf_page_texts X (calls w) (data file) = Ok pages ->
  let text := DocumentProcessor.page_markers 0 pages [] in
  let pieces := splitter_split_text X (calls w ++ [PdfRead (data file)]) text in
  exists chunks,
    DocumentProcessor.process_pdf X file filename w
    = (Ok chunks, World (self w) (calls w ++ [PdfRead (data file); SplitText text]))
    /\ length chunks = length pieces
    /\ (forall i piece,
          nth_error pieces i = Some piece ->
          nth_error chunks i = Some (mkChunk piece (Some (pdf_chunk_metadata i filename))))
    /\ (forall page rest,
          pages = page :: rest ->
          text = [Py.newline] ++ s!"--- Page 1 ---" ++ [Py.newline] ++ page
                 ++ DocumentProcessor.page_markers 1 rest []).
Proof.
  intros Hread text pieces. rewrite process_pdf_run, Hread. cbv zeta.
  fold text. fold pieces. eexists. split; [now rewrite <- app_assoc |].
  split; [apply chunked_docs_length |]. split.
  - intros i piece H. now apply chunked_docs_nth.
  - intros page rest ->. unfold text. cbn [DocumentProcessor.page_markers].
    rewrite page_markers_app. reflexivity.
Qed.

(** X27. Whatever exception the PDF reader raises, [process_pdf] raises
    a [ValueError] whose message is ["Error reading PDF: "] followed by
    the message of that exception; the splitter is not called and the
    processor is unchanged. *)
Theorem unreadable_pdf_is_a_value_error
    (file : UploadedFile) (filename : str) (w : world DocumentProcessor.t) (e : exn) :
  pdf_page_texts X (calls w) (data file) = Raise e ->
  DocumentProcessor.extract_text_from_pdf X file w
  = (Raise (ValueError (s!"Error reading PDF: " ++ exn_str e)),
     World (self w) (calls w ++ [PdfRead (data file)]))
  /\ DocumentProcessor.process_pdf X file filename w
     = (Raise (ValueError (s!"Error reading PDF: " ++ exn_str e)),
        World (self w) (calls w ++ [PdfRead (data file)])).
Proof.
  intros Hread. split.
  - unfold DocumentProcessor.extract_text_from_pdf, try_except, bind, external, raise.
    now rewrite Hread.
  - now rewrite process_pdf_run, Hread.
Qed.

End DocumentProcessing.

Lemma process_pdf_chunks_witness :
  let file := mkFile s!"notes.pdf" s!"Insulin lowers blood glucose." in
  let w := World DocumentProcessor.init [] in
  pdf_page_texts double (calls w) (data file) = Ok [s!"Insulin lowers blood glucose."]
  /\ exists chunks,
       fst (DocumentProcessor.process_pdf double file (name file) w) = Ok chunks
       /\ nth_error chunks 0
          = Some (mkChunk ([Py.newline] ++ s!"--- Page 1 ---" ++ [Py.newline]
                           ++ s!"Insulin lowers blood glucose.")
                    (Some [(s!"chunk_id", MInt 0); (s!"source", MStr s!"notes.pdf");
                           (s!"type", MStr s!"pdf")])).
Proof.
  intros file w.
  assert (Hread : pdf_page_texts double (calls w) (data file)
                  = Ok [s!"Insulin lowers blood glucose."]) by reflexivity.
  split; [exact Hread |].
  destruct (@process_pdf_chunks _ double file (name file) w _ Hread)
    as (chunks & E & _ & Hnth & _).
  exists chunks. split; [now rewrite E |].
  exact (Hnth 0 _ eq_refl).
Defined.

Lemma unreadable_pdf_is_a_value_error_witness :
  let file := mkFile s!"scan.pdf" [] in
  let w := World DocumentProcessor.init [] in
  pdf_page_texts double (calls w) (data file)
  = Raise (ExternalError s!"Cannot read an empty file")
  /\ fst (DocumentProcessor.process_pdf double file (name file) w)
     = Raise (ValueError s!"Error reading PDF: Cannot read an empty file").
Proof.
  intros file w.
  assert (Hread : pdf_page_texts double (calls w) (data file)
                  = Raise (ExternalError s!"Cannot read an empty file")) by reflexivity.
  split; [exact Hread |].
  now rewrite (proj2 (@unreadable_pdf_is_a_value_error _ double file (name file) w _ Hread)).
Defined.

(* ===================================================================== *)
(** ** [app.py]: one turn of the conversation *)
(* ===================================================================== *)

Section Turn.

Variable FAISS : Type.
Variable X : Externals FAISS.

Lemma generate_only_run (query : str) (w : world (RAGChain.t FAISS)) :
  bind (RAGChain.generate_response_without_context X query)
       (fun answer => ret (answer, @nil Retrieved)) w
  = (result_map uncited (llm_invoke X (calls w) (RAGChain.general_prompt query)),
     World (self w) (calls w ++ [LLMInvoke (RAGChain.general_prompt query)])).
Proof.
  unfold bind. rewrite generate_response_without_context_run.
  now destruct (llm_invoke X (calls w) (RAGChain.general_prompt query)).
Qed.

(** Reduces the projections of worlds and of the session record. *)
Ltac session_step :=
  cbv beta iota zeta delta
    [fst snd self calls App.processed_docs App.set_chat_manager App.rag_chain
     App.chat_manager App.set_rag_chain App.doc_processor App.all_chunks].

Lemma handle_user_query_run (prompt : str) (w : world (App.session_state FAISS)) :
  let st := self w in
  let clean := Utils.sanitize_input prompt in
  let asked := snd (add_turn X (UserTurn clean) (World (App.chat_manager st) (calls w))) in
  let answering :=
    if RAGChain.nonempty (App.processed_docs st)
    then RAGChain.answer_question X clean 5 false
    else bind (RAGChain.generate_response_without_context X clean)
              (fun answer => ret (answer, [])) in
  let answered := answering (World (App.rag_chain st) (calls asked)) in
  App.handle_user_query X prompt w
  = (Ok tt,
     match fst answered with
     | Ok (answer, context) =>
         let replied :=
           snd (add_turn X
                  (AssistantTurn answer (Some [(s!"sources", ChatManager.Sources context)]))
                  (World (self asked) (calls (snd answered)))) in
         World (App.set_chat_manager (self replied) st) (calls replied)
     | Raise _ =>
         World (App.set_chat_manager (self asked) st) (calls (snd answered))
     end).
Proof.
  destruct w as [[pd dp rc cm ac] h]. cbv zeta.
  cbn [self calls App.chat_manager App.processed_docs App.rag_chain].
  set (clean := Utils.sanitize_input prompt).
  set (asked := snd (add_turn X (UserTurn clean) (World cm h))).
  assert (Hasked : exists m, add_turn X (UserTurn clean) (World cm h) = (Ok m, asked)).
  { unfold asked. rewrite add_turn_run. eexists. reflexivity. }
  destruct Hasked as (m & Hasked).
  unfold App.handle_user_query. fold clean.
  change (ChatManager.add_user_message X clean) with (add_turn X (UserTurn clean)).
  unfold try_except, bind, zoom, get, ret. session_step. rewrite Hasked. session_step.
  destruct (RAGChain.nonempty pd).
  - match goal with
    | |- context [RAGChain.answer_question X clean 5 false ?W] =>
        destruct (answer_question_cases X clean 5 false W) as (r & evs & E & _);
        rewrite E
    end.
    session_step. destruct r as [[answer context] | e]; [| reflexivity].
    change (ChatManager.add_assistant_message X answer
              (Some [(s!"sources", ChatManager.Sources context)]))
      with (add_turn X (AssistantTurn answer
                          (Some [(s!"sources", ChatManager.Sources context)]))).
    rewrite !add_turn_run. reflexivity.
  - rewrite !generate_response_without_context_run. session_step.
    destruct (llm_invoke X _ (RAGChain.general_prompt clean))
      as [answer | e]; [| reflexivity].
    change (ChatManager.add_assistant_message X answer
              (Some [(s!"sources", ChatManager.Sources [])]))
      with (add_turn X (AssistantTurn answer
                          (Some [(s!"sources", ChatManager.Sources [])]))).
    rewrite !add_turn_run. reflexivity.
Qed.

(** X29. One call of [handle_user_query] never raises and touches only
    the conversation: documents, chunks and index are as before. The
    sanitised prompt is appended as a user message first. Then the
    answer is computed, by the orchestrator when documents have been
    processed and by the ungrounded generator otherwise; if that
    succeeds, the answer is appended as an assistant message carrying
    the citations under ["sources"], and if it fails nothing more is
    appended. *)
Theorem handle_user_query_turn (prompt : str) (w : world (App.session_state FAISS)) :
  let out := App.handle_user_query X prompt w in
  let st := self w in
  let st' := self (snd out) in
  let clean := Utils.sanitize_input prompt in
  let asked := snd (add_turn X (UserTurn clean) (World (App.chat_manager st) (calls w))) in
  let answering :=
    if RAGChain.nonempty (App.processed_docs st)
    then RAGChain.answer_question X clean 5 false
    else bind (RAGChain.generate_response_without_context X clean)
              (fun answer => ret (answer, [])) in
  let answered := answering (World (App.rag_chain st) (calls asked)) in
  fst out = Ok tt
  /\ App.processed_docs st' = App.processed_docs st
  /\ App.all_chunks st' = App.all_chunks st
  /\ App.rag_chain st' = App.rag_chain st
  /\ App.doc_processor st' = App.doc_processor st
  /\ match fst answered with
     | Ok (answer, context) =>
         World (App.chat_manager st') (calls (snd out))
         = snd (add_turn X
                  (AssistantTurn answer (Some [(s!"sources", ChatManager.Sources context)]))
                  (World (self asked) (calls (snd answered))))
     | Raise _ =>
         App.chat_manager st' = self asked /\ calls (snd out) = calls (snd answered)
     end.
Proof.
  intros out st st' clean asked answering answered.
  pose proof (handle_user_query_run prompt w) as Hrun. cbv zeta in Hrun.
  fold st clean asked answering answered in Hrun.
  unfold st', out. rewrite Hrun. cbn [fst snd].
  split; [reflexivity |].
  destruct (fst answered) as [[answer context] | e]; cbn [self calls];
    repeat split; try reflexivity.
  match goal with |- _ = ?x => now destruct x end.
Qed.

(** X30. While no document has been processed, [handle_user_query]
    bypasses the orchestrator: every prompt, a farewell or a vague word
    included, goes to the chat model on the general prompt. The external
    calls of the turn are the clock for the user message, one chat-model
    call and, when it answers, the clock for the assistant message: the
    index and the canned messages are never used. *)
Theorem without_documents_every_prompt_reaches_the_model
    (prompt : str) (w : world (App.session_state FAISS)) :
  App.processed_docs (self w) = [] ->
  let clean := Utils.sanitize_input prompt in
  let asked := calls w ++ [DatetimeNow] in
  calls (snd (App.handle_user_query X prompt w))
  = asked ++ [LLMInvoke (RAGChain.general_prompt clean)]
    ++ match llm_invoke X asked (RAGChain.general_prompt clean) with
       | Ok _ => [DatetimeNow]
       | Raise _ => []
       end.
Proof.
  intros Hdocs clean asked.
  pose proof (handle_user_query_run prompt w) as Hrun. cbv zeta in Hrun.
  rewrite Hdocs in Hrun. cbn [RAGChain.nonempty] in Hrun.
  rewrite Hrun. fold clean. cbn [snd].
  rewrite generate_only_run, !add_turn_run. cbn [fst snd self calls]. fold asked.
  destruct (llm_invoke X asked (RAGChain.general_prompt clean)) as [answer | e];
    cbn [result_map uncited].
  - rewrite add_turn_run. cbn [snd calls]. now rewrite <- !app_assoc.
  - cbn [calls]. now rewrite app_nil_r.
Qed.

End Turn.

Lemma without_documents_every_prompt_reaches_the_model_witness :
  let w := initial_session double 20 in
  App.processed_docs (self w) = []
  /\ classify (Utils.sanitize_input s!"  bye ") = Farewell
  /\ calls (snd (App.handle_user_query double s!"  bye " w))
     = [DatetimeNow; DatetimeNow; LLMInvoke (RAGChain.general_prompt s!"bye");
        DatetimeNow].
Proof.
  intros w.
  assert (Hdocs : App.processed_docs (self w) = []) by reflexivity.
  split; [exact Hdocs |]. split; [reflexivity |].
  rewrite (@without_documents_every_prompt_reaches_the_model _ double s!"  bye " w Hdocs).
  reflexivity.
Defined.

(* ===================================================================== *)
(** ** Instances on the test double *)
(* ===================================================================== *)

Lemma chunk_text_metadata_witness :
  let w := World DocumentProcessor.init [] in
  let md := Some [(s!"chunk_id", MStr s!"intro"); (s!"source", MStr s!"a.pdf")] in
  exists chunks meta,
    fst (DocumentProcessor.chunk_text double s!"Insulin." md w) = Ok chunks
    /\ nth_error chunks 0 = Some (mkChunk s!"Insulin." (Some meta))
    /\ dict_get meta s!"chunk_id" = Some (MStr s!"intro")
    /\ dict_get meta s!"source" = Some (MStr s!"a.pdf").
Proof.
  intros w md.
  destruct (@chunk_text_metadata _ double s!"Insulin." md w)
    as (chunks & E & _ & Hnth).
  destruct (Hnth 0 s!"Insulin." eq_refl) as (meta & Hc & Hid & Hother).
  exists chunks, meta. split; [now rewrite E |]. split; [exact Hc |].
  split; [exact Hid |]. exact (Hother s!"source" eq_refl).
Defined.

Lemma retention_window_witness :
  let ts := map UserTurn [s!"a"; s!"b"; s!"c"; s!"d"; s!"e"; s!"f"; s!"g"] in
  let w := ChatManager.init double 2 [] in
  1 <= 2 /\ length ts = 2 + 5
  /\ map ChatManager.content
       (ChatManager.messages (self (snd (add_turns double ts w))))
     = [s!"f"; s!"g"].
Proof.
  intros ts w. split; [lia |]. split; [reflexivity |].
  destruct (@retention_window _ double 2 ts [] ltac:(lia)) as (_ & _ & Hfive).
  destruct (Hfive eq_refl) as [E _].
  change (ChatManager.messages (self (snd (add_turns double ts w)))
          = skipn 5 (created double ts (calls w))) in E.
  rewrite E. reflexivity.
Defined.

Lemma run_session_accumulates_witness :
  let first := [mkFile s!"a.pdf" s!"Insulin lowers blood glucose."] in
  let second := [mkFile s!"scan.pdf" []; mkFile s!"b.pdf" s!"Metformin is taken orally."] in
  let w := initial_session double 20 in
  let w' := snd (run_session double [first; second] w) in
  App.all_chunks (self w) = recorded_chunks (self w)
  /\ App.all_chunks (self w') = recorded_chunks (self w')
  /\ length (App.all_chunks (self w')) = 2.
Proof.
  intros first second w w'.
  assert (Hinv : App.all_chunks (self w) = recorded_chunks (self w)) by reflexivity.
  split; [exact Hinv |].
  destruct (@run_session_accumulates _ double [first; second] w Hinv) as (_ & Hrec & _).
  split; [exact Hrec | reflexivity].
Defined.

